(** * Double machine learning for partially linear models

    A shallow embedding of

    - [dml/dml_plr.py]: [DoubleMLPLR.fit] and [OrthDmlPlr.fit];
    - [dml/tests/test_plr.py]: the manual reference [dml_cross_fitting];
    - [doubleml/double_ml_pliv.py]: the methods of [DoubleMLPLIV]:
      [_check_inf_method], [_check_data], [_ml_nuisance_and_score_elements],
      [_ml_nuisance_tuning], [_set_ml_nuisance_params], and what [__init__]
      does after the initialiser of the base class.

    Python exceptions are values of [exn]; code that can raise returns a
    [result]; code that also calls learners runs in the monad [M], which
    threads the heap of learner objects and a trace of the calls made to
    them, and keeps both when an exception is raised. *)

From Stdlib Require Import Floats.PrimFloat Floats.SpecFloat Floats.FloatOps Floats.FloatAxioms.
From Stdlib Require Import Uint63 QArith Qcanon.
From stdpp Require Import gmap strings list.

Local Open Scope string_scope.
Local Open Scope list_scope.

(** ** Exceptions and results

    [Dangling] is not a Python exception: it is what the model answers when
    a reference names no object of the heap, which no Python program can
    bring about.  The statements below are about worlds in which the
    learners of [ml_learners] exist. *)

Inductive exn :=
| ValueError (msg : string)
| TypeError (msg : string)
| IndexError (msg : string)
| KeyError (key : string)
| NameError (name : string)
| UnboundLocalError (name : string)
| Dangling (l : nat).

Inductive result (A : Type) :=
| Ok (a : A)
| Raise (e : exn).
Arguments Ok {A} a.
Arguments Raise {A} e.

#[export] Instance result_ret : MRet result := fun A a => Ok a.
#[export] Instance result_bind : MBind result := fun A B f r =>
  match r with
  | Ok a => f a
  | Raise e => Raise e
  end.

Definition is_ok {A} (r : result A) : bool :=
  match r with Ok _ => true | Raise _ => false end.

(** [mapM] of the [result] monad: the first exception wins. *)
Fixpoint result_mapM {A B} (f : A -> result B) (l : list A) : result (list B) :=
  match l with
  | [] => Ok []
  | a :: l' => b ← f a; bs ← result_mapM f l'; Ok (b :: bs)
  end.

(** ** Scalars

    The arrays of the source hold [np.float64] values.  The code is written
    against the arithmetic interface [Scalar]; [binary64] is the instance the
    program runs at (IEEE 754 double precision, division by zero included) and
    [rational] is exact rational arithmetic, used to relate the sums the code
    computes to the means the documentation speaks of. *)

Class Scalar (F : Type) := {
  f_zero : F;
  f_add : F -> F -> F;
  f_sub : F -> F -> F;
  f_mul : F -> F -> F;
  f_div : F -> F -> F;
  f_neg : F -> F;
  f_of_nat : nat -> F;
  f_isfinite : F -> bool
}.

#[export] Instance binary64 : Scalar float := {|
  f_zero := PrimFloat.zero;
  f_add := PrimFloat.add;
  f_sub := PrimFloat.sub;
  f_mul := PrimFloat.mul;
  f_div := PrimFloat.div;
  f_neg := PrimFloat.opp;
  f_of_nat n := PrimFloat.of_uint63 (Uint63.of_Z (Z.of_nat n));
  f_isfinite x := negb (PrimFloat.is_nan x || PrimFloat.is_infinity x)
|}.

Definition rational : Scalar Qc := {|
  f_zero := 0%Qc;
  f_add := Qcplus;
  f_sub := Qcminus;
  f_mul := Qcmult;
  f_div := Qcdiv;
  f_neg := Qcopp;
  f_of_nat n := Q2Qc (inject_Z (Z.of_nat n));
  f_isfinite _ := true
|}.

(** ** The fragment of numpy the source uses, on 1-D arrays and on matrices
    given as lists of rows *)

Section Numpy.
Context {F : Type} `{Scalar F}.

(** [np.sum] over a 1-D array, accumulated from left to right.  numpy and
    BLAS may associate the additions differently; no statement below
    depends on the association. *)
Definition np_sum (a : list F) : F := foldl f_add f_zero a.

(** [np.mean] of a 1-D array: the sum divided by the number of entries
    (for the empty array the quotient 0/0). *)
Definition np_mean (a : list F) : F := f_div (np_sum a) (f_of_nat (length a)).

(** [np.mean] of a scalar (a 0-d value such as the result of [np.dot] on
    two 1-D arrays) is that scalar. *)
Definition np_mean0 (x : F) : F := x.

Definition np_zeros (n : nat) : list F := replicate n f_zero.

(** [a[idx]] with an integer index array: [IndexError] when an index is
    out of bounds.  Indices are natural numbers, as the splitters of
    sklearn produce them. *)
Definition np_take {A} (a : list A) (idx : list nat) : result (list A) :=
  result_mapM (fun i => match a !! i with
                        | Some x => Ok x
                        | None => Raise (IndexError "index is out of bounds")
                        end) idx.

(** [a[i] = x] on a 1-D array. *)
Definition np_setitem (a : list F) (i : nat) (x : F) : result (list F) :=
  if decide (i < length a) then Ok (<[i:=x]> a)
  else Raise (IndexError "index is out of bounds").

(** Element-wise binary operations on 1-D arrays, with numpy's
    broadcasting of an array of length one. *)
Definition np_broadcast (op : F -> F -> F) (a b : list F) : result (list F) :=
  if decide (length a = length b) then Ok (zip_with op a b)
  else match a, b with
       | [x], _ => Ok (map (op x) b)
       | _, [y] => Ok (map (fun x => op x y) a)
       | _, _ => Raise (ValueError "operands could not be broadcast together")
       end.

Definition np_subtract := np_broadcast f_sub.
Definition np_multiply := np_broadcast f_mul.
Definition np_negative (a : list F) : list F := map f_neg a.

(** [np.dot] of two 1-D arrays: the sum of the products; the lengths
    must agree (no broadcasting). *)
Definition np_dot (a b : list F) : result F :=
  if decide (length a = length b) then Ok (np_sum (zip_with f_mul a b))
  else Raise (ValueError "shapes not aligned").

(** [a[idx] = vals] with an integer index array, written from left to
    right (a repeated index keeps the last value); [vals] of length one
    is broadcast. *)
Fixpoint put_each (a : list F) (idx : list nat) (vals : list F) : result (list F) :=
  match idx, vals with
  | i :: idx', v :: vals' => a' ← np_setitem a i v; put_each a' idx' vals'
  | _, _ => Ok a
  end.

Definition np_put (a : list F) (idx : list nat) (vals : list F) : result (list F) :=
  if decide (length idx = length vals) then put_each a idx vals
  else match vals with
       | [v] => put_each a idx (replicate (length idx) v)
       | _ => Raise (ValueError "shape mismatch: value array could not be broadcast to indexing result")
       end.

(** [sklearn.utils.check_X_y(X, y)], the checks that decide whether the
    estimators go on: [X] is a non-empty matrix with at least one column
    and finite entries, [y] is finite and has one entry per row of [X].
    The arrays are returned unchanged. *)
Definition check_X_y (X : list (list F)) (y : list F) : result (list (list F) * list F) :=
  let n_features := length (default [] (head X)) in
  if negb (forallb (fun row => bool_decide (length row = n_features)) X) then
    Raise (ValueError "setting an array element with a sequence")
  else if negb (forallb (forallb f_isfinite) X) then
    Raise (ValueError "Input contains NaN, infinity or a value too large")
  else if bool_decide (length X = 0) then
    Raise (ValueError "Found array with 0 sample(s) while a minimum of 1 is required")
  else if bool_decide (n_features = 0) then
    Raise (ValueError "Found array with 0 feature(s) while a minimum of 1 is required")
  else if negb (forallb f_isfinite y) then
    Raise (ValueError "Input contains NaN, infinity or a value too large")
  else if negb (bool_decide (length X = length y)) then
    Raise (ValueError "Found input variables with inconsistent numbers of samples")
  else Ok (X, y).
End Numpy.

(** ** Learners, the heap and the monad of the fitting code *)

Section Program.
Context {F : Type} `{Scalar F}.

Local Notation "'vec'" := (list F) (only parsing).
Local Notation "'matrix'" := (list (list F)) (only parsing).

(** A learner object in the style of sklearn: attributes [l_state]
    (parameters and whatever a previous [fit] left), and the methods of
    its class.  [fit] updates the attributes of the object and returns
    the object; [sklearn.base.clone] builds a new, unfitted object from
    the parameters.  The methods are total functions: a learner that
    raises is not modelled, one that returns predictions of the wrong
    length is. *)
Record Learner := {
  l_St : Type;
  l_state : l_St;
  l_fit : l_St -> matrix -> vec -> l_St;
  l_predict : l_St -> matrix -> vec;
  l_clone : l_St -> l_St
}.

Definition set_state (o : Learner) (s : l_St o) : Learner :=
  {| l_St := l_St o; l_state := s; l_fit := l_fit o;
     l_predict := l_predict o; l_clone := l_clone o |}.

(** The object after [o.fit(X, t)]. *)
Definition fitted (o : Learner) (X : matrix) (t : vec) : Learner :=
  set_state o (l_fit o (l_state o) X t).

(** [o.predict(X)]. *)
Definition predict (o : Learner) (X : matrix) : vec :=
  l_predict o (l_state o) X.

(** [sklearn.base.clone(o)]. *)
Definition clone (o : Learner) : Learner :=
  set_state o (l_clone o (l_state o)).

Definition loc := nat.

(** Who received a call: an object of the heap, or a private copy of it. *)
Inductive target :=
| Shared (l : loc)
| CloneOf (l : loc).

(** The calls the trace records. *)
Inductive event :=
| EvFit (who : target) (X : matrix) (t : vec)
| EvPredict (who : target) (X : matrix)
| EvInfModel (y z d g_hat m_hat r_hat : vec) (smpls : list (list nat * list nat)).

Record world := {
  heap : gmap loc Learner;
  trace : list event
}.

Definition M (A : Type) : Type := world -> result A * world.

#[export] Instance M_ret : MRet M := fun A a w => (Ok a, w).
#[export] Instance M_bind : MBind M := fun A B f m w =>
  match m w with
  | (Ok a, w') => f a w'
  | (Raise e, w') => (Raise e, w')
  end.

Definition lift {A} (r : result A) : M A := fun w => (r, w).
Definition raise {A} (e : exn) : M A := fun w => (Raise e, w).
Definition emit (ev : event) : M unit := fun w =>
  (Ok tt, {| heap := heap w; trace := trace w ++ [ev] |}).

(** [ml.fit(X, t)] on the object at [l]: the object is updated in place
    and returned. *)
Definition learner_fit (l : loc) (X : matrix) (t : vec) : M loc := fun w =>
  match heap w !! l with
  | Some o =>
      (Ok l, {| heap := <[l := fitted o X t]> (heap w);
                trace := trace w ++ [EvFit (Shared l) X t] |})
  | None => (Raise (Dangling l), w)
  end.

(** [ml.predict(X)] on the object at [l]. *)
Definition learner_predict (l : loc) (X : matrix) : M vec := fun w =>
  match heap w !! l with
  | Some o =>
      (Ok (predict o X),
       {| heap := heap w; trace := trace w ++ [EvPredict (Shared l) X] |})
  | None => (Raise (Dangling l), w)
  end.

(** [d[key]] on a dict with string keys. *)
Definition getitem {V} (d : gmap string V) (key : string) : result V :=
  match d !! key with
  | Some v => Ok v
  | None => Raise (KeyError key)
  end.
End Program.

Arguments Learner F : clear implicits.
Arguments event F : clear implicits.
Arguments world F : clear implicits.
Arguments M F A : clear implicits.

(** ** [dml/dml_plr.py] *)

(** The names bound at module level in [dml_plr.py]: the two imports and
    the two classes. *)
Definition dml_plr_globals : list string :=
  ["np"; "check_X_y"; "DoubleMLPLR"; "OrthDmlPlr"].

(** Reading a global name of the module: [NameError] when it is not bound
    (none of the names read below is a builtin). *)
Definition load_global (name : string) : result unit :=
  if bool_decide (name ∈ dml_plr_globals) then Ok tt
  else Raise (NameError name).

Section PLR.
Context {F : Type} `{Scalar F}.

Local Notation "'vec'" := (list F) (only parsing).
Local Notation "'matrix'" := (list (list F)) (only parsing).

(** [OrthDmlPlr(inf_model).fit(y, d, g_hat, m_hat).coef_].

    In the ['DML2018'] branch the source reads the global
    [LinearRegression], which the module never imports; were it bound to
    sklearn's class, [ols.fit(u_hat, v_hat.reshape(-1, 1))] would pass the
    1-D array [u_hat] as the design matrix, which sklearn rejects. *)
Definition OrthDmlPlr_fit (inf_model : string) (y d g_hat m_hat : vec) : result F :=
  u_hat ← np_subtract y g_hat;
  v_hat ← np_subtract d m_hat;
  v_hatd ← np_dot v_hat d;
  if String.eqb inf_model "IV-type" then
    vu ← np_dot v_hat u_hat;
    Ok (f_div (np_mean0 vu) (np_mean0 v_hatd))
  else if String.eqb inf_model "DML2018" then
    _ ← load_global "LinearRegression";
    Raise (ValueError "Expected 2D array, got 1D array instead")
  else Raise (ValueError "invalid inf_model").

(** A splitter: [get_n_splits()] and the (train, test) index pairs that
    [split(X)] yields.  A splitter that raises is not modelled. *)
Record Resampling := {
  get_n_splits : nat;
  split : matrix -> list (list nat * list nat)
}.

Record DoubleMLPLR := {
  resampling : Resampling;
  ml_learners : gmap string loc;
  dml_procedure : string;
  inf_model : string
}.

(** [ml.fit(X[train_index], t[train_index]).predict(X[test_index])]. *)
Definition fit_predict (ml : loc) (X : matrix) (t : vec)
    (train_index test_index : list nat) : M F vec :=
  X_train ← lift (np_take X train_index);
  t_train ← lift (np_take t train_index);
  self ← learner_fit ml X_train t_train;
  X_test ← lift (np_take X test_index);
  learner_predict self X_test.

(** The body of the loop over the folds: the value stored in [thetas[idx]]. *)
Definition dml1_fold (inf_model : string) (ml_g ml_m : loc)
    (X : matrix) (y d : vec) (fd : list nat * list nat) : M F F :=
  let '(train_index, test_index) := fd in
  g_hat ← fit_predict ml_g X y train_index test_index;
  y_test ← lift (np_take y test_index);
  u_hat ← lift (np_subtract y_test g_hat);
  m_hat ← fit_predict ml_m X d train_index test_index;
  d_test ← lift (np_take d test_index);
  v_hat ← lift (np_subtract d_test m_hat);
  v_hatd ← lift (np_dot v_hat d_test);
  lift (OrthDmlPlr_fit inf_model y_test d_test g_hat m_hat).

(** [for idx, (train_index, test_index) in enumerate(...): thetas[idx] = ...] *)
Fixpoint dml1_loop (body : list nat * list nat -> M F F) (idx : nat)
    (folds : list (list nat * list nat)) (thetas : vec) : M F vec :=
  match folds with
  | [] => mret thetas
  | fd :: folds' =>
      theta ← body fd;
      thetas' ← lift (np_setitem thetas idx theta);
      dml1_loop body (S idx) folds' thetas'
  end.

(** [DoubleMLPLR.fit(X, y, d).coef_]. *)
Definition DoubleMLPLR_fit (self : DoubleMLPLR) (X : matrix) (y d : vec) : M F F :=
  ml_m ← lift (getitem (ml_learners self) "ml_m");
  ml_g ← lift (getitem (ml_learners self) "ml_g");
  Xy ← lift (check_X_y X y);
  let X := Xy.1 in let y := Xy.2 in
  Xd ← lift (check_X_y X d);
  let X := Xd.1 in let d := Xd.2 in
  if String.eqb (dml_procedure self) "dml1" then
    thetas ← dml1_loop (dml1_fold (inf_model self) ml_g ml_m X y d) 0
               (split (resampling self) X)
               (np_zeros (get_n_splits (resampling self)));
    mret (np_mean thetas)
  else raise (ValueError "invalid dml_procedure").

(** ** [dml/tests/test_plr.py]: the manual cross-fitting reference *)

Definition dml_cross_fitting_fold (ml_m ml_g : loc)
    (Y : vec) (X : matrix) (D : vec) (fd : list nat * list nat) : M F F :=
  let '(train_index, test_index) := fd in
  ghat ← fit_predict ml_g X Y train_index test_index;
  mhat ← fit_predict ml_m X D train_index test_index;
  D_test ← lift (np_take D test_index);
  vhat ← lift (np_subtract D_test mhat);
  Y_test ← lift (np_take Y test_index);
  uhat ← lift (np_subtract Y_test ghat);
  vu ← lift (np_dot vhat uhat);
  D_test' ← lift (np_take D test_index);
  vd ← lift (np_dot vhat D_test');
  mret (f_div (np_mean0 vu) (np_mean0 vd)).

Definition dml_cross_fitting (Y : vec) (X : matrix) (D : vec)
    (ml_m ml_g : loc) (resampling : Resampling) : M F F :=
  thetas ← dml1_loop (dml_cross_fitting_fold ml_m ml_g Y X D) 0
             (split resampling X) (np_zeros (get_n_splits resampling));
  mret (np_mean thetas).
End PLR.

(** ** [doubleml/double_ml_pliv.py] *)

Section PLIV.
Context {F : Type} `{Scalar F}.

Local Notation "'vec'" := (list F) (only parsing).
Local Notation "'matrix'" := (list (list F)) (only parsing).

(** The Python values [inf_model] may hold: a string, a callable (here a
    function of the seven arguments it is called with, returning the pair
    that is unpacked), a tuple (given by the [repr] of its items), or any
    other object that is not callable (given by its [repr]). *)
Inductive PyInfModel :=
| PyStr (s : string)
| PyCallable (f : vec -> vec -> vec -> vec -> vec -> vec ->
                  list (list nat * list nat) -> vec * vec)
| PyTuple (reprs : list string)
| PyObject (repr : string).

(** The line feed of a Python string literal. *)
Definition LF : string := String (Ascii.ascii_of_nat 10) EmptyString.

(** [s + l] for a string [s] and a list [l]. *)
Definition str_add_list (s : string) (l : list string) : result string :=
  Raise (TypeError "can only concatenate str (not 'list') to str").

(** [fmt % v] for a format with the single conversion [%r], written as the
    text before and after it: a tuple on the right is the argument list. *)
Definition format_r (before after : string) (v : PyInfModel) : result string :=
  match v with
  | PyStr s => Ok (before +:+ "'" +:+ s +:+ "'" +:+ after)
  | PyCallable _ => Ok (before +:+ "<function>" +:+ after)
  | PyObject r => Ok (before +:+ r +:+ after)
  | PyTuple [r] => Ok (before +:+ r +:+ after)
  | PyTuple [] => Raise (TypeError "not enough arguments for format string")
  | PyTuple _ =>
      Raise (TypeError "not all arguments converted during string formatting")
  end.

Definition _check_inf_method (inf_model : PyInfModel) : result PyInfModel :=
  match inf_model with
  | PyStr s =>
      let valid_inf_model := ["DML2018"] in
      if bool_decide (s ∈ valid_inf_model) then Ok inf_model
      else
        msg ← str_add_list ("invalid inf_model " +:+ s +:+ LF +:+ " valid inf_model ")
                valid_inf_model;
        Raise (ValueError msg)
  | PyCallable _ => Ok inf_model
  | _ =>
      msg ← format_r "inf_model should be either a string or a callable. "
              " was passed" inf_model;
      Raise (ValueError msg)
  end.

(** Modelled from the spec: the Dataset of section 3 (the class
    [DoubleMLData] of [double_ml.py], which is not among the sources), by
    the attributes [x], [y], [z] and [d] that the method reads. *)
Record DoubleMLData := {
  data_x : matrix;
  data_y : vec;
  data_z : vec;
  data_d : vec
}.

(** The attributes of a [DoubleMLPLIV] object that the methods below read,
    [self.ml_learners] and [self.inf_model]. *)
Record DoubleMLPLIV := {
  pliv_ml_learners : gmap string loc;
  pliv_inf_model : PyInfModel
}.

(** Modelled from the spec: one fold of [_dml_cross_val_predict] (of
    [doubleml/helper.py], which is not among the sources).  A fresh copy of
    the model is trained on the train subset and its predictions for the
    test subset are written into the output at the test indices. *)
Definition cross_val_fold (ml : loc) (o : Learner F) (X : matrix) (t : vec)
    (preds : vec) (fd : list nat * list nat) : M F vec :=
  let '(train_index, test_index) := fd in
  X_train ← lift (np_take X train_index);
  t_train ← lift (np_take t train_index);
  _ ← emit (EvFit (CloneOf ml) X_train t_train);
  let model := fitted (clone o) X_train t_train in
  X_test ← lift (np_take X test_index);
  _ ← emit (EvPredict (CloneOf ml) X_test);
  lift (np_put preds test_index (predict model X_test)).

(** Modelled from the spec: the folds of [_dml_cross_val_predict], one
    after the other. *)
Fixpoint cross_val_loop (body : vec -> list nat * list nat -> M F vec)
    (smpls : list (list nat * list nat)) (preds : vec) : M F vec :=
  match smpls with
  | [] => mret preds
  | fd :: smpls' => preds' ← body preds fd; cross_val_loop body smpls' preds'
  end.

(** Modelled from the spec: [_dml_cross_val_predict] of
    [doubleml/helper.py], which is not among the sources.  The output is a
    length-N vector filled fold by fold, each fold by a fresh copy of the
    model (section 4.2); the learner held in [ml_learners] is read, never
    updated.  [n_jobs] sizes a pool of workers and does not change the
    result. *)
Definition _dml_cross_val_predict (ml : loc) (X : matrix) (t : vec)
    (smpls : list (list nat * list nat)) (n_jobs : option nat) : M F vec :=
  fun w =>
    match heap w !! ml with
    | Some o => cross_val_loop (cross_val_fold ml o X t) smpls (np_zeros (length X)) w
    | None => (Raise (Dangling ml), w)
    end.

(** [DoubleMLPLIV._ml_nuisance_and_score_elements]. *)
Definition _ml_nuisance_and_score_elements (self : DoubleMLPLIV)
    (obj_dml_data : DoubleMLData) (smpls : list (list nat * list nat))
    (n_jobs_cv : option nat) : M F (vec * vec) :=
  ml_g ← lift (getitem (pliv_ml_learners self) "ml_g");
  ml_m ← lift (getitem (pliv_ml_learners self) "ml_m");
  ml_r ← lift (getitem (pliv_ml_learners self) "ml_r");
  Xy ← lift (check_X_y (data_x obj_dml_data) (data_y obj_dml_data));
  let X := Xy.1 in let y := Xy.2 in
  Xz ← lift (check_X_y X (data_z obj_dml_data));
  let X := Xz.1 in let z := Xz.2 in
  Xd ← lift (check_X_y X (data_d obj_dml_data));
  let X := Xd.1 in let d := Xd.2 in
  g_hat ← _dml_cross_val_predict ml_g X y smpls n_jobs_cv;
  m_hat ← _dml_cross_val_predict ml_m X z smpls n_jobs_cv;
  r_hat ← _dml_cross_val_predict ml_r X d smpls n_jobs_cv;
  u_hat ← lift (np_subtract y g_hat);
  v_hat ← lift (np_subtract z m_hat);
  w_hat ← lift (np_subtract d r_hat);
  let inf_model := pliv_inf_model self in
  _ ← lift (_check_inf_method inf_model);
  match pliv_inf_model self with
  | PyStr s =>
      if String.eqb s "DML2018" then
        wv ← lift (np_multiply w_hat v_hat);
        let score_a := np_negative wv in
        score_b ← lift (np_multiply v_hat u_hat);
        mret (score_a, score_b)
      else
        score_b ← lift (np_multiply v_hat u_hat);
        raise (UnboundLocalError "score_a")
  | PyCallable f =>
      _ ← emit (EvInfModel y z d g_hat m_hat r_hat smpls);
      mret (f y z d g_hat m_hat r_hat smpls)
  | _ => raise (UnboundLocalError "score_a")
  end.
End PLIV.

(** ** [doubleml/double_ml_pliv.py]: the parameters of the nuisance learners
    and their tuning *)

(** [_ml_nuisance_tuning] reads an attribute of the entries of a list that
    starts out as [[None] * len(smpls)]: beside the exceptions of [exn], the
    code below can raise [AttributeError]. *)
Inductive pyexn :=
| Builtin (e : exn)
| AttributeError (msg : string).

Inductive outcome (A : Type) :=
| Return (a : A)
| Throw (e : pyexn).
Arguments Return {A} a.
Arguments Throw {A} e.

#[export] Instance outcome_ret : MRet outcome := fun A a => Return a.
#[export] Instance outcome_bind : MBind outcome := fun A B f r =>
  match r with
  | Return a => f a
  | Throw e => Throw e
  end.

Definition of_result {A} (r : result A) : outcome A :=
  match r with
  | Ok a => Return a
  | Raise e => Throw (Builtin e)
  end.

(** A list comprehension [[f(xx) for xx in l]]: the first exception wins. *)
Fixpoint outcome_mapM {A B} (f : A -> outcome B) (l : list A) : outcome (list B) :=
  match l with
  | [] => Return []
  | a :: l' => b ← f a; bs ← outcome_mapM f l'; Return (b :: bs)
  end.

(** [l[i] = x] on a Python list. *)
Definition list_setitem {A} (l : list A) (i : nat) (x : A) : result (list A) :=
  if decide (i < length l) then Ok (<[i:=x]> l)
  else Raise (IndexError "list assignment index out of range").

Section PLIVParams.
Context {V : Type}.

(** The attributes that [DoubleMLPLIV.__init__] adds to those of its base
    class: [_g_params], [_m_params] and [_r_params]. *)
Record nuisance_params := {
  _g_params : option V;
  _m_params : option V;
  _r_params : option V
}.

(** [DoubleMLPLIV.__init__], the statements after the call of the
    initialiser of the base class [DoubleML] (of [double_ml.py], which is
    not among the sources): the three attributes are set to [None]. *)
Definition DoubleMLPLIV__init__ : nuisance_params :=
  {| _g_params := None; _m_params := None; _r_params := None |}.

(** [DoubleMLPLIV._set_ml_nuisance_params(params)], on the attributes of
    [self]: three assignments, one after the other; an exception leaves
    the assignments made before it in place. *)
Definition _set_ml_nuisance_params (params : gmap string V) (self : nuisance_params)
    : result unit * nuisance_params :=
  match getitem params "g_params" with
  | Raise e => (Raise e, self)
  | Ok g =>
      let self := {| _g_params := Some g; _m_params := _m_params self;
                     _r_params := _r_params self |} in
      match getitem params "m_params" with
      | Raise e => (Raise e, self)
      | Ok m =>
          let self := {| _g_params := _g_params self; _m_params := Some m;
                         _r_params := _r_params self |} in
          match getitem params "r_params" with
          | Raise e => (Raise e, self)
          | Ok r =>
              (Ok tt, {| _g_params := _g_params self; _m_params := _m_params self;
                         _r_params := Some r |})
          end
      end
  end.
End PLIVParams.

Arguments nuisance_params V : clear implicits.

Section PLIVTuning.
Context {F : Type} `{Scalar F}.

Local Notation "'vec'" := (list F) (only parsing).
Local Notation "'matrix'" := (list (list F)) (only parsing).

(** [DoubleMLPLIV._check_data]: nothing is checked. *)
Definition _check_data (obj_dml_data : DoubleMLData (F := F)) : result unit := Ok tt.

(** What [_ml_nuisance_tuning] uses of [sklearn.model_selection], as an
    interface: the constructors [KFold(n_splits=n)] and
    [GridSearchCV(estimator, param_grid, scoring=..., cv=...)], the method
    [fit(X, y)] of a grid search, which returns the fitted search, and the
    attribute [best_params_] of a fitted search.  Each call may raise.  A
    grid search works on copies of its estimator: the estimator object is
    read, not changed. *)
Record ModelSelection := {
  ParamGrid : Type;
  Scoring : Type;
  Splitter : Type;
  GridSearch : Type;
  Tuned : Type;
  BestParams : Type;
  KFold : Z -> outcome Splitter;
  GridSearchCV : Learner F -> ParamGrid -> option Scoring -> Splitter -> outcome GridSearch;
  GridSearchCV_fit : GridSearch -> matrix -> vec -> outcome Tuned;
  best_params_ : Tuned -> BestParams
}.

(** The dict the method returns: [{'params': ..., 'tune_res': ...}], each
    of the two a dict of lists with one entry per fold. *)
Record TuneResult (ms : ModelSelection) := {
  res_params : gmap string (list (BestParams ms));
  res_tune_res : gmap string (list (option (Tuned ms)))
}.
Arguments res_params {ms} _.
Arguments res_tune_res {ms} _.

Section Tuning.
Variable ms : ModelSelection.
Variable w : world F.
Variable param_grids : gmap string (ParamGrid ms).
Variable scoring_methods : gmap string (option (Scoring ms)).
Variable n_folds_tune : Z.

(** One of the three blocks of the loop body, which differ in the learner,
    the keys and the target:
    [KFold(n_splits=n_folds_tune)], then
    [GridSearchCV(ml, param_grids[grid_key], scoring=scoring_methods[scoring_key], cv=...)],
    then [.fit(X[train_index, :], t[train_index])]. *)
Definition grid_search_fit (ml : loc) (grid_key scoring_key : string)
    (X : matrix) (t : vec) (train_index : list nat) : outcome (Tuned ms) :=
  tune_resampling ← KFold ms n_folds_tune;
  estimator ← of_result (match heap w !! ml with
                         | Some o => Ok o
                         | None => Raise (Dangling ml)
                         end);
  param_grid ← of_result (getitem param_grids grid_key);
  scoring ← of_result (getitem scoring_methods scoring_key);
  grid_search ← GridSearchCV ms estimator param_grid scoring tune_resampling;
  X_train ← of_result (np_take X train_index);
  t_train ← of_result (np_take t train_index);
  GridSearchCV_fit ms grid_search X_train t_train.

(** The loop over [enumerate(smpls)], on the three result lists. *)
Fixpoint tuning_loop (ml_g ml_m ml_r : loc) (X : matrix) (y z d : vec)
    (idx : nat) (smpls : list (list nat * list nat))
    (g_tune_res m_tune_res r_tune_res : list (option (Tuned ms)))
    : outcome (list (option (Tuned ms)) * list (option (Tuned ms))
               * list (option (Tuned ms))) :=
  match smpls with
  | [] => Return (g_tune_res, m_tune_res, r_tune_res)
  | (train_index, test_index) :: smpls' =>
      g ← grid_search_fit ml_g "param_grid_g" "scoring_methods_g" X y train_index;
      g_tune_res ← of_result (list_setitem g_tune_res idx (Some g));
      m ← grid_search_fit ml_m "param_grid_m" "scoring_methods_m" X z train_index;
      m_tune_res ← of_result (list_setitem m_tune_res idx (Some m));
      r ← grid_search_fit ml_r "param_grid_r" "scoring_methods_r" X d train_index;
      r_tune_res ← of_result (list_setitem r_tune_res idx (Some r));
      tuning_loop ml_g ml_m ml_r X y z d (S idx) smpls'
        g_tune_res m_tune_res r_tune_res
  end.

(** [xx.best_params_] for an entry [xx] of a result list. *)
Definition get_best_params_ (xx : option (Tuned ms)) : outcome (BestParams ms) :=
  match xx with
  | Some t => Return (best_params_ ms t)
  | None => Throw (AttributeError "'NoneType' object has no attribute 'best_params_'")
  end.
End Tuning.

(** [DoubleMLPLIV._ml_nuisance_tuning], for [param_grids] a dict and
    [scoring_methods] a dict or [None], in the world [w].  [n_jobs_cv] is
    not used by the method. *)
Definition _ml_nuisance_tuning (ms : ModelSelection) (self : DoubleMLPLIV (F := F))
    (obj_dml_data : DoubleMLData (F := F)) (smpls : list (list nat * list nat))
    (param_grids : gmap string (ParamGrid ms))
    (scoring_methods : option (gmap string (option (Scoring ms))))
    (n_folds_tune : Z) (n_jobs_cv : option nat) (w : world F)
    : outcome (TuneResult ms) :=
  ml_g ← of_result (getitem (pliv_ml_learners self) "ml_g");
  ml_m ← of_result (getitem (pliv_ml_learners self) "ml_m");
  ml_r ← of_result (getitem (pliv_ml_learners self) "ml_r");
  Xy ← of_result (check_X_y (data_x obj_dml_data) (data_y obj_dml_data));
  let X := Xy.1 in let y := Xy.2 in
  Xz ← of_result (check_X_y X (data_z obj_dml_data));
  let X := Xz.1 in let z := Xz.2 in
  Xd ← of_result (check_X_y X (data_d obj_dml_data));
  let X := Xd.1 in let d := Xd.2 in
  let scoring_methods :=
    match scoring_methods with
    | None => <["scoring_methods_r" := None]>
                (<["scoring_methods_m" := None]>
                   (<["scoring_methods_g" := None]> ∅))
    | Some s => s
    end in
  let g_tune_res := replicate (length smpls) None in
  let m_tune_res := replicate (length smpls) None in
  let r_tune_res := replicate (length smpls) None in
  tune ← tuning_loop ms w param_grids scoring_methods n_folds_tune
            ml_g ml_m ml_r X y z d 0 smpls g_tune_res m_tune_res r_tune_res;
  let g_tune_res := tune.1.1 in
  let m_tune_res := tune.1.2 in
  let r_tune_res := tune.2 in
  g_best_params ← outcome_mapM (get_best_params_ ms) g_tune_res;
  m_best_params ← outcome_mapM (get_best_params_ ms) m_tune_res;
  r_best_params ← outcome_mapM (get_best_params_ ms) r_tune_res;
  let params := <["r_params" := r_best_params]>
                  (<["m_params" := m_best_params]>
                     (<["g_params" := g_best_params]> ∅)) in
  let tune_res := <["r_tune" := r_tune_res]>
                    (<["m_tune" := m_tune_res]>
                       (<["g_tune" := g_tune_res]> ∅)) in
  Return {| res_params := params; res_tune_res := tune_res |}.
End PLIVTuning.

Arguments ModelSelection F : clear implicits.
Arguments TuneResult {F} ms.
Arguments res_params {F ms} _.
Arguments res_tune_res {F ms} _.
(** ** Notions used in the statements *)

Section Notions.
Context {F : Type} `{Scalar F}.

Local Notation "'vec'" := (list F) (only parsing).
Local Notation "'matrix'" := (list (list F)) (only parsing).

(** The entries of [a] at the indices [idx] that exist: what [np_take]
    returns when every index is in bounds. *)
Definition rows {A} (a : list A) (idx : list nat) : list A :=
  omap (fun i => a !! i) idx.

(** Both index lists of a fold address rows of an array of [n] rows. *)
Definition in_range (n : nat) (fd : list nat * list nat) : Prop :=
  Forall (fun i => i < n) fd.1 /\ Forall (fun i => i < n) fd.2.

(** [o'] is [o] after some calls of its own methods: the same class, with
    possibly different attributes. *)
Definition same_class (o o' : Learner F) : Prop :=
  exists s, o' = set_state o s.

(** [fit] ignores whatever an earlier [fit] left in the object: the fitted
    state is a function of the training data (sklearn's contract for
    estimators without warm start). *)
Definition oblivious (o : Learner F) : Prop :=
  forall s s' X t, l_fit o s X t = l_fit o s' X t.

(** [predict] returns one prediction per row. *)
Definition predicts_rows (o : Learner F) : Prop :=
  forall s X, length (l_predict o s X) = length X.

(** The out-of-fold prediction in the words of the specification: a model
    trained on the train rows only, asked for the test rows. *)
Definition spec_oof_prediction (o : Learner F) (X : matrix) (t : vec)
    (train test : list nat) : vec :=
  predict (fitted o (rows X train) (rows t train)) (rows X test).

(** The fold estimate of the "IV-type" score as the reference computes it:
    [np.mean(np.dot(v, u)) / np.mean(np.dot(v, d))]. *)
Definition spec_iv_theta (u v d : vec) : F :=
  f_div (np_sum (zip_with f_mul v u)) (np_sum (zip_with f_mul v d)).

Definition spec_fold_theta (og om : Learner F) (X : matrix) (y d : vec)
    (fd : list nat * list nat) : F :=
  let g_hat := spec_oof_prediction og X y fd.1 fd.2 in
  let m_hat := spec_oof_prediction om X d fd.1 fd.2 in
  let u := zip_with f_sub (rows y fd.2) g_hat in
  let v := zip_with f_sub (rows d fd.2) m_hat in
  spec_iv_theta u v (rows d fd.2).

(** dml1 in the words of the specification: the mean over the folds of the
    fold estimates. *)
Definition spec_dml1_theta (og om : Learner F) (X : matrix) (y d : vec)
    (folds : list (list nat * list nat)) : F :=
  np_mean (map (spec_fold_theta og om X y d) folds).

(** The fold estimate with element-wise products and their means, as the
    score is written in the documentation: mean(v*u) / mean(v*d). *)
Definition spec_iv_theta_means (u v d : vec) : F :=
  f_div (np_mean (zip_with f_mul v u)) (np_mean (zip_with f_mul v d)).

(** The calls one fold of [DoubleMLPLR.fit] makes. *)
Definition fold_events (ml_g ml_m : loc) (X : matrix) (y d : vec)
    (fd : list nat * list nat) : list (event F) :=
  [ EvFit (Shared ml_g) (rows X fd.1) (rows y fd.1);
    EvPredict (Shared ml_g) (rows X fd.2);
    EvFit (Shared ml_m) (rows X fd.1) (rows d fd.1);
    EvPredict (Shared ml_m) (rows X fd.2) ].

(** The objects under [ml_g] and [ml_m] exist and are of the classes of
    [og] and [om]; when both keys hold one object, [og] and [om] are the
    same. *)
Definition learners_inv (ml_g ml_m : loc) (og om : Learner F) (w : world F) : Prop :=
  (exists o, heap w !! ml_g = Some o /\ same_class og o) /\
  (exists o, heap w !! ml_m = Some o /\ same_class om o) /\
  (ml_g = ml_m -> og = om).

(** [ml.fit(X, t)] on the heap: the object under [l] is refitted in place,
    from the state it is in. *)
Definition refit (l : loc) (X : matrix) (t : vec)
    (h : gmap loc (Learner F)) : gmap loc (Learner F) :=
  alter (fun o => fitted o X t) l h.

(** The heap one fold of [DoubleMLPLR.fit] leaves: the object under [ml_g]
    refitted on the train rows of [y], then the object under [ml_m]
    refitted on the train rows of [d]. *)
Definition refit_fold (ml_g ml_m : loc) (X : matrix) (y d : vec)
    (fd : list nat * list nat) (h : gmap loc (Learner F)) : gmap loc (Learner F) :=
  refit ml_m (rows X fd.1) (rows d fd.1) (refit ml_g (rows X fd.1) (rows y fd.1) h).

(** The heap one fold leaves when the two learners start each [fit] afresh. *)
Definition heap_after_fold (ml_g ml_m : loc) (og om : Learner F)
    (X : matrix) (y d : vec) (fd : list nat * list nat)
    (h : gmap loc (Learner F)) : gmap loc (Learner F) :=
  <[ml_m := fitted om (rows X fd.1) (rows d fd.1)]>
    (<[ml_g := fitted og (rows X fd.1) (rows y fd.1)]> h).

(** A run of the loop body over the folds, one after the other, each from
    the world the previous one left: the fold estimates it produces. *)
Inductive loop_runs (body : list nat * list nat -> M F F) :
    list (list nat * list nat) -> world F -> list F -> world F -> Prop :=
| loop_runs_nil w : loop_runs body [] w [] w
| loop_runs_cons fd folds w theta w1 thetas w2 :
    body fd w = (Ok theta, w1) ->
    loop_runs body folds w1 thetas w2 ->
    loop_runs body (fd :: folds) w (theta :: thetas) w2.

Definition is_fit (ev : event F) : bool :=
  match ev with EvFit _ _ _ => true | _ => false end.
Definition is_predict (ev : event F) : bool :=
  match ev with EvPredict _ _ => true | _ => false end.
Definition is_inf_model_call (ev : event F) : bool :=
  match ev with EvInfModel _ _ _ _ _ _ _ => true | _ => false end.

(** How many events of a kind a trace holds. *)
Definition calls (kind : event F -> bool) (tr : list (event F)) : nat :=
  length (List.filter kind tr).

(** The scores of the PLIV model for given nuisance predictions, in the
    words of the specification: score_a = -w*v and score_b = v*u with the
    residuals u = y - g_hat, v = z - m_hat and w = d - r_hat. *)
Definition spec_pliv_scores (y z d g_hat m_hat r_hat : vec) : vec * vec :=
  let u := zip_with f_sub y g_hat in
  let v := zip_with f_sub z m_hat in
  let w := zip_with f_sub d r_hat in
  (map f_neg (zip_with f_mul w v), zip_with f_mul v u).
End Notions.

(** ** Concrete learners and data (binary64) *)

(** Predicts the mean of the training target; every [fit] starts afresh. *)
Definition mean_learner : Learner float := {|
  l_St := option float;
  l_state := None;
  l_fit := fun _ _ t => Some (np_mean t);
  l_predict := fun s X => map (fun _ => default PrimFloat.zero s) X;
  l_clone := fun _ => None
|}.

(** The same with a warm start: once fitted, a further [fit] keeps the
    model it has (as sklearn's ensembles do with [warm_start=True] and an
    unchanged number of estimators). *)
Definition warm_learner : Learner float := {|
  l_St := option float;
  l_state := None;
  l_fit := fun s _ t => match s with Some m => Some m | None => Some (np_mean t) end;
  l_predict := fun s X => map (fun _ => default PrimFloat.zero s) X;
  l_clone := fun _ => None
|}.

Definition ex_world (o : Learner float) : world float :=
  {| heap := <[2 := o]> (<[1 := o]> (<[0 := o]> ∅)); trace := [] |}.

(** [KFold(n_splits=2, shuffle=False)] on four rows. *)
Definition ex_kfold2 : Resampling (F := float) :=
  {| get_n_splits := 2;
     split := fun _ => [([2; 3], [0; 1]); ([0; 1], [2; 3])] |}.

(** Two folds of unequal size (test sets of one and of three rows). *)
Definition ex_uneven : Resampling (F := float) :=
  {| get_n_splits := 2;
     split := fun _ => [([1; 2; 3], [0]); ([0], [1; 2; 3])] |}.

Definition ex_plr (rs : Resampling) (proc inf : string) : DoubleMLPLR (F := float) :=
  {| resampling := rs;
     ml_learners := <["ml_m" := 1]> (<["ml_g" := 0]> ∅);
     dml_procedure := proc;
     inf_model := inf |}.

Definition ex_X : list (list float) := [[1]; [2]; [3]; [4]]%float.
Definition ex_y : list float := [1; 3; 2; 4]%float.
Definition ex_d : list float := [2; 0; 1; 2]%float.
Definition ex_z : list float := [0; 1; 1; 3]%float.

(** A treatment that is zero on the test rows of the first fold. *)
Definition ex_d_zero : list float := [0; 0; -1; -2]%float.

Definition ex_smpls : list (list nat * list nat) := split ex_kfold2 ex_X.

Definition ex_data : DoubleMLData (F := float) :=
  {| data_x := ex_X; data_y := ex_y; data_z := ex_z; data_d := ex_d |}.

Definition ex_pliv (im : PyInfModel (F := float)) : DoubleMLPLIV (F := float) :=
  {| pliv_ml_learners := <["ml_r" := 2]> (<["ml_m" := 1]> (<["ml_g" := 0]> ∅));
     pliv_inf_model := im |}.

(** A custom score: the pair (d - r_hat, y - g_hat), element-wise. *)
Definition ex_score (y z d g_hat m_hat r_hat : list float)
    (smpls : list (list nat * list nat)) : list float * list float :=
  (zip_with PrimFloat.sub d r_hat, zip_with PrimFloat.sub y g_hat).


(** The cross-validated predictions of [mean_learner] on these data, and
    the worlds the three calls leave. *)
Definition ex_g_hat : list float := [3; 3; 2; 2]%float.
Definition ex_m_hat : list float := [2; 2; 0.5; 0.5]%float.
Definition ex_r_hat : list float := [1.5; 1.5; 1; 1]%float.

Definition ex_w1 : world float :=
  (_dml_cross_val_predict 0 ex_X ex_y ex_smpls None (ex_world mean_learner)).2.
Definition ex_w2 : world float :=
  (_dml_cross_val_predict 1 ex_X ex_z ex_smpls None ex_w1).2.
Definition ex_w3 : world float :=
  (_dml_cross_val_predict 2 ex_X ex_d ex_smpls None ex_w2).2.

(** A world in which the learners were fitted before, on other data. *)
Definition ex_stale_world : world float :=
  ex_world (set_state mean_learner (Some 7%float)).

(** ** Notions for the properties of the remaining code *)

Section MoreNotions.
Context {F : Type} `{Scalar F}.

(** The first of [keys] that the dict [d] lacks. *)
Definition first_missing {V} (d : gmap string V) (keys : list string) : option string :=
  head (List.filter (fun k => bool_decide (d !! k = None)) keys).

(** The exception of the first of the results [rs] that is one. *)
Fixpoint first_error {A} (rs : list (result A)) : option exn :=
  match rs with
  | [] => None
  | Ok _ :: rs' => first_error rs'
  | Raise e :: _ => Some e
  end.

(** The three data checks that open both methods of [DoubleMLPLIV]. *)
Definition pliv_data_checks (data : DoubleMLData (F := F))
    : list (result (list (list F) * list F)) :=
  [check_X_y (data_x data) (data_y data);
   check_X_y (data_x data) (data_z data);
   check_X_y (data_x data) (data_d data)].

(** The scoring dict [_ml_nuisance_tuning] works with: the one it is given,
    or three times [None]. *)
Definition scoring_dict {ms : ModelSelection F}
    (scoring_methods : option (gmap string (option (Scoring ms))))
    : gmap string (option (Scoring ms)) :=
  default (<["scoring_methods_r" := None]>
             (<["scoring_methods_m" := None]>
                (<["scoring_methods_g" := None]> ∅))) scoring_methods.

(** The dicts of the result of [_ml_nuisance_tuning], from three lists. *)
Definition params_dict {V} (g m r : V) : gmap string V :=
  <["r_params" := r]> (<["m_params" := m]> (<["g_params" := g]> ∅)).

Definition tune_dict {V} (g m r : V) : gmap string V :=
  <["r_tune" := r]> (<["m_tune" := m]> (<["g_tune" := g]> ∅)).

(** The learners under [lg], [lm] in [w] and those under [lg'], [lm'] in
    [w'] are objects in the same states, and the two keys hold one object
    in [w] exactly when they do in [w']. *)
Definition same_states (lg lm lg' lm' : loc) (w w' : world F) : Prop :=
  exists og om,
    heap w !! lg = Some og /\ heap w' !! lg' = Some og /\
    heap w !! lm = Some om /\ heap w' !! lm' = Some om /\
    (lg = lm <-> lg' = lm').

(** Two runs with the same outcome, whose worlds are related by [R]. *)
Definition sim {A} (R : world F -> world F -> Prop)
    (x x' : result A * world F) : Prop :=
  x.1 = x'.1 /\ R x.2 x'.2.
End MoreNotions.

(** ** More concrete data (binary64) *)

(** A splitter that announces three folds and yields two. *)
Definition ex_short : Resampling (F := float) :=
  {| get_n_splits := 3;
     split := fun _ => [([2; 3], [0; 1]); ([0; 1], [2; 3])] |}.

(** A splitter that announces one fold and yields two. *)
Definition ex_long : Resampling (F := float) :=
  {| get_n_splits := 1;
     split := fun _ => [([2; 3], [0; 1]); ([0; 1], [2; 3])] |}.

(** A splitter that yields nothing. *)
Definition ex_no_folds : Resampling (F := float) :=
  {| get_n_splits := 0; split := fun _ => [] |}.

(** A splitter whose first fold has a test index beyond the four rows. *)
Definition ex_beyond : Resampling (F := float) :=
  {| get_n_splits := 2;
     split := fun _ => [([2; 3], [0; 7]); ([0; 1], [2; 3])] |}.

(** A treatment that the mean of the other fold predicts exactly on the
    test rows of the first fold: the residual [v] is zero there. *)
Definition ex_d_flat : list float := [1; 1; 0; 2]%float.

(** The PLR estimator of [ex_plr] with its learners at other places, and a
    world that holds them there, beside another object and an earlier
    call. *)
Definition ex_plr_at (lg lm : loc) : DoubleMLPLR (F := float) :=
  {| resampling := ex_kfold2;
     ml_learners := <["ml_m" := lm]> (<["ml_g" := lg]> ∅);
     dml_procedure := "dml1";
     inf_model := "IV-type" |}.

Definition ex_other_world : world float :=
  {| heap := <[6 := warm_learner]> (<[5 := warm_learner]> (<[0 := mean_learner]> ∅));
     trace := [EvPredict (Shared 0) ex_X] |}.

(** Data in exact arithmetic: [v = d - m_hat = [1; 2]], [u = y - g_hat =
    [1; 2]], so that [v.u = 5] and [v.d = 7]. *)
Definition qc (z : Z) : Qc := Q2Qc (inject_Z z).
Definition ex_qy : list Qc := [qc 1; qc 2].
Definition ex_qd : list Qc := [qc 1; qc 3].
Definition ex_qg : list Qc := [qc 0; qc 0].
Definition ex_qm : list Qc := [qc 0; qc 1].

(** A grid search in miniature: a grid is a list of candidate offsets, the
    search takes the first candidate and adds the mean of the target. *)
Definition ex_model_selection : ModelSelection float := {|
  ParamGrid := list float;
  Scoring := unit;
  Splitter := Z;
  GridSearch := list float;
  Tuned := float;
  BestParams := float;
  KFold := fun n =>
    if decide (n <= 1)%Z
    then Throw (Builtin (ValueError "k-fold cross-validation requires at least one train/test split"))
    else Return n;
  GridSearchCV := fun _ grid _ _ => Return grid;
  GridSearchCV_fit := fun grid _ t =>
    match grid with
    | [] => Throw (Builtin (ValueError "No fits were performed"))
    | c :: _ => Return (c + np_mean t)%float
    end;
  best_params_ := fun t => t
|}.

Definition ex_grids : gmap string (list float) :=
  <["param_grid_r" := [2%float]]>
    (<["param_grid_m" := [1%float]]> (<["param_grid_g" := [0%float]]> ∅)).

(** Grids for ['ml_g'] only. *)
Definition ex_grids_g : gmap string (list float) :=
  <["param_grid_g" := [0%float]]> ∅.

(** The tuning of the three learners on the two folds of [ex_smpls], and
    what it returns. *)
Definition ex_tuning : outcome (TuneResult ex_model_selection) :=
  _ml_nuisance_tuning ex_model_selection (ex_pliv (PyStr "DML2018")) ex_data ex_smpls
    ex_grids None 3 None (ex_world mean_learner).

Definition ex_tune_result : TuneResult ex_model_selection :=
  @Build_TuneResult float ex_model_selection
    (params_dict [3; 2]%float [3; 1.5]%float [3.5; 3]%float)
    (tune_dict [Some 3; Some 2]%float [Some 3; Some 1.5]%float
       [Some 3.5; Some 3]%float).
(** ** Facts about the numpy fragment *)

Section NumpyFacts.
Context {F : Type} `{Scalar F}.

Lemma np_take_rows {A} (a : list A) (idx : list nat) :
  Forall (fun i => i < length a) idx -> np_take a idx = Ok (rows a idx).
Proof.
  unfold np_take, rows. induction 1 as [|i idx Hi _ IH]; [reflexivity|].
  apply lookup_lt_is_Some_2 in Hi as [x Hx].
  cbn. rewrite Hx. cbn. rewrite IH. reflexivity.
Qed.

Lemma np_take_ok_rows {A} (a : list A) (idx : list nat) (r : list A) :
  np_take a idx = Ok r -> r = rows a idx /\ length r = length idx.
Proof.
  unfold np_take, rows. revert r.
  induction idx as [|i idx IH]; intros r Hr; cbn in *.
  - injection Hr as <-. done.
  - destruct (a !! i) as [x|]; cbn in *; [|discriminate].
    destruct (result_mapM _ idx) as [bs|e]; cbn in *; [|discriminate].
    injection Hr as <-. destruct (IH bs eq_refl) as [-> Hl].
    cbn. by rewrite Hl.
Qed.

Lemma length_rows {A} (a : list A) (idx : list nat) :
  Forall (fun i => i < length a) idx -> length (rows a idx) = length idx.
Proof.
  intros Hidx. pose proof (np_take_rows a idx Hidx) as Ht.
  apply np_take_ok_rows in Ht. tauto.
Qed.

(** Reading [t] away from the position that was overwritten. *)
Lemma np_take_insert_notin (t : list F) (i : nat) (v : F) (idx : list nat) :
  i ∉ idx -> np_take (<[i := v]> t) idx = np_take t idx.
Proof.
  unfold np_take. induction idx as [|j idx IH]; intros Hi; [reflexivity|].
  apply not_elem_of_cons in Hi as [Hij Hi].
  cbn. rewrite list_lookup_insert_ne by done. by rewrite IH.
Qed.

Lemma np_broadcast_same_length (op : F -> F -> F) (a b : list F) :
  length a = length b -> np_broadcast op a b = Ok (zip_with op a b).
Proof. intros Hl. unfold np_broadcast. by rewrite decide_True. Qed.

Lemma np_dot_same_length (a b : list F) :
  length a = length b -> np_dot a b = Ok (np_sum (zip_with f_mul a b)).
Proof. intros Hl. unfold np_dot. by rewrite decide_True. Qed.

Lemma np_setitem_length (a b : list F) (i : nat) (x : F) :
  np_setitem a i x = Ok b -> length b = length a.
Proof.
  unfold np_setitem. case_decide; [|discriminate].
  intros [= <-]. apply length_insert.
Qed.

Lemma put_each_length (idx : list nat) : forall (a b vals : list F),
  put_each a idx vals = Ok b -> length b = length a.
Proof.
  induction idx as [|i idx IH]; intros a b vals Hp; cbn in Hp.
  - by injection Hp as <-.
  - destruct vals as [|v vals]; [by injection Hp as <-|].
    destruct (np_setitem a i v) as [a'|e] eqn:Hs; cbn in Hp; [|discriminate].
    rewrite (IH _ _ _ Hp). by apply np_setitem_length in Hs.
Qed.

Lemma np_put_length (a b : list F) (idx : list nat) (vals : list F) :
  np_put a idx vals = Ok b -> length b = length a.
Proof.
  unfold np_put. case_decide; [apply put_each_length|].
  destruct vals as [|v [|]]; try discriminate. apply put_each_length.
Qed.

(** Writing at indices other than [i] leaves entry [i] alone. *)
Lemma put_each_notin (i : nat) (idx : list nat) : forall (a b vals : list F),
  i ∉ idx -> put_each a idx vals = Ok b -> b !! i = a !! i.
Proof.
  induction idx as [|j idx IH]; intros a b vals Hi Hp; cbn in Hp.
  - by injection Hp as <-.
  - apply not_elem_of_cons in Hi as [Hij Hi].
    destruct vals as [|v vals]; [by injection Hp as <-|].
    unfold np_setitem in Hp. case_decide; cbn in Hp; [|discriminate].
    rewrite (IH _ _ _ Hi Hp). by apply list_lookup_insert_ne.
Qed.

Lemma np_put_notin (i : nat) (a b : list F) (idx : list nat) (vals : list F) :
  i ∉ idx -> np_put a idx vals = Ok b -> b !! i = a !! i.
Proof.
  intros Hi. unfold np_put. case_decide; [by apply put_each_notin|].
  destruct vals as [|v [|]]; try discriminate. by apply put_each_notin.
Qed.

(** The same writes into two arrays of one length that agree at [i] leave
    them agreeing at [i]. *)
Lemma put_each_agree (i : nat) (idx : list nat) : forall (a a' b b' vals : list F),
  length a = length a' -> a !! i = a' !! i ->
  put_each a idx vals = Ok b -> put_each a' idx vals = Ok b' ->
  b !! i = b' !! i.
Proof.
  induction idx as [|j idx IH]; intros a a' b b' vals Hl Ha Hp Hp'; cbn in *.
  - injection Hp as <-. by injection Hp' as <-.
  - destruct vals as [|v vals]; [injection Hp as <-; by injection Hp' as <-|].
    unfold np_setitem in *.
    destruct (decide (j < length a)); cbn in Hp; [|discriminate].
    destruct (decide (j < length a')); cbn in Hp'; [|discriminate].
    eapply (IH (<[j:=v]> a) (<[j:=v]> a')); eauto.
    + by rewrite !length_insert.
    + destruct (decide (j = i)) as [->|Hne].
      * by rewrite !list_lookup_insert_eq.
      * by rewrite !list_lookup_insert_ne.
Qed.

Lemma np_put_agree (i : nat) (a a' b b' : list F) (idx : list nat) (vals : list F) :
  length a = length a' -> a !! i = a' !! i ->
  np_put a idx vals = Ok b -> np_put a' idx vals = Ok b' ->
  b !! i = b' !! i.
Proof.
  intros Hl Ha. unfold np_put. case_decide; [by apply put_each_agree|].
  destruct vals as [|v [|]]; try discriminate. by apply put_each_agree.
Qed.

Lemma check_X_y_ok (X : list (list F)) (y : list F) p :
  check_X_y X y = Ok p -> p = (X, y) /\ length X = length y.
Proof.
  unfold check_X_y. intros Hc.
  repeat match type of Hc with
         | (if ?b then _ else _) = _ => destruct b eqn:?; try discriminate
         end.
  injection Hc as <-. split; [done|].
  match goal with
  | Hb : negb (bool_decide (length X = length y)) = false |- _ =>
      apply negb_false_iff, bool_decide_eq_true in Hb; exact Hb
  end.
Qed.
End NumpyFacts.

(** ** Running the monad *)

Section MonadFacts.
Context {F : Type}.

Lemma bind_ok {A B} (m : M F A) (k : A -> M F B) w a w1 :
  m w = (Ok a, w1) -> (x ← m; k x) w = k a w1.
Proof. intros Hm. unfold mbind, M_bind. by rewrite Hm. Qed.

Lemma bind_raise {A B} (m : M F A) (k : A -> M F B) w e w1 :
  m w = (Raise e, w1) -> (x ← m; k x) w = (Raise e, w1).
Proof. intros Hm. unfold mbind, M_bind. by rewrite Hm. Qed.

Lemma bind_inv_ok {A B} (m : M F A) (k : A -> M F B) w b w2 :
  (x ← m; k x) w = (Ok b, w2) ->
  exists a w1, m w = (Ok a, w1) /\ k a w1 = (Ok b, w2).
Proof.
  unfold mbind, M_bind. destruct (m w) as [[a|e] w1]; [eauto|discriminate].
Qed.

Lemma lift_inv_ok {A} (r : result A) (w : world F) a w1 :
  lift r w = (Ok a, w1) -> r = Ok a /\ w1 = w.
Proof. unfold lift. by intros [= -> ->]. Qed.

Lemma bind_lift_inv_ok {A B} (r : result A) (k : A -> M F B) w b w2 :
  (x ← lift r; k x) w = (Ok b, w2) ->
  exists a, r = Ok a /\ k a w = (Ok b, w2).
Proof.
  intros (a & w1 & Hl & Hk)%bind_inv_ok.
  apply lift_inv_ok in Hl as [-> ->]. eauto.
Qed.

Lemma bind_lift_ok {A B} (r : result A) (k : A -> M F B) w a :
  r = Ok a -> (x ← lift r; k x) w = k a w.
Proof. by intros ->. Qed.
End MonadFacts.

(** One step of a run: an array operation that succeeds, or a call whose
    outcome is known. *)
Tactic Notation "run_lift" "by" tactic3(tac) := erewrite bind_lift_ok by tac.
Tactic Notation "run_call" "by" tactic3(tac) := erewrite bind_ok by tac.

Create HintDb learners.

(** ** Facts about [DoubleMLPLR.fit] *)

Section PLRFacts.
Context {F : Type} `{Scalar F}.

Lemma same_class_refl (o : Learner F) : same_class o o.
Proof. exists (l_state o). by destruct o. Qed.

Lemma same_class_fitted (o o' : Learner F) X t :
  same_class o o' -> same_class o (fitted o' X t).
Proof. intros [s ->]. by eexists. Qed.

#[local] Hint Resolve same_class_refl same_class_fitted : learners.

(** Refitting an oblivious learner gives the model a fresh object of its
    class would give. *)
Lemma fitted_oblivious (o o' : Learner F) X t :
  same_class o o' -> oblivious o -> fitted o' X t = fitted o X t.
Proof.
  intros [s ->] Hob. unfold fitted, set_state. cbn.
  by rewrite (Hob s (l_state o)).
Qed.

(** What [ml.fit(X[train], t[train]).predict(X[test])] returns and leaves
    behind, when the indices are in bounds. *)
Lemma fit_predict_run (l : loc) (o : Learner F) X t train test w :
  heap w !! l = Some o ->
  length t = length X ->
  Forall (fun i => i < length X) train ->
  Forall (fun i => i < length X) test ->
  fit_predict l X t train test w =
    (Ok (predict (fitted o (rows X train) (rows t train)) (rows X test)),
     {| heap := <[l := fitted o (rows X train) (rows t train)]> (heap w);
        trace := trace w ++ [EvFit (Shared l) (rows X train) (rows t train);
                             EvPredict (Shared l) (rows X test)] |}).
Proof.
  intros Hl Hlen Htr Hte. unfold fit_predict.
  rewrite (np_take_rows X train Htr), (np_take_rows X test Hte).
  rewrite (np_take_rows t train) by (by rewrite Hlen).
  unfold mbind, M_bind, lift, learner_fit, learner_predict. cbn.
  rewrite Hl. cbn. rewrite lookup_insert_eq. cbn.
  by rewrite <- app_assoc.
Qed.

Lemma length_predict (o o' : Learner F) X :
  predicts_rows o -> same_class o o' -> length (predict o' X) = length X.
Proof. intros Hp [s ->]. apply Hp. Qed.

Lemma OrthDmlPlr_fit_iv (y d g_hat m_hat : list F) :
  length y = length g_hat -> length d = length m_hat -> length d = length y ->
  OrthDmlPlr_fit "IV-type" y d g_hat m_hat =
    Ok (spec_iv_theta (zip_with f_sub y g_hat) (zip_with f_sub d m_hat) d).
Proof.
  intros Hy Hd Hdy. unfold OrthDmlPlr_fit, np_subtract.
  rewrite !np_broadcast_same_length by done. cbn.
  rewrite !np_dot_same_length by (rewrite !length_zip_with; lia).
  reflexivity.
Qed.

(** After the learner under [ml_g] was refitted, both learners are still
    objects of their classes. *)
Lemma learners_inv_insert_g lg lm (og om : Learner F) w o X t :
  learners_inv lg lm og om w -> heap w !! lg = Some o ->
  learners_inv lg lm og om
    {| heap := <[lg := fitted o X t]> (heap w); trace := trace w |}.
Proof.
  intros ((o1 & Hg & Hc1) & (o2 & Hm & Hc2) & Hal) Ho.
  rewrite Hg in Ho. injection Ho as <-.
  split; [|split]; cbn; [| |done].
  - rewrite lookup_insert_eq. eauto with learners.
  - destruct (decide (lg = lm)) as [->|Hne].
    + rewrite lookup_insert_eq. rewrite Hg in Hm. injection Hm as ->.
      eauto with learners.
    + rewrite lookup_insert_ne by done. eauto.
Qed.

Section OneFold.
Variables (lg lm : loc) (og om : Learner F).
Variables (X : list (list F)) (y d : list F).
Hypothesis Hog : oblivious og.
Hypothesis Hom : oblivious om.
Hypothesis Hpg : predicts_rows og.
Hypothesis Hpm : predicts_rows om.
Hypothesis Hy : length y = length X.
Hypothesis Hd : length d = length X.

Lemma length_oof_prediction (o : Learner F) (t : list F) (train test : list nat) :
  predicts_rows o ->
  Forall (fun i => i < length X) test ->
  length (spec_oof_prediction o X t train test) = length test.
Proof.
  intros Hp Hte. unfold spec_oof_prediction.
  rewrite (length_predict o) by (done || by apply same_class_fitted, same_class_refl).
  by apply length_rows.
Qed.

(** The body of the loop of [DoubleMLPLR.fit] on one fold, for learners
    that start each [fit] afresh: the estimate is that of models trained
    on the train rows alone, and the two objects of the heap are left
    refitted. *)
Lemma dml1_fold_run (fd : list nat * list nat) w :
  learners_inv lg lm og om w ->
  in_range (length X) fd ->
  dml1_fold "IV-type" lg lm X y d fd w =
  (Ok (spec_fold_theta og om X y d fd),
   {| heap := heap_after_fold lg lm og om X y d fd (heap w);
      trace := trace w ++ fold_events lg lm X y d fd |}).
Proof.
  intros Hinv [Htr Hte]. destruct fd as [train test]. cbn [fst snd] in *.
  pose proof Hinv as ((o1 & Hg & Hc1) & _).
  pose proof (learners_inv_insert_g _ _ _ _ _ _ (rows X train) (rows y train) Hinv Hg)
    as (_ & (o2 & Hm & Hc2) & _).
  cbn in Hm. rewrite (fitted_oblivious og o1) in Hm by done.
  assert (Hyte : Forall (fun i => i < length y) test) by (by rewrite Hy).
  assert (Hdte : Forall (fun i => i < length d) test) by (by rewrite Hd).
  unfold dml1_fold.
  run_call by (by apply fit_predict_run).
  rewrite (fitted_oblivious og o1) by done.
  fold (spec_oof_prediction og X y train test).
  run_lift by (by apply np_take_rows).
  run_lift by (apply np_broadcast_same_length;
        rewrite (length_oof_prediction og) by done; by apply length_rows).
  run_call by (by apply fit_predict_run).
  rewrite (fitted_oblivious om o2) by done.
  fold (spec_oof_prediction om X d train test).
  run_lift by (by apply np_take_rows).
  run_lift by (apply np_broadcast_same_length;
        rewrite (length_oof_prediction om) by done; by apply length_rows).
  run_lift by (apply np_dot_same_length;
        rewrite length_zip_with, (length_oof_prediction om), length_rows by done;
        lia).
  rewrite OrthDmlPlr_fit_iv;
    rewrite ?(length_oof_prediction og), ?(length_oof_prediction om),
      ?length_rows by done; try done.
  unfold lift, spec_fold_theta, heap_after_fold, fold_events. cbn.
  by rewrite <- app_assoc.
Qed.

(** The body of the loop of the reference on one fold: the same estimate
    and the same effects. *)
Lemma dml_cross_fitting_fold_run (fd : list nat * list nat) w :
  learners_inv lg lm og om w ->
  in_range (length X) fd ->
  dml_cross_fitting_fold lm lg y X d fd w =
  (Ok (spec_fold_theta og om X y d fd),
   {| heap := heap_after_fold lg lm og om X y d fd (heap w);
      trace := trace w ++ fold_events lg lm X y d fd |}).
Proof.
  intros Hinv [Htr Hte]. destruct fd as [train test]. cbn [fst snd] in *.
  pose proof Hinv as ((o1 & Hg & Hc1) & _).
  pose proof (learners_inv_insert_g _ _ _ _ _ _ (rows X train) (rows y train) Hinv Hg)
    as (_ & (o2 & Hm & Hc2) & _).
  cbn in Hm. rewrite (fitted_oblivious og o1) in Hm by done.
  assert (Hyte : Forall (fun i => i < length y) test) by (by rewrite Hy).
  assert (Hdte : Forall (fun i => i < length d) test) by (by rewrite Hd).
  unfold dml_cross_fitting_fold.
  run_call by (by apply fit_predict_run).
  rewrite (fitted_oblivious og o1) by done.
  fold (spec_oof_prediction og X y train test).
  run_call by (by apply fit_predict_run).
  rewrite (fitted_oblivious om o2) by done.
  fold (spec_oof_prediction om X d train test).
  run_lift by (by apply np_take_rows).
  run_lift by (apply np_broadcast_same_length;
        rewrite (length_oof_prediction om) by done; by apply length_rows).
  run_lift by (by apply np_take_rows).
  run_lift by (apply np_broadcast_same_length;
        rewrite (length_oof_prediction og) by done; by apply length_rows).
  run_lift by (apply np_dot_same_length;
        rewrite !length_zip_with, (length_oof_prediction om),
          (length_oof_prediction og), !length_rows by done; lia).
  run_lift by (by apply np_take_rows).
  run_lift by (apply np_dot_same_length;
        rewrite length_zip_with, (length_oof_prediction om), length_rows by done;
        lia).
  unfold mret, M_ret, spec_fold_theta, spec_iv_theta, np_mean0,
    heap_after_fold, fold_events. cbn.
  by rewrite <- app_assoc.
Qed.
End OneFold.

(** *** The loop over the folds *)

Lemma take_S_insert {A} (l : list A) (i : nat) (x : A) :
  i < length l -> take (S i) (<[i:=x]> l) = take i l ++ [x].
Proof.
  intros Hi. rewrite (take_S_r _ _ x) by (by apply list_lookup_insert_eq).
  by rewrite take_insert_ge by lia.
Qed.

(** A run of the body over the folds is a run of the loop, which stores the
    estimates at the positions [idx], [idx + 1], ... of [thetas]. *)
Lemma dml1_loop_exec (body : list nat * list nat -> M F F) folds w ests w' :
  loop_runs body folds w ests w' ->
  forall idx thetas, idx + length folds <= length thetas ->
  dml1_loop body idx folds thetas w =
    (Ok (take idx thetas ++ ests ++ drop (idx + length folds) thetas), w').
Proof.
  induction 1 as [w|fd folds w theta w1 ests w2 Hb _ IH];
    intros idx thetas Hlen; cbn in *.
  - by rewrite Nat.add_0_r, take_drop.
  - run_call by exact Hb.
    run_lift by (unfold np_setitem; rewrite decide_True by lia; reflexivity).
    rewrite IH by (rewrite length_insert; lia).
    rewrite take_S_insert, drop_insert_lt by lia.
    rewrite <- app_assoc. cbn.
    by replace (idx + S (length folds)) with (S (idx + length folds)) by lia.
Qed.

(** Conversely, a loop that returns has run the body over all the folds. *)
Lemma dml1_loop_inv (body : list nat * list nat -> M F F) folds :
  forall idx thetas w out w',
  dml1_loop body idx folds thetas w = (Ok out, w') ->
  exists ests, loop_runs body folds w ests w' /\
    length ests = length folds /\
    out = take idx thetas ++ ests ++ drop (idx + length folds) thetas.
Proof.
  induction folds as [|fd folds IH]; intros idx thetas w out w' Hl; cbn in Hl.
  - injection Hl as <- <-. exists []. split; [constructor|]. split; [done|].
    cbn. by rewrite Nat.add_0_r, take_drop.
  - apply bind_inv_ok in Hl as (theta & w1 & Hb & Hl).
    apply bind_lift_inv_ok in Hl as (thetas' & Hs & Hl).
    unfold np_setitem in Hs. case_decide; [|discriminate]. injection Hs as <-.
    apply IH in Hl as (ests & Hr & Hlen & ->).
    exists (theta :: ests). split; [by econstructor|]. split; [cbn; lia|].
    rewrite take_S_insert, drop_insert_lt by lia.
    rewrite <- app_assoc. cbn.
    by replace (idx + S (length folds)) with (S (idx + length folds)) by lia.
Qed.

Lemma loop_runs_length (body : list nat * list nat -> M F F) folds w ests w' :
  loop_runs body folds w ests w' -> length ests = length folds.
Proof. induction 1; cbn; lia. Qed.

(** With one slot per fold the array of estimates is exactly the list of
    the fold estimates. *)
Lemma dml1_loop_all (body : list nat * list nat -> M F F) folds w ests w' :
  loop_runs body folds w ests w' ->
  dml1_loop body 0 folds (np_zeros (length folds)) w = (Ok ests, w').
Proof.
  intros Hr. rewrite (dml1_loop_exec _ _ _ _ _ Hr)
    by (unfold np_zeros; rewrite length_replicate; lia).
  cbn. unfold np_zeros. rewrite drop_replicate, Nat.sub_diag. cbn.
  by rewrite app_nil_r.
Qed.

Lemma learners_inv_after_fold lg lm (og om : Learner F) X y d fd w tr :
  learners_inv lg lm og om w ->
  learners_inv lg lm og om
    {| heap := heap_after_fold lg lm og om X y d fd (heap w); trace := tr |}.
Proof.
  intros (_ & _ & Hal). unfold heap_after_fold.
  split; [|split]; cbn; [| |done].
  - destruct (decide (lg = lm)) as [Heq|Hne].
    + rewrite <- Heq, lookup_insert_eq. rewrite <- (Hal Heq).
      eauto with learners.
    + rewrite lookup_insert_ne, lookup_insert_eq by done.
      eauto with learners.
  - rewrite lookup_insert_eq. eauto with learners.
Qed.

(** The world the loop leaves when every fold behaves as [dml1_fold_run]
    says. *)
Lemma loop_runs_spec lg lm (og om : Learner F) X y d
    (body : list nat * list nat -> M F F) :
  (forall fd w, learners_inv lg lm og om w -> in_range (length X) fd ->
     body fd w =
       (Ok (spec_fold_theta og om X y d fd),
        {| heap := heap_after_fold lg lm og om X y d fd (heap w);
           trace := trace w ++ fold_events lg lm X y d fd |})) ->
  forall folds w,
  learners_inv lg lm og om w ->
  Forall (in_range (length X)) folds ->
  loop_runs body folds w (map (spec_fold_theta og om X y d) folds)
    {| heap := foldl (fun h fd => heap_after_fold lg lm og om X y d fd h) (heap w) folds;
       trace := trace w ++ concat (map (fold_events lg lm X y d) folds) |}.
Proof.
  intros Hbody. induction folds as [|fd folds IH]; intros w Hinv Hfolds;
    cbn [map concat foldl].
  - rewrite app_nil_r. destruct w. constructor.
  - apply Forall_cons in Hfolds as [Hfd Hfolds].
    econstructor; [by apply Hbody|].
    rewrite app_assoc.
    apply (IH {| heap := heap_after_fold lg lm og om X y d fd (heap w);
                 trace := trace w ++ fold_events lg lm X y d fd |});
      [by apply learners_inv_after_fold|done].
Qed.

(** *** What a fold does to the heap and to the trace, for any learners *)

Lemma fit_predict_inv (l : loc) (X : list (list F)) (t : list F) train test w p w' :
  fit_predict l X t train test w = (Ok p, w') ->
  exists o, heap w !! l = Some o /\
    p = predict (fitted o (rows X train) (rows t train)) (rows X test) /\
    w' = {| heap := <[l := fitted o (rows X train) (rows t train)]> (heap w);
            trace := trace w ++ [EvFit (Shared l) (rows X train) (rows t train);
                                 EvPredict (Shared l) (rows X test)] |}.
Proof.
  unfold fit_predict. intros Hf.
  apply bind_lift_inv_ok in Hf as (X_train & [-> _]%np_take_ok_rows & Hf).
  apply bind_lift_inv_ok in Hf as (t_train & [-> _]%np_take_ok_rows & Hf).
  apply bind_inv_ok in Hf as (self & w1 & Hfit & Hf).
  unfold learner_fit in Hfit.
  destruct (heap w !! l) as [o|] eqn:Hl; [|discriminate].
  injection Hfit as <- <-.
  apply bind_lift_inv_ok in Hf as (X_test & [-> _]%np_take_ok_rows & Hf).
  unfold learner_predict in Hf. cbn in Hf. rewrite lookup_insert_eq in Hf.
  injection Hf as <- <-.
  exists o. split; [done|]. split; [done|]. by rewrite <- app_assoc.
Qed.

Lemma dml1_fold_inv (im : string) (lg lm : loc) (X : list (list F)) (y d : list F)
    fd w theta w' :
  dml1_fold im lg lm X y d fd w = (Ok theta, w') ->
  exists o1 o2,
    heap w !! lg = Some o1 /\
    <[lg := fitted o1 (rows X fd.1) (rows y fd.1)]> (heap w) !! lm = Some o2 /\
    w' = {| heap := <[lm := fitted o2 (rows X fd.1) (rows d fd.1)]>
                      (<[lg := fitted o1 (rows X fd.1) (rows y fd.1)]> (heap w));
            trace := trace w ++ fold_events lg lm X y d fd |}.
Proof.
  destruct fd as [train test]. unfold dml1_fold. intros Hf.
  apply bind_inv_ok in Hf as (g_hat & w1 & Hg & Hf).
  apply fit_predict_inv in Hg as (o1 & Hl1 & -> & ->).
  apply bind_lift_inv_ok in Hf as (y_test & _ & Hf).
  apply bind_lift_inv_ok in Hf as (u_hat & _ & Hf).
  apply bind_inv_ok in Hf as (m_hat & w2 & Hm & Hf).
  apply fit_predict_inv in Hm as (o2 & Hl2 & -> & ->).
  apply bind_lift_inv_ok in Hf as (d_test & _ & Hf).
  apply bind_lift_inv_ok in Hf as (v_hat & _ & Hf).
  apply bind_lift_inv_ok in Hf as (v_hatd & _ & Hf).
  apply lift_inv_ok in Hf as [_ ->].
  exists o1, o2. cbn in *. split; [done|]. split; [done|].
  unfold fold_events. cbn. by rewrite <- app_assoc.
Qed.

(** At keys other than the two learners one fold changes nothing; a second
    fold overwrites what the first left at the two learners. *)
Lemma heap_after_fold_absorb lg lm (og om : Learner F) X y d fd (g1 m1 : Learner F) h :
  heap_after_fold lg lm og om X y d fd (<[lm := m1]> (<[lg := g1]> h)) =
  heap_after_fold lg lm og om X y d fd h.
Proof.
  unfold heap_after_fold. apply map_eq. intros l.
  destruct (decide (l = lm)) as [->|Hm]; [by rewrite !lookup_insert_eq|].
  rewrite !(lookup_insert_ne _ lm) by congruence.
  destruct (decide (l = lg)) as [->|Hg]; [by rewrite !lookup_insert_eq|].
  by rewrite !lookup_insert_ne by congruence.
Qed.

Lemma heap_after_folds_last lg lm (og om : Learner F) X y d folds : forall fd h,
  heap_after_fold lg lm og om X y d fd
    (foldl (fun h fd => heap_after_fold lg lm og om X y d fd h) h folds) =
  heap_after_fold lg lm og om X y d fd h.
Proof.
  induction folds as [|fd' folds IH]; intros fd h; cbn [foldl]; [done|].
  rewrite IH. unfold heap_after_fold at 2. apply heap_after_fold_absorb.
Qed.

Lemma insert_refit (l : loc) (o : Learner F) X t (h : gmap loc (Learner F)) :
  h !! l = Some o -> <[l := fitted o X t]> h = refit l X t h.
Proof.
  intros Hl. unfold refit. apply map_eq. intros l'.
  rewrite lookup_alter. destruct (decide (l = l')) as [<-|Hne].
  - by rewrite lookup_insert_eq, Hl.
  - by rewrite lookup_insert_ne.
Qed.

(** The effects of the loop of [DoubleMLPLR.fit]: every call goes to the
    two objects of the heap, which are refitted in place fold after fold;
    nothing else is touched; and for learners that start each [fit] afresh
    the heap is the one [heap_after_fold] gives. *)
Lemma loop_runs_effects (im : string) lg lm (og om : Learner F) X y d folds w ests w' :
  loop_runs (dml1_fold im lg lm X y d) folds w ests w' ->
  trace w' = trace w ++ concat (map (fold_events lg lm X y d) folds) /\
  heap w' = foldl (fun h fd => refit_fold lg lm X y d fd h) (heap w) folds /\
  (forall l, l <> lg -> l <> lm -> heap w' !! l = heap w !! l) /\
  (learners_inv lg lm og om w -> oblivious og -> oblivious om ->
   heap w' = foldl (fun h fd => heap_after_fold lg lm og om X y d fd h) (heap w) folds).
Proof.
  induction 1 as [w|fd folds w theta w1 ests w2 Hb _ IH]; cbn [map concat foldl].
  - rewrite app_nil_r. done.
  - apply dml1_fold_inv in Hb as (o1 & o2 & Hl1 & Hl2 & ->).
    destruct IH as (Htr & Hrefit & Hframe & Hheap). cbn [heap trace] in *.
    split; [by rewrite Htr, app_assoc|]. split; [|split].
    + rewrite Hrefit. unfold refit_fold.
      by rewrite (insert_refit lg o1), (insert_refit lm o2)
        by (done || by rewrite <- (insert_refit lg o1)).
    + intros l Hg Hm. rewrite Hframe by done.
      by rewrite !lookup_insert_ne by congruence.
    + intros Hinv Hog Hom.
      pose proof Hinv as ((o & Hl & Hc1) & _).
      rewrite Hl1 in Hl. injection Hl as <-.
      pose proof (learners_inv_insert_g _ _ _ _ _ _ (rows X fd.1) (rows y fd.1) Hinv Hl1)
        as (_ & (o & Hl & Hc2) & _).
      cbn [heap] in Hl. rewrite Hl2 in Hl. injection Hl as <-.
      assert (Heq : <[lm := fitted o2 (rows X fd.1) (rows d fd.1)]>
                (<[lg := fitted o1 (rows X fd.1) (rows y fd.1)]> (heap w)) =
              heap_after_fold lg lm og om X y d fd (heap w)).
      { unfold heap_after_fold.
        by rewrite (fitted_oblivious og o1), (fitted_oblivious om o2). }
      rewrite Heq in *. apply Hheap; [|done|done].
      by apply (learners_inv_after_fold lg lm og om X y d fd w).
Qed.

(** A call of [DoubleMLPLR.fit] that returns has run the loop body over all
    the folds and has averaged the estimates. *)
Lemma DoubleMLPLR_fit_inv (self : DoubleMLPLR) X y d w theta w' lg lm :
  ml_learners self !! "ml_g" = Some lg ->
  ml_learners self !! "ml_m" = Some lm ->
  DoubleMLPLR_fit self X y d w = (Ok theta, w') ->
  exists thetas,
    dml1_loop (dml1_fold (inf_model self) lg lm X y d) 0 (split (resampling self) X)
      (np_zeros (get_n_splits (resampling self))) w = (Ok thetas, w') /\
    theta = np_mean thetas.
Proof.
  intros Hlg Hlm Hfit.
  unfold DoubleMLPLR_fit, getitem in Hfit. rewrite Hlm, Hlg in Hfit.
  do 2 (erewrite bind_lift_ok in Hfit by reflexivity).
  apply bind_lift_inv_ok in Hfit as (p & Hcy & Hfit).
  apply check_X_y_ok in Hcy as [-> _]. cbn [fst snd] in Hfit.
  apply bind_lift_inv_ok in Hfit as (p & Hcd & Hfit).
  apply check_X_y_ok in Hcd as [-> _]. cbn [fst snd] in Hfit.
  destruct (String.eqb (dml_procedure self) "dml1"); [|discriminate].
  apply bind_inv_ok in Hfit as (thetas & w1 & Hloop & Hret).
  injection Hret as <- <-. eauto.
Qed.
End PLRFacts.

(** ** Theorems about [dml/dml_plr.py] *)

Section PLRTheorems.
Context {F : Type} `{Scalar F}.

Lemma learners_inv_init lg lm (og om : Learner F) w :
  heap w !! lg = Some og -> heap w !! lm = Some om ->
  learners_inv lg lm og om w.
Proof.
  intros Hg Hm. split; [|split].
  - eauto using same_class_refl.
  - eauto using same_class_refl.
  - intros ->. rewrite Hg in Hm. by injection Hm.
Qed.

(** C1 (as the code has it).  With [dml_procedure = 'dml1'] and
    [inf_model = 'IV-type'], for learners whose [fit] does not depend on
    what an earlier [fit] left in the object (no warm start),
    [DoubleMLPLR.fit] returns normally and sets [coef_] to the mean over the
    K folds of [mean(v.u) / mean(v.d)], where [g_hat] and [m_hat] are the
    predictions for the test rows of models trained on the train rows only,
    [u = y[test] - g_hat] and [v = d[test] - m_hat]; the manual reference
    [dml_cross_fitting] of the test-suite returns the same value.  The
    products [v.u] and [v.d] are the dot products of the reference.  A
    deterministic learner that keeps state from one [fit] to the next is
    refitted from that state in every fold, and [coef_] is then another
    number. *)
Theorem plr_dml1_iv_type_coef (self : DoubleMLPLR) X y d w lg lm og om :
  dml_procedure self = "dml1" ->
  inf_model self = "IV-type" ->
  ml_learners self !! "ml_g" = Some lg ->
  ml_learners self !! "ml_m" = Some lm ->
  heap w !! lg = Some og ->
  heap w !! lm = Some om ->
  oblivious og -> oblivious om ->
  predicts_rows og -> predicts_rows om ->
  check_X_y X y = Ok (X, y) ->
  check_X_y X d = Ok (X, d) ->
  get_n_splits (resampling self) = length (split (resampling self) X) ->
  Forall (in_range (length X)) (split (resampling self) X) ->
  (DoubleMLPLR_fit self X y d w).1 =
    Ok (spec_dml1_theta og om X y d (split (resampling self) X)) /\
  (dml_cross_fitting y X d lm lg (resampling self) w).1 =
    Ok (spec_dml1_theta og om X y d (split (resampling self) X)).
Proof.
  intros Hproc Hinf Hlg Hlm Hg Hm Hog Hom Hpg Hpm Hcy Hcd Hn Hfolds.
  pose proof (learners_inv_init _ _ _ _ _ Hg Hm) as Hinv.
  destruct (check_X_y_ok _ _ _ Hcy) as [_ Hy].
  destruct (check_X_y_ok _ _ _ Hcd) as [_ Hd].
  split.
  - unfold DoubleMLPLR_fit, getitem. rewrite Hlm, Hlg.
    do 2 (run_lift by reflexivity).
    run_lift by exact Hcy. cbn [fst snd].
    run_lift by exact Hcd. cbn [fst snd].
    rewrite Hproc, Hinf, Hn. cbn [String.eqb Ascii.eqb Bool.eqb].
    run_call by (apply dml1_loop_all, (loop_runs_spec lg lm og om X y d); try done;
          intros; by apply dml1_fold_run).
    reflexivity.
  - unfold dml_cross_fitting. rewrite Hn.
    run_call by (apply dml1_loop_all, (loop_runs_spec lg lm og om X y d); try done;
          intros; by apply dml_cross_fitting_fold_run).
    reflexivity.
Qed.

(** C10.  Whenever [DoubleMLPLR.fit] returns, [coef_] is the plain
    arithmetic mean of the fold estimates: their sum divided by the number
    of folds, whatever the sizes of the folds. *)
Theorem plr_dml1_coef_is_unweighted_mean (self : DoubleMLPLR) X y d w theta w' lg lm :
  ml_learners self !! "ml_g" = Some lg ->
  ml_learners self !! "ml_m" = Some lm ->
  get_n_splits (resampling self) = length (split (resampling self) X) ->
  DoubleMLPLR_fit self X y d w = (Ok theta, w') ->
  exists thetas,
    loop_runs (dml1_fold (inf_model self) lg lm X y d)
      (split (resampling self) X) w thetas w' /\
    length thetas = length (split (resampling self) X) /\
    theta = f_div (np_sum thetas) (f_of_nat (length (split (resampling self) X))).
Proof.
  intros Hlg Hlm Hn Hfit.
  destruct (DoubleMLPLR_fit_inv _ _ _ _ _ _ _ _ _ Hlg Hlm Hfit) as (thetas & Hloop & ->).
  rewrite Hn in Hloop.
  apply dml1_loop_inv in Hloop as (ests & Hruns & Hlen & ->).
  exists ests. split; [done|]. split; [done|].
  unfold np_zeros. rewrite take_0, drop_replicate, Nat.add_0_l, Nat.sub_diag.
  cbn [replicate app]. rewrite app_nil_r. unfold np_mean. by rewrite Hlen.
Qed.

(** C4 (as the code has it).  [DoubleMLPLR.fit] knows one procedure only:
    with [dml_procedure = 'dml2'], as with anything other than ['dml1'], it
    raises, no learner is called and the world is left as it was; when the
    learners are present and the data pass [check_X_y] the exception is
    [ValueError('invalid dml_procedure')]. *)
Theorem plr_dml2_is_rejected (self : DoubleMLPLR) X y d w :
  dml_procedure self <> "dml1" ->
  exists e, DoubleMLPLR_fit self X y d w = (Raise e, w) /\
    (is_ok (getitem (ml_learners self) "ml_m") = true ->
     is_ok (getitem (ml_learners self) "ml_g") = true ->
     is_ok (check_X_y X y) = true ->
     is_ok (check_X_y X d) = true ->
     e = ValueError "invalid dml_procedure").
Proof.
  intros Hproc%String.eqb_neq. unfold DoubleMLPLR_fit.
  destruct (getitem (ml_learners self) "ml_m") as [lm|e];
    [|exists e; split; [reflexivity|discriminate]].
  destruct (getitem (ml_learners self) "ml_g") as [lg|e];
    [|exists e; split; [reflexivity|discriminate]].
  destruct (check_X_y X y) as [p|e] eqn:Hcy;
    [|exists e; split; [reflexivity|discriminate]].
  apply check_X_y_ok in Hcy as [-> _].
  erewrite !bind_lift_ok by reflexivity. cbn [fst snd].
  destruct (check_X_y X d) as [p|e] eqn:Hcd.
  - apply check_X_y_ok in Hcd as [-> _].
    exists (ValueError "invalid dml_procedure"). split; [|done].
    run_lift by reflexivity. by rewrite Hproc.
  - exists e. split; [|discriminate]. by apply bind_raise.
Qed.

(** C5 (the code at the failing inputs).  With [inf_model = 'DML2018']
    [OrthDmlPlr.fit] never returns: whatever the arrays, it raises, and on
    arrays of one length the exception is the [NameError] for the global
    [LinearRegression], so no coefficient is stored in [coef_]. *)
Theorem orth_dml2018_always_raises (y d g_hat m_hat : list F) :
  is_ok (OrthDmlPlr_fit "DML2018" y d g_hat m_hat) = false /\
  (length y = length g_hat /\ length d = length m_hat ->
   OrthDmlPlr_fit "DML2018" y d g_hat m_hat = Raise (NameError "LinearRegression")).
Proof.
  unfold OrthDmlPlr_fit. split.
  - destruct (np_subtract y g_hat) as [u|e]; [|reflexivity].
    destruct (np_subtract d m_hat) as [v|e]; [|reflexivity].
    cbn. destruct (np_dot v d) as [vd|e]; reflexivity.
  - intros [Hy Hd]. unfold np_subtract.
    rewrite !np_broadcast_same_length by done. cbn.
    rewrite np_dot_same_length by (rewrite length_zip_with; lia).
    reflexivity.
Qed.

(** C8 (as the code has it).  [DoubleMLPLR.fit] makes no copy of a
    learner.  Whenever it returns, the calls it made are, fold after fold,
    [fit] and [predict] on the object held under ['ml_g'] and then on the
    object held under ['ml_m']; the two objects were refitted in place, each
    [fit] starting from the state the previous one left; no other object
    was touched.  For learners whose [fit] ignores that previous state, the
    two objects end up holding the models fitted on the train rows of the
    last fold. *)
Theorem plr_fit_refits_held_learners (self : DoubleMLPLR) X y d w theta w' lg lm og om :
  ml_learners self !! "ml_g" = Some lg ->
  ml_learners self !! "ml_m" = Some lm ->
  heap w !! lg = Some og ->
  heap w !! lm = Some om ->
  DoubleMLPLR_fit self X y d w = (Ok theta, w') ->
  trace w' =
    trace w ++ concat (map (fold_events lg lm X y d) (split (resampling self) X)) /\
  heap w' =
    foldl (fun h fd => refit_fold lg lm X y d fd h) (heap w) (split (resampling self) X) /\
  (forall l, l <> lg -> l <> lm -> heap w' !! l = heap w !! l) /\
  (oblivious og -> oblivious om ->
   forall fd, last (split (resampling self) X) = Some fd ->
   heap w' = heap_after_fold lg lm og om X y d fd (heap w)).
Proof.
  intros Hlg Hlm Hg Hm Hfit.
  destruct (DoubleMLPLR_fit_inv _ _ _ _ _ _ _ _ _ Hlg Hlm Hfit) as (thetas & Hloop & _).
  apply dml1_loop_inv in Hloop as (ests & Hruns & _).
  destruct (loop_runs_effects _ lg lm og om _ _ _ _ _ _ _ Hruns)
    as (Htr & Hrefit & Hframe & Hheap).
  split; [done|]. split; [done|]. split; [done|].
  intros Hog Hom fd [folds' Hlast]%last_Some.
  rewrite Hheap by (done || by apply learners_inv_init).
  rewrite Hlast, foldl_snoc. apply heap_after_folds_last.
Qed.

(** The nuisance prediction of a fold does not look at the targets outside
    the train rows: overwriting [t[i]] for a test row [i] changes nothing,
    whatever state earlier folds left in the learner, as long as [fit] does
    not tell the two states apart. *)
Lemma fit_predict_ignores_test_target (l : loc) (o : Learner F) (s' : l_St o)
    (X : list (list F)) (t : list F) (i : nat) (v : F) train test w w' :
  heap w !! l = Some o ->
  heap w' !! l = Some (set_state o s') ->
  (forall X' t', l_fit o (l_state o) X' t' = l_fit o s' X' t') ->
  i ∈ test ->
  train ## test ->
  (fit_predict l X t train test w).1 =
  (fit_predict l X (<[i := v]> t) train test w').1.
Proof.
  intros Hl Hl' Hfit Hi Hdisj.
  assert (Hni : i ∉ train) by (intros Hin; by apply (Hdisj i)).
  unfold fit_predict. rewrite (np_take_insert_notin t i v train Hni).
  unfold mbind, M_bind, lift, learner_fit, learner_predict.
  destruct (np_take X train) as [X_train|e]; [|done].
  destruct (np_take t train) as [t_train|e]; [|done].
  rewrite Hl, Hl'. cbn.
  destruct (np_take X test) as [X_test|e]; [|done].
  cbn. rewrite !lookup_insert_eq. cbn.
  unfold predict, fitted. cbn. by rewrite Hfit.
Qed.

(** The quotient the "IV-type" branch computes, whatever the denominator. *)
Lemma OrthDmlPlr_fit_iv_quotient (y d g_hat m_hat u v : list F) (num den : F) :
  np_subtract y g_hat = Ok u ->
  np_subtract d m_hat = Ok v ->
  np_dot v d = Ok den ->
  np_dot v u = Ok num ->
  OrthDmlPlr_fit "IV-type" y d g_hat m_hat = Ok (f_div num den).
Proof.
  intros Hu Hv Hden Hnum. unfold OrthDmlPlr_fit.
  rewrite Hu, Hv. cbn. rewrite Hden. cbn. rewrite Hnum. reflexivity.
Qed.
End PLRTheorems.

(** ** Division by zero at binary64 *)

Lemma Prim2SF_is_zero (x : float) :
  PrimFloat.is_zero x = true -> exists s, Prim2SF x = S754_zero s.
Proof.
  unfold PrimFloat.is_zero. rewrite FloatAxioms.eqb_spec.
  change (Prim2SF PrimFloat.zero) with (S754_zero false).
  destruct (Prim2SF x) as [s|s| |s m e]; cbn; try discriminate; eauto;
    destruct s; discriminate.
Qed.

(** A quotient by zero is a NaN or an infinity. *)
Lemma div_by_zero_not_finite (x y : float) :
  PrimFloat.is_zero y = true ->
  negb (PrimFloat.is_nan (x / y) || PrimFloat.is_infinity (x / y)) = false.
Proof.
  intros [s Hy]%Prim2SF_is_zero.
  unfold PrimFloat.is_nan, PrimFloat.is_infinity.
  rewrite !FloatAxioms.eqb_spec, FloatAxioms.abs_spec, FloatAxioms.div_spec, Hy.
  change (Prim2SF infinity) with (S754_infinity false).
  unfold SF64div, SFdiv.
  destruct (Prim2SF x) as [sx|sx| |sx m e]; try destruct sx; destruct s; reflexivity.
Qed.

(** C7 (as the code has it).  The "IV-type" branch of [OrthDmlPlr.fit]
    divides [np.dot(v, u)] by [np.dot(v, d)] without looking at the
    denominator: when it is zero no exception is raised, the method
    returns normally and [coef_] is the IEEE quotient, which is a NaN or an
    infinity. *)
Theorem orth_iv_type_zero_denominator (y d g_hat m_hat u v : list float)
    (num den : float) :
  np_subtract y g_hat = Ok u ->
  np_subtract d m_hat = Ok v ->
  np_dot v d = Ok den ->
  np_dot v u = Ok num ->
  PrimFloat.is_zero den = true ->
  OrthDmlPlr_fit "IV-type" y d g_hat m_hat = Ok (num / den)%float /\
  f_isfinite (num / den)%float = false.
Proof.
  intros Hu Hv Hden Hnum Hz. split.
  - exact (OrthDmlPlr_fit_iv_quotient y d g_hat m_hat u v num den Hu Hv Hden Hnum).
  - by apply div_by_zero_not_finite.
Qed.

(** ** [DoubleMLPLR.fit] and the manual reference, for any learners *)

Section Reference.
Context {F : Type} `{Scalar F}.

(** On one fold the loop body of [DoubleMLPLR.fit] and that of the
    reference do the same calls in the same order and compute the same
    quotient; they differ in the order of the array operations only, which
    shows when one of them raises. *)
Lemma dml1_fold_iff_reference (lg lm : loc) (X : list (list F)) (y d : list F)
    fd w theta w' :
  dml1_fold "IV-type" lg lm X y d fd w = (Ok theta, w') <->
  dml_cross_fitting_fold lm lg y X d fd w = (Ok theta, w').
Proof.
  destruct fd as [train test].
  unfold dml1_fold, dml_cross_fitting_fold, OrthDmlPlr_fit, np_mean0.
  unfold mbind, M_bind, result_bind, lift, mret, M_ret.
  destruct (fit_predict lg X y train test w) as [[g_hat|e] w1]; [|done].
  destruct (np_take y test) as [y_test|e]; cbn.
  - destruct (np_subtract y_test g_hat) as [u_hat|e]; cbn.
    + destruct (fit_predict lm X d train test w1) as [[m_hat|e] w2]; [|done].
      destruct (np_take d test) as [d_test|e]; cbn; [|done].
      destruct (np_subtract d_test m_hat) as [v_hat|e]; cbn; [|done].
      destruct (np_dot v_hat d_test) as [vd|e]; cbn.
      * destruct (np_dot v_hat u_hat) as [vu|e]; cbn; done.
      * destruct (np_dot v_hat u_hat) as [vu|e']; cbn; done.
    + destruct (fit_predict lm X d train test w1) as [[m_hat|e'] w2];
        [|split; discriminate].
      destruct (np_take d test) as [d_test|e']; cbn; [|split; discriminate].
      destruct (np_subtract d_test m_hat) as [v_hat|e']; cbn; split; discriminate.
  - destruct (fit_predict lm X d train test w1) as [[m_hat|e'] w2];
      [|split; discriminate].
    destruct (np_take d test) as [d_test|e']; cbn; [|split; discriminate].
    destruct (np_subtract d_test m_hat) as [v_hat|e']; cbn; split; discriminate.
Qed.

Lemma dml1_loop_iff (body1 body2 : list nat * list nat -> M F F) :
  (forall fd w theta w', body1 fd w = (Ok theta, w') <-> body2 fd w = (Ok theta, w')) ->
  forall folds idx thetas w out w',
  dml1_loop body1 idx folds thetas w = (Ok out, w') ->
  dml1_loop body2 idx folds thetas w = (Ok out, w').
Proof.
  intros Hbody. induction folds as [|fd folds IH]; intros idx thetas w out w' Hl;
    cbn in *; [done|].
  apply bind_inv_ok in Hl as (theta & w1 & Hb & Hl).
  apply bind_lift_inv_ok in Hl as (thetas' & Hs & Hl).
  run_call by (by apply Hbody).
  run_lift by exact Hs.
  by apply IH.
Qed.

(** X1.  [DoubleMLPLR.fit] returns a value exactly when the reference, run
    on the same learners in the same state, returns it; both leave the same
    world.  No assumption on the learners. *)
Lemma DoubleMLPLR_fit_iff_reference (self : DoubleMLPLR) X y d w lg lm theta w' :
  dml_procedure self = "dml1" ->
  inf_model self = "IV-type" ->
  ml_learners self !! "ml_g" = Some lg ->
  ml_learners self !! "ml_m" = Some lm ->
  check_X_y X y = Ok (X, y) ->
  check_X_y X d = Ok (X, d) ->
  DoubleMLPLR_fit self X y d w = (Ok theta, w') <->
  dml_cross_fitting y X d lm lg (resampling self) w = (Ok theta, w').
Proof.
  intros Hproc Hinf Hlg Hlm Hcy Hcd.
  unfold DoubleMLPLR_fit, dml_cross_fitting, getitem. rewrite Hlm, Hlg.
  do 2 (run_lift by reflexivity).
  run_lift by exact Hcy. cbn [fst snd].
  run_lift by exact Hcd. cbn [fst snd].
  rewrite Hproc, Hinf. cbn [String.eqb Ascii.eqb Bool.eqb].
  split; intros (thetas & w1 & Hl & Hret)%bind_inv_ok.
  - erewrite bind_ok; [exact Hret|].
    revert Hl. apply dml1_loop_iff. intros. apply dml1_fold_iff_reference.
  - erewrite bind_ok; [exact Hret|].
    revert Hl. apply dml1_loop_iff. intros. symmetry. apply dml1_fold_iff_reference.
Qed.
End Reference.

(** ** The fold estimate in exact arithmetic

    The documentation writes the "IV-type" estimate of a fold with means of
    element-wise products, mean(v*u) / mean(v*d); the code divides the two
    dot products.  In exact arithmetic, on a fold that is not empty, the
    two quotients are the same number. *)

Section Exact.
#[local] Existing Instance rational.

Lemma f_of_nat_rational_nonzero (n : nat) :
  n <> 0 -> f_of_nat (F := Qc) n <> 0%Qc.
Proof.
  intros Hn Heq. cbn in Heq.
  change 0%Qc with (Q2Qc 0) in Heq. apply Q2Qc_eq_iff in Heq.
  unfold Qeq in Heq. cbn in Heq. lia.
Qed.

Lemma spec_iv_theta_ratio_of_means (u v d : list Qc) :
  length u = length v -> length d = length v -> v <> [] ->
  spec_iv_theta u v d = spec_iv_theta_means u v d.
Proof.
  intros Hu Hd Hv. unfold spec_iv_theta, spec_iv_theta_means, np_mean.
  rewrite !length_zip_with, Hu, Hd, Nat.min_id.
  assert (Hn : f_of_nat (F := Qc) (length v) <> 0%Qc).
  { apply f_of_nat_rational_nonzero. by destruct v. }
  cbn [f_div rational].
  generalize dependent (f_of_nat (F := Qc) (length v)). intros n Hn.
  generalize (np_sum (zip_with f_mul v u)).
  generalize (np_sum (zip_with f_mul v d)).
  intros b a.
  destruct (Qc_eq_dec b 0%Qc) as [->|Hb].
  - unfold Qcdiv. replace (0 * / n)%Qc with 0%Qc by ring.
    replace (/ 0)%Qc with 0%Qc by (apply Qc_is_canon; reflexivity). ring.
  - field. by split.
Qed.
End Exact.

(** ** Facts about the cross-validated predictions of the PLIV model *)

Section PLIVFacts.
Context {F : Type} `{Scalar F}.

Lemma calls_app (kind : event F -> bool) (tr1 tr2 : list (event F)) :
  calls kind (tr1 ++ tr2) = calls kind tr1 + calls kind tr2.
Proof. unfold calls. by rewrite List.filter_app, length_app. Qed.

Lemma rows_insert_notin (t : list F) (i : nat) (v : F) (idx : list nat) :
  i ∉ idx -> rows (<[i := v]> t) idx = rows t idx.
Proof.
  unfold rows. induction idx as [|j idx IH]; intros Hi; [done|].
  apply not_elem_of_cons in Hi as [Hij Hi].
  cbn. rewrite list_lookup_insert_ne by done. by rewrite IH.
Qed.

(** One fold of the cross-validated prediction: a private copy is fitted
    and asked, the heap stays as it is. *)
Lemma cross_val_fold_inv (ml : loc) (o : Learner F) (X : list (list F)) (t : list F)
    preds fd w preds' w' :
  cross_val_fold ml o X t preds fd w = (Ok preds', w') ->
  np_put preds fd.2
    (predict (fitted (clone o) (rows X fd.1) (rows t fd.1)) (rows X fd.2)) = Ok preds' /\
  heap w' = heap w /\
  trace w' = trace w ++ [EvFit (CloneOf ml) (rows X fd.1) (rows t fd.1);
                         EvPredict (CloneOf ml) (rows X fd.2)].
Proof.
  destruct fd as [train test]. unfold cross_val_fold. intros Hf.
  apply bind_lift_inv_ok in Hf as (X_train & [-> _]%np_take_ok_rows & Hf).
  apply bind_lift_inv_ok in Hf as (t_train & [-> _]%np_take_ok_rows & Hf).
  apply bind_inv_ok in Hf as ([] & w1 & [= <-] & Hf).
  apply bind_lift_inv_ok in Hf as (X_test & [-> _]%np_take_ok_rows & Hf).
  apply bind_inv_ok in Hf as ([] & w2 & [= <-] & Hf).
  apply lift_inv_ok in Hf as [Hput ->]. cbn.
  split; [done|]. split; [done|]. by rewrite <- app_assoc.
Qed.

Lemma cross_val_loop_inv (ml : loc) (o : Learner F) (X : list (list F)) (t : list F)
    smpls : forall preds w out w',
  cross_val_loop (cross_val_fold ml o X t) smpls preds w = (Ok out, w') ->
  length out = length preds /\
  heap w' = heap w /\
  exists evs, trace w' = trace w ++ evs /\
    calls is_fit evs = length smpls /\
    calls is_predict evs = length smpls /\
    calls is_inf_model_call evs = 0.
Proof.
  induction smpls as [|fd smpls IH]; intros preds w out w' Hl; cbn in Hl.
  - injection Hl as <- <-. split; [done|]. split; [done|].
    exists []. by rewrite app_nil_r.
  - apply bind_inv_ok in Hl as (preds1 & w1 & Hf & Hl).
    apply cross_val_fold_inv in Hf as (Hput & Hh1 & Ht1).
    apply IH in Hl as (Hlen & Hh & evs & Ht & Hfit & Hpred & Hinf).
    split; [by rewrite Hlen, (np_put_length _ _ _ _ Hput)|].
    split; [by rewrite Hh|].
    eexists (_ :: _ :: evs). rewrite Ht, Ht1, <- app_assoc. split; [done|].
    unfold calls in *. cbn. lia.
Qed.

Lemma _dml_cross_val_predict_inv (ml : loc) (X : list (list F)) (t : list F)
    smpls n_jobs w out w' :
  _dml_cross_val_predict ml X t smpls n_jobs w = (Ok out, w') ->
  length out = length X /\
  heap w' = heap w /\
  exists evs, trace w' = trace w ++ evs /\
    calls is_fit evs = length smpls /\
    calls is_predict evs = length smpls /\
    calls is_inf_model_call evs = 0.
Proof.
  unfold _dml_cross_val_predict. destruct (heap w !! ml) as [o|]; [|discriminate].
  intros (Hlen & Hrest)%cross_val_loop_inv. split; [|done].
  rewrite Hlen. unfold np_zeros. by rewrite length_replicate.
Qed.

(** Two runs of the loop, on targets that differ at row [i] only, over
    folds whose train and test rows are disjoint: the outputs agree at
    [i]. *)
Lemma cross_val_loop_agree (ml : loc) (o : Learner F) (X : list (list F)) (t : list F)
    (i : nat) (v : F) smpls :
  (forall fd, fd ∈ smpls -> fd.1 ## fd.2) ->
  forall preds1 preds2 w1 w2 out1 out2 w1' w2',
  length preds1 = length preds2 ->
  preds1 !! i = preds2 !! i ->
  cross_val_loop (cross_val_fold ml o X t) smpls preds1 w1 = (Ok out1, w1') ->
  cross_val_loop (cross_val_fold ml o X (<[i := v]> t)) smpls preds2 w2 = (Ok out2, w2') ->
  out1 !! i = out2 !! i.
Proof.
  induction smpls as [|fd smpls IH]; intros Hdisj preds1 preds2 w1 w2 out1 out2 w1' w2'
    Hlen Hi Hl1 Hl2; cbn in Hl1, Hl2.
  - injection Hl1 as <- <-. by injection Hl2 as <- <-.
  - apply bind_inv_ok in Hl1 as (p1 & u1 & Hf1 & Hl1).
    apply bind_inv_ok in Hl2 as (p2 & u2 & Hf2 & Hl2).
    apply cross_val_fold_inv in Hf1 as (Hput1 & _).
    apply cross_val_fold_inv in Hf2 as (Hput2 & _).
    apply (IH (fun fd' Hfd => Hdisj fd' (list_elem_of_further _ _ _ Hfd))
             p1 p2 u1 u2 out1 out2 w1' w2'); [| |done|done].
    + by rewrite (np_put_length _ _ _ _ Hput1), (np_put_length _ _ _ _ Hput2).
    + destruct (decide (i ∈ fd.2)) as [Hin|Hnin].
      * assert (Hni : i ∉ fd.1).
        { intros Hin'. apply (Hdisj fd (list_elem_of_here _ _) i Hin' Hin). }
        rewrite (rows_insert_notin t i v fd.1 Hni) in Hput2.
        by apply (np_put_agree i _ _ _ _ _ _ Hlen Hi Hput1 Hput2).
      * rewrite (np_put_notin i _ _ _ _ Hnin Hput1).
        by rewrite (np_put_notin i _ _ _ _ Hnin Hput2).
Qed.
End PLIVFacts.

(** ** Theorems about [doubleml/double_ml_pliv.py] *)

Section PLIVTheorems.
Context {F : Type} `{Scalar F}.

(** The method up to the residuals: once the three cross-validated
    predictions are there, what remains is the check of [inf_model] and
    the scores, run in the world the predictions left. *)
Lemma pliv_nuisance_prefix (self : DoubleMLPLIV) (data : DoubleMLData)
    smpls n_jobs w lg lm lr g_hat m_hat r_hat w1 w2 w3 :
  pliv_ml_learners self !! "ml_g" = Some lg ->
  pliv_ml_learners self !! "ml_m" = Some lm ->
  pliv_ml_learners self !! "ml_r" = Some lr ->
  check_X_y (data_x data) (data_y data) = Ok (data_x data, data_y data) ->
  check_X_y (data_x data) (data_z data) = Ok (data_x data, data_z data) ->
  check_X_y (data_x data) (data_d data) = Ok (data_x data, data_d data) ->
  _dml_cross_val_predict lg (data_x data) (data_y data) smpls n_jobs w = (Ok g_hat, w1) ->
  _dml_cross_val_predict lm (data_x data) (data_z data) smpls n_jobs w1 = (Ok m_hat, w2) ->
  _dml_cross_val_predict lr (data_x data) (data_d data) smpls n_jobs w2 = (Ok r_hat, w3) ->
  _ml_nuisance_and_score_elements self data smpls n_jobs w =
    (let u_hat := zip_with f_sub (data_y data) g_hat in
     let v_hat := zip_with f_sub (data_z data) m_hat in
     let w_hat := zip_with f_sub (data_d data) r_hat in
     _ ← lift (_check_inf_method (pliv_inf_model self));
     match pliv_inf_model self with
     | PyStr s =>
         if String.eqb s "DML2018" then
           wv ← lift (np_multiply w_hat v_hat);
           let score_a := np_negative wv in
           score_b ← lift (np_multiply v_hat u_hat);
           mret (score_a, score_b)
         else
           score_b ← lift (np_multiply v_hat u_hat);
           raise (UnboundLocalError "score_a")
     | PyCallable f =>
         _ ← emit (EvInfModel (data_y data) (data_z data) (data_d data)
                     g_hat m_hat r_hat smpls);
         mret (f (data_y data) (data_z data) (data_d data) g_hat m_hat r_hat smpls)
     | _ => raise (UnboundLocalError "score_a")
     end) w3.
Proof.
  intros Hlg Hlm Hlr Hcy Hcz Hcd Hg Hm Hr.
  destruct (check_X_y_ok _ _ _ Hcy) as [_ Hy].
  destruct (check_X_y_ok _ _ _ Hcz) as [_ Hz].
  destruct (check_X_y_ok _ _ _ Hcd) as [_ Hd].
  destruct (_dml_cross_val_predict_inv _ _ _ _ _ _ _ _ Hg) as (Hlg' & _).
  destruct (_dml_cross_val_predict_inv _ _ _ _ _ _ _ _ Hm) as (Hlm' & _).
  destruct (_dml_cross_val_predict_inv _ _ _ _ _ _ _ _ Hr) as (Hlr' & _).
  unfold _ml_nuisance_and_score_elements, getitem. rewrite Hlg, Hlm, Hlr.
  do 3 (run_lift by reflexivity).
  run_lift by exact Hcy. cbn [fst snd].
  run_lift by exact Hcz. cbn [fst snd].
  run_lift by exact Hcd. cbn [fst snd].
  run_call by exact Hg.
  run_call by exact Hm.
  run_call by exact Hr.
  unfold np_subtract.
  do 3 (run_lift by (apply np_broadcast_same_length; congruence)).
  reflexivity.
Qed.

(** C3.  With [inf_model = 'DML2018'], once the three out-of-fold
    predictions [g_hat], [m_hat] and [r_hat] are computed, the method
    returns [score_a = -w*v] and [score_b = v*u], element-wise, for the
    residuals [u = y - g_hat], [v = z - m_hat] and [w = d - r_hat]; both
    have one entry per observation. *)
Theorem pliv_dml2018_scores (self : DoubleMLPLIV) (data : DoubleMLData)
    smpls n_jobs w lg lm lr g_hat m_hat r_hat w1 w2 w3 :
  pliv_inf_model self = PyStr "DML2018" ->
  pliv_ml_learners self !! "ml_g" = Some lg ->
  pliv_ml_learners self !! "ml_m" = Some lm ->
  pliv_ml_learners self !! "ml_r" = Some lr ->
  check_X_y (data_x data) (data_y data) = Ok (data_x data, data_y data) ->
  check_X_y (data_x data) (data_z data) = Ok (data_x data, data_z data) ->
  check_X_y (data_x data) (data_d data) = Ok (data_x data, data_d data) ->
  _dml_cross_val_predict lg (data_x data) (data_y data) smpls n_jobs w = (Ok g_hat, w1) ->
  _dml_cross_val_predict lm (data_x data) (data_z data) smpls n_jobs w1 = (Ok m_hat, w2) ->
  _dml_cross_val_predict lr (data_x data) (data_d data) smpls n_jobs w2 = (Ok r_hat, w3) ->
  let scores := spec_pliv_scores (data_y data) (data_z data) (data_d data)
                  g_hat m_hat r_hat in
  _ml_nuisance_and_score_elements self data smpls n_jobs w = (Ok scores, w3) /\
  length scores.1 = length (data_x data) /\
  length scores.2 = length (data_x data).
Proof.
  intros Him Hlg Hlm Hlr Hcy Hcz Hcd Hg Hm Hr scores.
  rewrite (pliv_nuisance_prefix self data smpls n_jobs w lg lm lr g_hat m_hat r_hat
             w1 w2 w3) by done.
  destruct (check_X_y_ok _ _ _ Hcy) as [_ Hy].
  destruct (check_X_y_ok _ _ _ Hcz) as [_ Hz].
  destruct (check_X_y_ok _ _ _ Hcd) as [_ Hd].
  destruct (_dml_cross_val_predict_inv _ _ _ _ _ _ _ _ Hg) as (Hlg' & _).
  destruct (_dml_cross_val_predict_inv _ _ _ _ _ _ _ _ Hm) as (Hlm' & _).
  destruct (_dml_cross_val_predict_inv _ _ _ _ _ _ _ _ Hr) as (Hlr' & _).
  rewrite Him. cbn zeta.
  run_lift by reflexivity.
  change (String.eqb "DML2018" "DML2018") with true. cbn iota.
  unfold np_multiply.
  run_lift by (apply np_broadcast_same_length; rewrite !length_zip_with; lia).
  run_lift by (apply np_broadcast_same_length; rewrite !length_zip_with; lia).
  split; [reflexivity|].
  subst scores. unfold spec_pliv_scores. cbn [fst snd].
  rewrite length_map, !length_zip_with. lia.
Qed.

(** C9.  With a callable [inf_model], once the three out-of-fold
    predictions are computed, the method calls it once, with
    [(y, z, d, g_hat, m_hat, r_hat, smpls)], and returns the pair it
    returns, as it is: the trace grows by that one call, and the
    cross-validated predictions before it contain no call of it. *)
Theorem pliv_callable_scores (self : DoubleMLPLIV) (data : DoubleMLData)
    smpls n_jobs w lg lm lr g_hat m_hat r_hat w1 w2 w3 f :
  pliv_inf_model self = PyCallable f ->
  pliv_ml_learners self !! "ml_g" = Some lg ->
  pliv_ml_learners self !! "ml_m" = Some lm ->
  pliv_ml_learners self !! "ml_r" = Some lr ->
  check_X_y (data_x data) (data_y data) = Ok (data_x data, data_y data) ->
  check_X_y (data_x data) (data_z data) = Ok (data_x data, data_z data) ->
  check_X_y (data_x data) (data_d data) = Ok (data_x data, data_d data) ->
  _dml_cross_val_predict lg (data_x data) (data_y data) smpls n_jobs w = (Ok g_hat, w1) ->
  _dml_cross_val_predict lm (data_x data) (data_z data) smpls n_jobs w1 = (Ok m_hat, w2) ->
  _dml_cross_val_predict lr (data_x data) (data_d data) smpls n_jobs w2 = (Ok r_hat, w3) ->
  let call := EvInfModel (data_y data) (data_z data) (data_d data)
                g_hat m_hat r_hat smpls in
  let w' := {| heap := heap w3; trace := trace w3 ++ [call] |} in
  _ml_nuisance_and_score_elements self data smpls n_jobs w =
    (Ok (f (data_y data) (data_z data) (data_d data) g_hat m_hat r_hat smpls), w') /\
  calls is_inf_model_call (trace w') = calls is_inf_model_call (trace w) + 1 /\
  length g_hat = length (data_x data) /\
  length m_hat = length (data_x data) /\
  length r_hat = length (data_x data).
Proof.
  intros Him Hlg Hlm Hlr Hcy Hcz Hcd Hg Hm Hr call w'.
  rewrite (pliv_nuisance_prefix self data smpls n_jobs w lg lm lr g_hat m_hat r_hat
             w1 w2 w3) by done.
  destruct (_dml_cross_val_predict_inv _ _ _ _ _ _ _ _ Hg)
    as (Hlg' & _ & evs1 & Ht1 & _ & _ & Hc1).
  destruct (_dml_cross_val_predict_inv _ _ _ _ _ _ _ _ Hm)
    as (Hlm' & _ & evs2 & Ht2 & _ & _ & Hc2).
  destruct (_dml_cross_val_predict_inv _ _ _ _ _ _ _ _ Hr)
    as (Hlr' & _ & evs3 & Ht3 & _ & _ & Hc3).
  rewrite Him. cbn zeta.
  split; [reflexivity|]. split; [|done].
  subst w'. cbn [trace]. rewrite Ht3, Ht2, Ht1, !calls_app, Hc1, Hc2, Hc3.
  unfold calls. cbn. lia.
Qed.

(** C6 (the code at the failing inputs).  For a string other than
    ['DML2018'], [_check_inf_method] sets out to raise the [ValueError] of
    the claim, but puts its message together from a string and the list
    [valid_inf_model]: the concatenation raises [TypeError], and the
    [ValueError] is never built.  The branch beside it, for an object that
    is neither a string nor callable, does raise the [ValueError] with its
    message. *)
Theorem check_inf_method_unknown_string_raises_TypeError (s : string) :
  s <> "DML2018" ->
  _check_inf_method (F := F) (PyStr s)
    = Raise (TypeError "can only concatenate str (not 'list') to str") /\
  (forall r, _check_inf_method (F := F) (PyObject r)
    = Raise (ValueError ("inf_model should be either a string or a callable. "
                         +:+ r +:+ " was passed"))).
Proof.
  intros Hs. split.
  - unfold _check_inf_method.
    by rewrite bool_decide_eq_false_2 by (by rewrite list_elem_of_singleton).
  - intros r. reflexivity.
Qed.

(** The out-of-fold property of [_dml_cross_val_predict], which fits a
    private copy of the model per fold: when the target is overwritten at
    a row [i] that no fold has among both its train and its test indices,
    the entry [i] of the output is the same. *)
Lemma cross_val_predict_ignores_own_target (l : loc) (X : list (list F)) (t : list F)
    (i : nat) (v : F) smpls n_jobs out1 out2 w w1 w2 :
  (forall fd, fd ∈ smpls -> fd.1 ## fd.2) ->
  _dml_cross_val_predict l X t smpls n_jobs w = (Ok out1, w1) ->
  _dml_cross_val_predict l X (<[i := v]> t) smpls n_jobs w = (Ok out2, w2) ->
  out1 !! i = out2 !! i.
Proof.
  intros Hsmpls. unfold _dml_cross_val_predict.
  destruct (heap w !! l) as [o|] eqn:Hl; [|discriminate].
  intros H1 H2.
  by eapply (cross_val_loop_agree l o X t i v smpls Hsmpls); [| |exact H1|exact H2].
Qed.
End PLIVTheorems.

(** ** Further properties of the code *)

Section More.
Context {F : Type} `{Scalar F}.

(** X2.  [_check_inf_method] accepts the string ['DML2018'] and the
    callables, and nothing else; what it accepts it returns unchanged. *)
Theorem check_inf_method_accepts (im r : PyInfModel (F := F)) :
  _check_inf_method im = Ok r <->
  r = im /\ (im = PyStr "DML2018" \/ exists f, im = PyCallable f).
Proof.
  split.
  - destruct im as [s|f|reprs|repr]; cbn.
    + case_bool_decide as Hs; [|discriminate].
      apply list_elem_of_singleton in Hs as ->. intros [= <-]. by split; [|left].
    + intros [= <-]. split; [done|]. right. by exists f.
    + destruct reprs as [|r1 [|r2 reprs]]; discriminate.
    + discriminate.
  - intros [-> [->|[f ->]]]; reflexivity.
Qed.

(** X3.  [DoubleMLPLR.fit] looks up its learners first: without the key
    ['ml_m'] it raises [KeyError('ml_m')] before the data are validated and
    before anything is fitted. *)
Theorem plr_fit_missing_learner (self : DoubleMLPLR) (X : list (list F)) (y d : list F) w :
  ml_learners self !! "ml_m" = None ->
  DoubleMLPLR_fit self X y d w = (Raise (KeyError "ml_m"), w).
Proof. intros Hm. unfold DoubleMLPLR_fit, getitem. by rewrite Hm. Qed.

(** X4.  Data that [check_X_y] rejects make [DoubleMLPLR.fit] raise that
    [ValueError] at once: nothing is fitted. *)
Theorem plr_fit_rejects_invalid_data (self : DoubleMLPLR) (X : list (list F))
    (y d : list F) w lg lm e :
  ml_learners self !! "ml_g" = Some lg ->
  ml_learners self !! "ml_m" = Some lm ->
  check_X_y X y = Raise e ->
  DoubleMLPLR_fit self X y d w = (Raise e, w).
Proof.
  intros Hlg Hlm Hc. unfold DoubleMLPLR_fit, getitem. rewrite Hlm, Hlg.
  do 2 (run_lift by reflexivity).
  apply bind_raise. unfold lift. by rewrite Hc.
Qed.

(** X5.  [OrthDmlPlr.fit] with an [inf_model] that is neither ['IV-type'] nor
    ['DML2018'] raises [ValueError('invalid inf_model')], after the
    residuals were formed. *)
Theorem orth_invalid_inf_model (im : string) (y d g_hat m_hat u v : list F) (vd : F) :
  im <> "IV-type" ->
  im <> "DML2018" ->
  np_subtract y g_hat = Ok u ->
  np_subtract d m_hat = Ok v ->
  np_dot v d = Ok vd ->
  OrthDmlPlr_fit im y d g_hat m_hat = Raise (ValueError "invalid inf_model").
Proof.
  intros Hiv Hdml Hu Hv Hvd. unfold OrthDmlPlr_fit.
  rewrite Hu, Hv. cbn. rewrite Hvd. cbn.
  apply String.eqb_neq in Hiv, Hdml. by rewrite Hiv, Hdml.
Qed.
End More.

(** ** [DoubleMLPLR.fit]: folds, bounds and late validation *)

Section PLRMore.
Context {F : Type} `{Scalar F}.

#[local] Hint Resolve same_class_refl same_class_fitted : learners.

(** An index beyond the end makes [a[idx]] raise. *)
Lemma np_take_out_of_bounds {A} (a : list A) (idx : list nat) :
  Exists (fun i => length a <= i) idx ->
  np_take a idx = Raise (IndexError "index is out of bounds").
Proof.
  unfold np_take. induction idx as [|i idx IH]; intros Hex.
  - by apply Exists_nil in Hex.
  - cbn. destruct (a !! i) as [x|] eqn:Hi; [|reflexivity].
    apply Exists_cons in Hex as [Hle|Hex].
    + apply lookup_lt_Some in Hi. lia.
    + cbn. by rewrite IH.
Qed.

Lemma orth_invalid_inf_model_any (im : string) (y d g_hat m_hat : list F) :
  im <> "IV-type" -> im <> "DML2018" ->
  length y = length g_hat -> length d = length m_hat -> length d = length y ->
  OrthDmlPlr_fit im y d g_hat m_hat = Raise (ValueError "invalid inf_model").
Proof.
  intros Hiv%String.eqb_neq Hdml%String.eqb_neq Hy Hd Hdy.
  unfold OrthDmlPlr_fit, np_subtract.
  rewrite !np_broadcast_same_length by done. cbn.
  rewrite (np_dot_same_length (zip_with f_sub d m_hat) d)
    by (rewrite length_zip_with; lia).
  cbn. by rewrite Hiv, Hdml.
Qed.

(** The loop body of [DoubleMLPLR.fit] up to the call of [OrthDmlPlr.fit],
    for any learners that predict one value per row: both objects are
    refitted and asked, and the residuals are handed on. *)
Lemma dml1_fold_prefix (im : string) lg lm (og om : Learner F) X y d fd w :
  learners_inv lg lm og om w ->
  predicts_rows og -> predicts_rows om ->
  length y = length X -> length d = length X ->
  in_range (length X) fd ->
  exists o1 o2,
    heap w !! lg = Some o1 /\
    <[lg := fitted o1 (rows X fd.1) (rows y fd.1)]> (heap w) !! lm = Some o2 /\
    let g_hat := predict (fitted o1 (rows X fd.1) (rows y fd.1)) (rows X fd.2) in
    let m_hat := predict (fitted o2 (rows X fd.1) (rows d fd.1)) (rows X fd.2) in
    length g_hat = length fd.2 /\
    length m_hat = length fd.2 /\
    dml1_fold im lg lm X y d fd w =
      (OrthDmlPlr_fit im (rows y fd.2) (rows d fd.2) g_hat m_hat,
       {| heap := <[lm := fitted o2 (rows X fd.1) (rows d fd.1)]>
                    (<[lg := fitted o1 (rows X fd.1) (rows y fd.1)]> (heap w));
          trace := trace w ++ fold_events lg lm X y d fd |}).
Proof.
  intros Hinv Hpg Hpm Hy Hd [Htr Hte]. destruct fd as [train test].
  cbn [fst snd] in *.
  pose proof Hinv as ((o1 & Hg & Hc1) & _).
  pose proof (learners_inv_insert_g _ _ _ _ _ _ (rows X train) (rows y train) Hinv Hg)
    as (_ & (o2 & Hm & Hc2) & _).
  cbn [heap] in Hm.
  assert (Hyte : Forall (fun i => i < length y) test) by (by rewrite Hy).
  assert (Hdte : Forall (fun i => i < length d) test) by (by rewrite Hd).
  assert (Hlg : length (predict (fitted o1 (rows X train) (rows y train)) (rows X test))
                = length test).
  { rewrite (length_predict og) by eauto with learners. by apply length_rows. }
  assert (Hlm : length (predict (fitted o2 (rows X train) (rows d train)) (rows X test))
                = length test).
  { rewrite (length_predict om) by eauto with learners. by apply length_rows. }
  exists o1, o2. split; [done|]. split; [done|]. cbn zeta.
  split; [done|]. split; [done|].
  unfold dml1_fold.
  run_call by (by apply fit_predict_run).
  run_lift by (by apply np_take_rows).
  run_lift by (apply np_broadcast_same_length; rewrite Hlg; by apply length_rows).
  run_call by (by apply fit_predict_run).
  run_lift by (by apply np_take_rows).
  run_lift by (apply np_broadcast_same_length; rewrite Hlm; by apply length_rows).
  run_lift by (apply np_dot_same_length;
        rewrite length_zip_with, Hlm, length_rows by done; lia).
  unfold lift, fold_events. cbn. by rewrite <- app_assoc.
Qed.

(** With the "IV-type" score every fold gives an estimate, whatever the
    learners leave in their attributes. *)
Lemma dml1_fold_iv_ok lg lm (og om : Learner F) X y d fd w :
  learners_inv lg lm og om w ->
  predicts_rows og -> predicts_rows om ->
  length y = length X -> length d = length X ->
  in_range (length X) fd ->
  exists theta w',
    dml1_fold "IV-type" lg lm X y d fd w = (Ok theta, w') /\
    learners_inv lg lm og om w' /\
    trace w' = trace w ++ fold_events lg lm X y d fd.
Proof.
  intros Hinv Hpg Hpm Hy Hd Hfd.
  destruct (dml1_fold_prefix "IV-type" _ _ _ _ _ _ _ _ _ Hinv Hpg Hpm Hy Hd Hfd)
    as (o1 & o2 & Hg & Hm & Hlg & Hlm & Hrun).
  cbn zeta in *. destruct Hfd as [Htr Hte].
  rewrite OrthDmlPlr_fit_iv in Hrun
    by (rewrite ?Hlg, ?Hlm, !length_rows by (done || by rewrite ?Hy, ?Hd); done).
  eexists _, _. split; [exact Hrun|]. split; [|done].
  pose proof (learners_inv_insert_g _ _ _ _ _ _ (rows X fd.1) (rows y fd.1) Hinv Hg)
    as Hinv1.
  destruct Hinv1 as ((o1' & Hg1 & Hc1) & (o2' & Hm1 & Hc2) & Hal).
  cbn [heap] in *. rewrite Hm in Hm1. injection Hm1 as <-.
  split; [|split]; cbn [heap]; [| |done].
  - destruct (decide (lg = lm)) as [Heq|Hne].
    + rewrite <- Heq, lookup_insert_eq. rewrite (Hal Heq). eauto with learners.
    + rewrite lookup_insert_ne by done. eauto.
  - rewrite lookup_insert_eq. eauto with learners.
Qed.

(** The folds run one after the other. *)
Lemma loop_runs_iv lg lm (og om : Learner F) X y d folds : forall w,
  learners_inv lg lm og om w ->
  predicts_rows og -> predicts_rows om ->
  length y = length X -> length d = length X ->
  Forall (in_range (length X)) folds ->
  exists ests w',
    loop_runs (dml1_fold "IV-type" lg lm X y d) folds w ests w' /\
    learners_inv lg lm og om w' /\
    trace w' = trace w ++ concat (map (fold_events lg lm X y d) folds).
Proof.
  induction folds as [|fd folds IH]; intros w Hinv Hpg Hpm Hy Hd Hfolds.
  - exists [], w. split; [constructor|]. split; [done|]. cbn. by rewrite app_nil_r.
  - apply Forall_cons in Hfolds as [Hfd Hfolds].
    destruct (dml1_fold_iv_ok _ _ _ _ _ _ _ _ _ Hinv Hpg Hpm Hy Hd Hfd)
      as (theta & w1 & Hb & Hinv1 & Htr1).
    destruct (IH w1 Hinv1 Hpg Hpm Hy Hd Hfolds) as (ests & w2 & Hr & Hinv2 & Htr2).
    exists (theta :: ests), w2. split; [by econstructor|]. split; [done|].
    cbn [map concat]. by rewrite Htr2, Htr1, app_assoc.
Qed.

(** A loop that returns had a slot of [thetas] for every fold. *)
Lemma dml1_loop_ok_bound (body : list nat * list nat -> M F F) folds :
  forall idx thetas w out w',
  folds <> [] ->
  dml1_loop body idx folds thetas w = (Ok out, w') ->
  idx + length folds <= length thetas.
Proof.
  induction folds as [|fd folds IH]; intros idx thetas w out w' Hne Hl; [done|].
  cbn in Hl.
  apply bind_inv_ok in Hl as (theta & w1 & Hb & Hl).
  apply bind_lift_inv_ok in Hl as (thetas' & Hs & Hl).
  pose proof (np_setitem_length _ _ _ _ Hs) as Hlen.
  unfold np_setitem in Hs. case_decide; [|discriminate].
  destruct folds as [|fd' folds]; [cbn; lia|].
  apply IH in Hl; [|done]. cbn in *. lia.
Qed.

(** When the folds outnumber the slots, the loop raises at the first fold
    without a slot, after the body has run on it. *)
Lemma dml1_loop_overflow (body : list nat * list nat -> M F F) pre w ests w1 :
  loop_runs body pre w ests w1 ->
  forall fd rest theta w2 idx thetas,
  body fd w1 = (Ok theta, w2) ->
  idx + length pre = length thetas ->
  dml1_loop body idx (pre ++ fd :: rest) thetas w =
    (Raise (IndexError "index is out of bounds"), w2).
Proof.
  induction 1 as [w|fd0 folds w theta0 w1 ests w2 Hb _ IH];
    intros fd rest theta w3 idx thetas Hfd Hlen; cbn in *.
  - run_call by exact Hfd.
    apply bind_raise. unfold lift, np_setitem. by rewrite decide_False by lia.
  - run_call by exact Hb.
    run_lift by (unfold np_setitem; rewrite decide_True by lia; reflexivity).
    eapply IH; [exact Hfd|]. rewrite length_insert. lia.
Qed.

(** X6.  [thetas] has [get_n_splits()] slots and the loop fills one per
    fold that [split(X)] yields: whenever [fit] returns, the folds are at
    most as many as the slots, and [coef_] is the mean of the fold
    estimates together with one zero for each slot that no fold filled. *)
Theorem plr_fit_pads_missing_folds (self : DoubleMLPLR) X y d w theta w' lg lm :
  ml_learners self !! "ml_g" = Some lg ->
  ml_learners self !! "ml_m" = Some lm ->
  DoubleMLPLR_fit self X y d w = (Ok theta, w') ->
  length (split (resampling self) X) <= get_n_splits (resampling self) /\
  exists thetas,
    loop_runs (dml1_fold (inf_model self) lg lm X y d)
      (split (resampling self) X) w thetas w' /\
    theta = np_mean (thetas ++ np_zeros (get_n_splits (resampling self)
                                         - length (split (resampling self) X))).
Proof.
  intros Hlg Hlm Hfit.
  destruct (DoubleMLPLR_fit_inv _ _ _ _ _ _ _ _ _ Hlg Hlm Hfit) as (thetas & Hloop & ->).
  split.
  { destruct (decide (split (resampling self) X = [])) as [->|Hne]; [cbn; lia|].
    pose proof (dml1_loop_ok_bound _ _ _ _ _ _ _ Hne Hloop) as Hb.
    unfold np_zeros in Hb. by rewrite length_replicate in Hb. }
  apply dml1_loop_inv in Hloop as (ests & Hruns & Hlen & ->).
  exists ests. split; [done|].
  unfold np_zeros. by rewrite take_0, drop_replicate, Nat.add_0_l.
Qed.

(** X7.  When [split(X)] yields more folds than [get_n_splits()] says,
    [fit] raises [IndexError] at the first fold without a slot in
    [thetas], after both learners have been fitted and asked on that fold
    too. *)
Theorem plr_fit_too_many_folds (self : DoubleMLPLR) X y d w lg lm og om :
  dml_procedure self = "dml1" ->
  inf_model self = "IV-type" ->
  ml_learners self !! "ml_g" = Some lg ->
  ml_learners self !! "ml_m" = Some lm ->
  heap w !! lg = Some og ->
  heap w !! lm = Some om ->
  predicts_rows og -> predicts_rows om ->
  check_X_y X y = Ok (X, y) ->
  check_X_y X d = Ok (X, d) ->
  Forall (in_range (length X)) (split (resampling self) X) ->
  get_n_splits (resampling self) < length (split (resampling self) X) ->
  (DoubleMLPLR_fit self X y d w).1 = Raise (IndexError "index is out of bounds") /\
  trace (DoubleMLPLR_fit self X y d w).2 =
    trace w ++ concat (map (fold_events lg lm X y d)
                         (take (S (get_n_splits (resampling self)))
                            (split (resampling self) X))).
Proof.
  intros Hproc Hinf Hlg Hlm Hg Hm Hpg Hpm Hcy Hcd Hfolds Hn.
  pose proof (learners_inv_init _ _ _ _ _ Hg Hm) as Hinv.
  destruct (check_X_y_ok _ _ _ Hcy) as [_ Hy].
  destruct (check_X_y_ok _ _ _ Hcd) as [_ Hd].
  set (K := get_n_splits (resampling self)) in *.
  set (folds := split (resampling self) X) in *.
  destruct (lookup_lt_is_Some_2 folds K Hn) as [fd Hfd].
  pose proof (take_drop_middle folds K fd Hfd) as Hsplit.
  assert (Hpre : Forall (in_range (length X)) (take K folds)) by (by apply Forall_take).
  assert (Hfdr : in_range (length X) fd).
  { rewrite Forall_forall in Hfolds. apply Hfolds.
    by apply (list_elem_of_lookup_2 _ K). }
  destruct (loop_runs_iv lg lm og om X y d (take K folds) w Hinv Hpg Hpm
              (eq_sym Hy) (eq_sym Hd) Hpre) as (ests & w1 & Hruns & Hinv1 & Htr1).
  destruct (dml1_fold_iv_ok lg lm og om X y d fd w1 Hinv1 Hpg Hpm
              (eq_sym Hy) (eq_sym Hd) Hfdr) as (theta & w2 & Hb & _ & Htr2).
  assert (Hrun : DoubleMLPLR_fit self X y d w =
                 (Raise (IndexError "index is out of bounds"), w2)).
  { unfold DoubleMLPLR_fit, getitem. rewrite Hlm, Hlg.
    do 2 (run_lift by reflexivity).
    run_lift by exact Hcy. cbn [fst snd].
    run_lift by exact Hcd. cbn [fst snd].
    rewrite Hproc, Hinf. cbn [String.eqb Ascii.eqb Bool.eqb].
    apply bind_raise. fold folds. rewrite <- Hsplit.
    eapply dml1_loop_overflow; [exact Hruns|exact Hb|].
    unfold np_zeros. rewrite length_replicate, length_take. fold K. lia. }
  rewrite Hrun. cbn [fst snd]. split; [done|].
  rewrite Htr2, Htr1, <- app_assoc. f_equal.
  rewrite (take_S_r _ _ fd Hfd), map_app, concat_app. cbn [map concat].
  by rewrite app_nil_r.
Qed.

(** X8.  [DoubleMLPLR.fit] hands [inf_model] to [OrthDmlPlr] unchecked.  A
    value that is neither ['IV-type'] nor ['DML2018'] is found out in the
    first fold only: [ValueError('invalid inf_model')] is raised after both
    learners have been fitted on the train rows of that fold and asked for
    its test rows. *)
Theorem plr_fit_invalid_inf_model_late (self : DoubleMLPLR) X y d w lg lm og om fd rest :
  dml_procedure self = "dml1" ->
  inf_model self <> "IV-type" ->
  inf_model self <> "DML2018" ->
  ml_learners self !! "ml_g" = Some lg ->
  ml_learners self !! "ml_m" = Some lm ->
  heap w !! lg = Some og ->
  heap w !! lm = Some om ->
  predicts_rows og -> predicts_rows om ->
  check_X_y X y = Ok (X, y) ->
  check_X_y X d = Ok (X, d) ->
  split (resampling self) X = fd :: rest ->
  in_range (length X) fd ->
  (DoubleMLPLR_fit self X y d w).1 = Raise (ValueError "invalid inf_model") /\
  trace (DoubleMLPLR_fit self X y d w).2 = trace w ++ fold_events lg lm X y d fd.
Proof.
  intros Hproc Hiv Hdml Hlg Hlm Hg Hm Hpg Hpm Hcy Hcd Hsplit Hfd.
  pose proof (learners_inv_init _ _ _ _ _ Hg Hm) as Hinv.
  destruct (check_X_y_ok _ _ _ Hcy) as [_ Hy].
  destruct (check_X_y_ok _ _ _ Hcd) as [_ Hd].
  destruct (dml1_fold_prefix (inf_model self) _ _ _ _ _ _ _ _ _ Hinv Hpg Hpm
              (eq_sym Hy) (eq_sym Hd) Hfd)
    as (o1 & o2 & _ & _ & Hlg' & Hlm' & Hrun).
  cbn zeta in *. destruct Hfd as [Htr Hte].
  assert (Hlen_y : length (rows y fd.2) = length fd.2)
    by (apply length_rows; by rewrite <- Hy).
  assert (Hlen_d : length (rows d fd.2) = length fd.2)
    by (apply length_rows; by rewrite <- Hd).
  rewrite (orth_invalid_inf_model_any (inf_model self)) in Hrun
    by (done || lia).
  assert (Hfit : DoubleMLPLR_fit self X y d w =
    (Raise (ValueError "invalid inf_model"),
     {| heap := <[lm := fitted o2 (rows X fd.1) (rows d fd.1)]>
                  (<[lg := fitted o1 (rows X fd.1) (rows y fd.1)]> (heap w));
        trace := trace w ++ fold_events lg lm X y d fd |})).
  { unfold DoubleMLPLR_fit, getitem. rewrite Hlm, Hlg.
    do 2 (run_lift by reflexivity).
    run_lift by exact Hcy. cbn [fst snd].
    run_lift by exact Hcd. cbn [fst snd].
    rewrite Hproc. cbn [String.eqb Ascii.eqb Bool.eqb].
    apply bind_raise. rewrite Hsplit. cbn [dml1_loop].
    by apply bind_raise. }
  by rewrite Hfit.
Qed.

(** X9.  An index beyond the data in the [test_index] of the first fold
    raises [IndexError] when the test rows are read, which is after the
    learner under ['ml_g'] has been refitted on the train rows: the object
    is left changed, although no estimate was produced. *)
Theorem plr_fit_test_index_out_of_bounds (self : DoubleMLPLR) X y d w lg lm og
    train test rest :
  dml_procedure self = "dml1" ->
  ml_learners self !! "ml_g" = Some lg ->
  ml_learners self !! "ml_m" = Some lm ->
  heap w !! lg = Some og ->
  check_X_y X y = Ok (X, y) ->
  check_X_y X d = Ok (X, d) ->
  split (resampling self) X = (train, test) :: rest ->
  Forall (fun i => i < length X) train ->
  Exists (fun i => length X <= i) test ->
  DoubleMLPLR_fit self X y d w =
    (Raise (IndexError "index is out of bounds"),
     {| heap := <[lg := fitted og (rows X train) (rows y train)]> (heap w);
        trace := trace w ++ [EvFit (Shared lg) (rows X train) (rows y train)] |}).
Proof.
  intros Hproc Hlg Hlm Hg Hcy Hcd Hsplit Htr Hte.
  destruct (check_X_y_ok _ _ _ Hcy) as [_ Hy].
  unfold DoubleMLPLR_fit, getitem. rewrite Hlm, Hlg.
  do 2 (run_lift by reflexivity).
  run_lift by exact Hcy. cbn [fst snd].
  run_lift by exact Hcd. cbn [fst snd].
  rewrite Hproc. cbn [String.eqb Ascii.eqb Bool.eqb].
  apply bind_raise. rewrite Hsplit. cbn [dml1_loop].
  apply bind_raise. unfold dml1_fold. apply bind_raise.
  unfold fit_predict.
  run_lift by (by apply np_take_rows).
  run_lift by (apply np_take_rows; by rewrite <- Hy).
  erewrite bind_ok by (unfold learner_fit; rewrite Hg; reflexivity).
  apply bind_raise. unfold lift. by rewrite np_take_out_of_bounds.
Qed.
End PLRMore.

(** ** [OrthDmlPlr.fit] on predictions of length one, and [fit] twice *)

Section OrthMore.
Context {F : Type} `{Scalar F}.

Lemma zip_with_replicate_r_map {A B C} (f : A -> B -> C) (l : list A) (b : B) :
  zip_with f l (replicate (length l) b) = map (fun a => f a b) l.
Proof. induction l as [|a l IH]; cbn; [done|]. by rewrite IH. Qed.

(** numpy stretches an array of length one to the length of the other
    operand. *)
Lemma np_broadcast_single_r (op : F -> F -> F) (a : list F) (b : F) :
  np_broadcast op a [b] = np_broadcast op a (replicate (length a) b).
Proof.
  unfold np_broadcast. rewrite length_replicate.
  rewrite (decide_True (P := length a = length a)) by done.
  rewrite zip_with_replicate_r_map.
  destruct a as [|x [|x' a]]; cbn; try done.
Qed.

(** X10.  [OrthDmlPlr.fit] does not ask that the predictions have the
    length of [y]: a [g_hat] or [m_hat] with a single entry is stretched by
    numpy's broadcasting, and the call behaves as if that entry had been
    predicted for every row. *)
Theorem orth_broadcasts_single_prediction (im : string) (y d : list F) (g m : F) :
  OrthDmlPlr_fit im y d [g] [m] =
  OrthDmlPlr_fit im y d (replicate (length y) g) (replicate (length d) m).
Proof.
  unfold OrthDmlPlr_fit, np_subtract. by rewrite !np_broadcast_single_r.
Qed.

Lemma learners_inv_after_folds lg lm (og om : Learner F) X y d folds : forall w tr,
  learners_inv lg lm og om w ->
  learners_inv lg lm og om
    {| heap := foldl (fun h fd => heap_after_fold lg lm og om X y d fd h) (heap w) folds;
       trace := tr |}.
Proof.
  induction folds as [|fd folds IH]; intros w tr Hinv; cbn [foldl].
  - destruct Hinv as (Hg & Hm & Hal). by split.
  - apply (IH {| heap := heap_after_fold lg lm og om X y d fd (heap w);
                 trace := trace w |}).
    by apply learners_inv_after_fold.
Qed.

(** For learners that start each [fit] afresh, running over the folds a
    second time leaves the heap the first run left. *)
Lemma heap_after_folds_twice lg lm (og om : Learner F) X y d folds h :
  let run := foldl (fun h fd => heap_after_fold lg lm og om X y d fd h) in
  run (run h folds) folds = run h folds.
Proof.
  cbn zeta. destruct folds as [|fd0 folds0] using rev_ind; [done|].
  rewrite !foldl_snoc.
  rewrite (heap_after_folds_last lg lm og om X y d folds0 fd0
             (heap_after_fold lg lm og om X y d fd0 _)).
  rewrite (heap_after_folds_last lg lm og om X y d folds0 fd0 h).
  unfold heap_after_fold at 2. apply heap_after_fold_absorb.
Qed.

(** [DoubleMLPLR.fit] on learners that start each [fit] afresh: the value
    and the world it leaves. *)
Lemma DoubleMLPLR_fit_run (self : DoubleMLPLR) X y d w lg lm (og om : Learner F) :
  dml_procedure self = "dml1" ->
  inf_model self = "IV-type" ->
  ml_learners self !! "ml_g" = Some lg ->
  ml_learners self !! "ml_m" = Some lm ->
  learners_inv lg lm og om w ->
  oblivious og -> oblivious om ->
  predicts_rows og -> predicts_rows om ->
  check_X_y X y = Ok (X, y) ->
  check_X_y X d = Ok (X, d) ->
  get_n_splits (resampling self) = length (split (resampling self) X) ->
  Forall (in_range (length X)) (split (resampling self) X) ->
  DoubleMLPLR_fit self X y d w =
    (Ok (spec_dml1_theta og om X y d (split (resampling self) X)),
     {| heap := foldl (fun h fd => heap_after_fold lg lm og om X y d fd h) (heap w)
                  (split (resampling self) X);
        trace := trace w ++ concat (map (fold_events lg lm X y d)
                                      (split (resampling self) X)) |}).
Proof.
  intros Hproc Hinf Hlg Hlm Hinv Hog Hom Hpg Hpm Hcy Hcd Hn Hfolds.
  destruct (check_X_y_ok _ _ _ Hcy) as [_ Hy].
  destruct (check_X_y_ok _ _ _ Hcd) as [_ Hd].
  unfold DoubleMLPLR_fit, getitem. rewrite Hlm, Hlg.
  do 2 (run_lift by reflexivity).
  run_lift by exact Hcy. cbn [fst snd].
  run_lift by exact Hcd. cbn [fst snd].
  rewrite Hproc, Hinf, Hn. cbn [String.eqb Ascii.eqb Bool.eqb].
  run_call by (apply dml1_loop_all, (loop_runs_spec lg lm og om X y d); try done;
        intros; by apply dml1_fold_run).
  reflexivity.
Qed.

(** X11.  For learners whose fitted model is a function of the training
    data, [fit] can be repeated: a second call on the same data, with the
    learners as the first call left them, returns the same [coef_] and
    leaves the learners as it found them. *)
Theorem plr_fit_twice (self : DoubleMLPLR) X y d w lg lm (og om : Learner F) :
  dml_procedure self = "dml1" ->
  inf_model self = "IV-type" ->
  ml_learners self !! "ml_g" = Some lg ->
  ml_learners self !! "ml_m" = Some lm ->
  heap w !! lg = Some og ->
  heap w !! lm = Some om ->
  oblivious og -> oblivious om ->
  predicts_rows og -> predicts_rows om ->
  check_X_y X y = Ok (X, y) ->
  check_X_y X d = Ok (X, d) ->
  get_n_splits (resampling self) = length (split (resampling self) X) ->
  Forall (in_range (length X)) (split (resampling self) X) ->
  let first := DoubleMLPLR_fit self X y d w in
  let second := DoubleMLPLR_fit self X y d first.2 in
  is_ok first.1 = true /\
  second.1 = first.1 /\
  heap second.2 = heap first.2.
Proof.
  intros Hproc Hinf Hlg Hlm Hg Hm Hog Hom Hpg Hpm Hcy Hcd Hn Hfolds. cbn zeta.
  pose proof (learners_inv_init _ _ _ _ _ Hg Hm) as Hinv.
  rewrite (DoubleMLPLR_fit_run self X y d w lg lm og om) by done.
  cbn [fst snd].
  rewrite (DoubleMLPLR_fit_run self X y d _ lg lm og om)
    by (done || by apply learners_inv_after_folds).
  cbn [fst snd heap]. split; [done|]. split; [done|].
  apply (heap_after_folds_twice lg lm og om X y d).
Qed.
End OrthMore.

(** ** The "IV-type" estimate in exact arithmetic: shifting the outcome *)

Section ExactShift.
#[local] Existing Instance rational.

Lemma np_sum_rational_acc (l : list Qc) (a : Qc) :
  foldl f_add a l = (a + np_sum l)%Qc.
Proof.
  unfold np_sum. revert a. induction l as [|x l IH]; intros a; cbn [foldl].
  - cbn. ring.
  - rewrite (IH (f_add a x)), (IH (f_add f_zero x)). cbn. ring.
Qed.

Lemma np_sum_rational_cons (x : Qc) (l : list Qc) :
  np_sum (x :: l) = (x + np_sum l)%Qc.
Proof.
  unfold np_sum at 1. cbn [foldl]. rewrite np_sum_rational_acc. cbn. ring.
Qed.

(** The numerator for the outcome [y + c*d] is the numerator for [y] plus
    [c] times the denominator. *)
Lemma iv_numerator_shift (c : Qc) : forall (y d g_hat m_hat : list Qc),
  length y = length g_hat -> length d = length m_hat -> length d = length y ->
  np_sum (zip_with f_mul (zip_with f_sub d m_hat)
            (zip_with f_sub (zip_with (fun yi di => yi + c * di)%Qc y d) g_hat)) =
  (np_sum (zip_with f_mul (zip_with f_sub d m_hat) (zip_with f_sub y g_hat))
   + c * np_sum (zip_with f_mul (zip_with f_sub d m_hat) d))%Qc.
Proof.
  induction y as [|yi y IH]; intros d g_hat m_hat Hy Hd Hdy;
    destruct d as [|di d]; destruct g_hat as [|gi g_hat];
    destruct m_hat as [|mi m_hat]; try discriminate.
  - cbn. ring.
  - cbn [zip_with]. rewrite !np_sum_rational_cons.
    rewrite IH by (cbn in *; lia). cbn. ring.
Qed.

(** X12.  In exact (rational) arithmetic and with a denominator [v.d] that
    is not zero, the "IV-type" estimate of [OrthDmlPlr.fit] moves with the
    outcome: adding [c] times the treatment to [y] adds [c] to [coef_]. *)
Theorem orth_iv_type_shift_equivariant (c theta : Qc) (y d g_hat m_hat : list Qc) :
  length y = length g_hat -> length d = length m_hat -> length d = length y ->
  np_dot (zip_with f_sub d m_hat) d <> Ok 0%Qc ->
  OrthDmlPlr_fit "IV-type" y d g_hat m_hat = Ok theta ->
  OrthDmlPlr_fit "IV-type" (zip_with (fun yi di => yi + c * di)%Qc y d) d g_hat m_hat
  = Ok (theta + c)%Qc.
Proof.
  intros Hy Hd Hdy Hden Hfit.
  rewrite np_dot_same_length in Hden by (rewrite length_zip_with; lia).
  rewrite OrthDmlPlr_fit_iv in Hfit by done. injection Hfit as <-.
  rewrite OrthDmlPlr_fit_iv by (rewrite ?length_zip_with; lia).
  unfold spec_iv_theta. rewrite iv_numerator_shift by done.
  f_equal. cbn [f_div f_mul f_sub f_add rational] in *.
  generalize dependent (np_sum (zip_with Qcmult (zip_with Qcminus d m_hat) d)).
  generalize (np_sum (zip_with Qcmult (zip_with Qcminus d m_hat) (zip_with Qcminus y g_hat))).
  intros a b Hb. field. congruence.
Qed.
End ExactShift.

(** ** NaN at binary64: one fold spoils the mean *)

Lemma SFeqb_refl_not_nan (x : spec_float) :
  x <> S754_nan -> SFeqb x x = true.
Proof.
  intros Hx. unfold SFeqb, SFcompare.
  destruct x as [s|s| |s m e]; try done; try (by destruct s).
  change (IntDef.Z.compare e e) with (Z.compare e e).
  change (PosDef.Pos.compare_cont Eq m m) with (Pos.compare_cont Eq m m).
  rewrite Z.compare_refl, Pos.compare_cont_refl. by destruct s.
Qed.

Lemma is_nan_Prim2SF (x : float) :
  PrimFloat.is_nan x = true <-> Prim2SF x = S754_nan.
Proof.
  unfold PrimFloat.is_nan. rewrite FloatAxioms.eqb_spec. split.
  - intros Hn. destruct (Prim2SF x) as [s|s| |s m e] eqn:Hx; [| |done|];
      by rewrite SFeqb_refl_not_nan in Hn.
  - by intros ->.
Qed.

Lemma add_nan (x y : float) :
  PrimFloat.is_nan x = true \/ PrimFloat.is_nan y = true ->
  PrimFloat.is_nan (x + y) = true.
Proof.
  rewrite !is_nan_Prim2SF, FloatAxioms.add_spec. unfold SF64add, SFadd.
  intros [->| ->]; [done|]. by destruct (Prim2SF x).
Qed.

Lemma div_nan_l (x y : float) :
  PrimFloat.is_nan x = true -> PrimFloat.is_nan (x / y) = true.
Proof.
  rewrite !is_nan_Prim2SF, FloatAxioms.div_spec. unfold SF64div, SFdiv.
  by intros ->.
Qed.

Lemma foldl_add_nan (l : list float) : forall acc,
  PrimFloat.is_nan acc = true \/ Exists (fun e => PrimFloat.is_nan e = true) l ->
  PrimFloat.is_nan (foldl PrimFloat.add acc l) = true.
Proof.
  induction l as [|x l IH]; intros acc Hn; cbn [foldl].
  - destruct Hn as [Hn|Hn]; [done|]. by apply Exists_nil in Hn.
  - apply IH. destruct Hn as [Hn|Hn].
    + left. apply add_nan. by left.
    + apply Exists_cons in Hn as [Hn|Hn]; [|by right].
      left. apply add_nan. by right.
Qed.

(** The mean of an array that holds a NaN is a NaN. *)
Lemma np_mean_nan (l : list float) :
  Exists (fun e => PrimFloat.is_nan e = true) l ->
  PrimFloat.is_nan (np_mean l) = true.
Proof.
  intros Hn. unfold np_mean, np_sum. cbn [f_div f_add f_zero binary64].
  apply div_nan_l, foldl_add_nan. by right.
Qed.

Lemma loop_runs_functional {F} (body : list nat * list nat -> M F F) folds w
    ests1 w1 ests2 w2 :
  loop_runs body folds w ests1 w1 ->
  loop_runs body folds w ests2 w2 ->
  ests1 = ests2 /\ w1 = w2.
Proof.
  intros Hr1. revert ests2 w2.
  induction Hr1 as [w|fd folds w theta w1 ests w2 Hb _ IH]; intros ests2 w3 Hr2;
    inversion Hr2; subst; [done|].
  match goal with
  | Hb' : body fd w = _ |- _ => rewrite Hb in Hb'; injection Hb' as <- <-
  end.
  match goal with
  | Hr : loop_runs body folds w1 _ _ |- _ => destruct (IH _ _ Hr) as [-> ->]
  end.
  done.
Qed.

(** X13.  No fold is left out of the mean: when the estimate of one fold
    is a NaN (as with a treatment residual that is zero on its test rows,
    where the quotient is 0/0), [fit] returns normally and [coef_] is a
    NaN. *)
Theorem plr_coef_nan_if_fold_nan (self : DoubleMLPLR) (X : list (list float))
    (y d : list float) w theta w' lg lm ests w'' :
  ml_learners self !! "ml_g" = Some lg ->
  ml_learners self !! "ml_m" = Some lm ->
  DoubleMLPLR_fit self X y d w = (Ok theta, w') ->
  loop_runs (dml1_fold (inf_model self) lg lm X y d) (split (resampling self) X)
    w ests w'' ->
  Exists (fun e => PrimFloat.is_nan e = true) ests ->
  PrimFloat.is_nan theta = true.
Proof.
  intros Hlg Hlm Hfit Hruns Hnan.
  destruct (DoubleMLPLR_fit_inv _ _ _ _ _ _ _ _ _ Hlg Hlm Hfit) as (thetas & Hloop & ->).
  apply dml1_loop_inv in Hloop as (ests' & Hruns' & _ & ->).
  destruct (loop_runs_functional _ _ _ _ _ _ _ Hruns Hruns') as [<- _].
  apply np_mean_nan. rewrite !Exists_app. right. by left.
Qed.

(** X14.  A splitter that yields no fold: nothing is fitted, [fit] returns
    normally, and [coef_] is the mean of the [get_n_splits()] zeros that
    [thetas] was created with; with no slot either it is the mean of the
    empty array, a NaN. *)
Theorem plr_fit_no_folds (self : DoubleMLPLR) (X : list (list float))
    (y d : list float) w lg lm :
  dml_procedure self = "dml1" ->
  ml_learners self !! "ml_g" = Some lg ->
  ml_learners self !! "ml_m" = Some lm ->
  check_X_y X y = Ok (X, y) ->
  check_X_y X d = Ok (X, d) ->
  split (resampling self) X = [] ->
  DoubleMLPLR_fit self X y d w =
    (Ok (np_mean (np_zeros (get_n_splits (resampling self)))), w) /\
  (get_n_splits (resampling self) = 0 ->
   PrimFloat.is_nan (np_mean (np_zeros (get_n_splits (resampling self)))) = true).
Proof.
  intros Hproc Hlg Hlm Hcy Hcd Hsplit. split.
  - unfold DoubleMLPLR_fit, getitem. rewrite Hlm, Hlg.
    do 2 (run_lift by reflexivity).
    run_lift by exact Hcy. cbn [fst snd].
    run_lift by exact Hcd. cbn [fst snd].
    rewrite Hproc, Hsplit. cbn [String.eqb Ascii.eqb Bool.eqb dml1_loop].
    reflexivity.
  - intros ->. reflexivity.
Qed.

(** ** [DoubleMLPLIV]: what both methods do before anything is trained *)

Section OutcomeFacts.

Lemma obind_inv {A B} (m : outcome A) (k : A -> outcome B) b :
  (x ← m; k x) = Return b -> exists a, m = Return a /\ k a = Return b.
Proof. unfold mbind, outcome_bind. destruct m as [a|e]; [eauto|discriminate]. Qed.

Lemma of_result_inv {A} (r : result A) a :
  of_result r = Return a -> r = Ok a.
Proof. destruct r; [by intros [= ->]|discriminate]. Qed.

Lemma obind_of_result_inv {A B} (r : result A) (k : A -> outcome B) b :
  (x ← of_result r; k x) = Return b -> exists a, r = Ok a /\ k a = Return b.
Proof. intros (a & Hr%of_result_inv & Hk)%obind_inv. eauto. Qed.

Lemma outcome_mapM_Some {A B} (f : A -> B) (g : option A -> outcome B) (l : list A) :
  (forall a, g (Some a) = Return (f a)) ->
  outcome_mapM g (Some <$> l) = Return (f <$> l).
Proof.
  intros Hg. induction l as [|a l IH]; cbn; [done|].
  by rewrite Hg, IH.
Qed.
End OutcomeFacts.

Section PLIVMore.
Context {F : Type} `{Scalar F}.

Lemma first_missing_cons_present {V} (d : gmap string V) (k : string) (keys : list string) v :
  d !! k = Some v -> first_missing d (k :: keys) = first_missing d keys.
Proof.
  intros Hk. unfold first_missing. cbn.
  by rewrite bool_decide_eq_false_2 by (by rewrite Hk).
Qed.

Lemma first_missing_cons_missing {V} (d : gmap string V) (k : string) (keys : list string) :
  d !! k = None -> first_missing d (k :: keys) = Some k.
Proof.
  intros Hk. unfold first_missing. cbn. by rewrite bool_decide_eq_true_2.
Qed.

(** X15.  Both methods of [DoubleMLPLIV] look up their learners first, in
    the order ['ml_g'], ['ml_m'], ['ml_r']: the first key that
    [ml_learners] lacks is the [KeyError] raised, before the data are
    checked and before anything is trained or tuned. *)
Theorem pliv_missing_learner (ms : ModelSelection F) (self : DoubleMLPLIV)
    (data : DoubleMLData) smpls n_jobs_cv param_grids scoring_methods n_folds_tune
    (w : world F) (k : string) :
  first_missing (pliv_ml_learners self) ["ml_g"; "ml_m"; "ml_r"] = Some k ->
  _ml_nuisance_and_score_elements self data smpls n_jobs_cv w = (Raise (KeyError k), w) /\
  _ml_nuisance_tuning ms self data smpls param_grids scoring_methods n_folds_tune
    n_jobs_cv w = Throw (Builtin (KeyError k)).
Proof.
  intros Hk. unfold _ml_nuisance_and_score_elements, _ml_nuisance_tuning, getitem.
  destruct (pliv_ml_learners self !! "ml_g") as [lg|] eqn:Hg.
  2:{ rewrite first_missing_cons_missing in Hk by done. by injection Hk as <-. }
  rewrite (first_missing_cons_present _ _ _ _ Hg) in Hk.
  destruct (pliv_ml_learners self !! "ml_m") as [lm|] eqn:Hm.
  2:{ rewrite first_missing_cons_missing in Hk by done. by injection Hk as <-. }
  rewrite (first_missing_cons_present _ _ _ _ Hm) in Hk.
  destruct (pliv_ml_learners self !! "ml_r") as [lr|] eqn:Hr.
  2:{ rewrite first_missing_cons_missing in Hk by done. by injection Hk as <-. }
  by rewrite (first_missing_cons_present _ _ _ _ Hr) in Hk.
Qed.

(** X16.  With the three learners in place, both methods check the data
    next, [(X, y)], then [(X, z)], then [(X, d)]: the first rejection of
    [check_X_y] is the exception raised, and nothing has been trained or
    tuned by then. *)
Theorem pliv_rejects_invalid_data (ms : ModelSelection F) (self : DoubleMLPLIV)
    (data : DoubleMLData) smpls n_jobs_cv param_grids scoring_methods n_folds_tune
    (w : world F) (e : exn) :
  first_missing (pliv_ml_learners self) ["ml_g"; "ml_m"; "ml_r"] = None ->
  first_error (pliv_data_checks data) = Some e ->
  _ml_nuisance_and_score_elements self data smpls n_jobs_cv w = (Raise e, w) /\
  _ml_nuisance_tuning ms self data smpls param_grids scoring_methods n_folds_tune
    n_jobs_cv w = Throw (Builtin e).
Proof.
  intros Hk He. unfold _ml_nuisance_and_score_elements, _ml_nuisance_tuning, getitem.
  destruct (pliv_ml_learners self !! "ml_g") as [lg|] eqn:Hg;
    [|by rewrite first_missing_cons_missing in Hk].
  rewrite (first_missing_cons_present _ _ _ _ Hg) in Hk.
  destruct (pliv_ml_learners self !! "ml_m") as [lm|] eqn:Hm;
    [|by rewrite first_missing_cons_missing in Hk].
  rewrite (first_missing_cons_present _ _ _ _ Hm) in Hk.
  destruct (pliv_ml_learners self !! "ml_r") as [lr|] eqn:Hr;
    [|by rewrite first_missing_cons_missing in Hk].
  clear Hk. unfold pliv_data_checks in He. cbn [first_error] in He.
  destruct (check_X_y (data_x data) (data_y data)) as [p|e1] eqn:Hcy.
  2:{ injection He as ->. split; reflexivity. }
  apply check_X_y_ok in Hcy as [-> _]. cbn [fst snd].
  destruct (check_X_y (data_x data) (data_z data)) as [p|e1] eqn:Hcz.
  2:{ injection He as ->. split; cbn; unfold mbind, M_bind, lift; cbn;
      by rewrite Hcz. }
  pose proof Hcz as Hcz'. apply check_X_y_ok in Hcz' as [-> _].
  destruct (check_X_y (data_x data) (data_d data)) as [p|e1] eqn:Hcd; [done|].
  injection He as ->. split; cbn; unfold mbind, M_bind, lift; cbn;
    rewrite Hcz; cbn; by rewrite Hcd.
Qed.
End PLIVMore.

(** ** [DoubleMLPLIV._ml_nuisance_tuning] and [_set_ml_nuisance_params] *)

Section TuningFacts.
Context {F : Type} `{Scalar F}.

Lemma list_setitem_inv {A} (l l' : list A) (i : nat) (x : A) :
  list_setitem l i x = Ok l' -> i < length l /\ l' = <[i:=x]> l.
Proof. unfold list_setitem. case_decide; [by intros [= <-]|discriminate]. Qed.

(** Filling slot [idx] and then the slots after it is filling the slots
    from [idx] on. *)
Lemma slots_step {A} (l : list A) (idx n : nat) (x : A) (xs : list A) :
  idx < length l ->
  take (S idx) (<[idx:=x]> l) ++ xs ++ drop (S idx + n) (<[idx:=x]> l) =
  take idx l ++ (x :: xs) ++ drop (idx + S n) l.
Proof.
  intros Hi. rewrite take_S_insert, drop_insert_lt by lia.
  rewrite <- app_assoc. cbn. by replace (idx + S n) with (S (idx + n)) by lia.
Qed.

Section Loop.
Variable ms : ModelSelection F.
Variable w : world F.
Variable param_grids : gmap string (ParamGrid ms).
Variable scoring_methods : gmap string (option (Scoring ms)).
Variable n_folds_tune : Z.
Variables (ml_g ml_m ml_r : loc) (X : list (list F)) (y z d : list F).

Local Notation "'search'" :=
  (grid_search_fit ms w param_grids scoring_methods n_folds_tune) (only parsing).
Local Notation "'loop'" :=
  (tuning_loop ms w param_grids scoring_methods n_folds_tune ml_g ml_m ml_r X y z d)
  (only parsing).

(** A loop that returns has run the three searches on the train rows of
    every fold and has stored the fitted searches in the slots [idx],
    [idx + 1], ... of the three lists. *)
Lemma tuning_loop_inv (smpls : list (list nat * list nat)) :
  forall idx g_res m_res r_res out,
  loop idx smpls g_res m_res r_res = Return out ->
  exists gs ms' rs,
    Forall2 (fun fd t =>
      search ml_g "param_grid_g" "scoring_methods_g" X y fd.1 = Return t) smpls gs /\
    Forall2 (fun fd t =>
      search ml_m "param_grid_m" "scoring_methods_m" X z fd.1 = Return t) smpls ms' /\
    Forall2 (fun fd t =>
      search ml_r "param_grid_r" "scoring_methods_r" X d fd.1 = Return t) smpls rs /\
    out = (take idx g_res ++ (Some <$> gs) ++ drop (idx + length smpls) g_res,
           take idx m_res ++ (Some <$> ms') ++ drop (idx + length smpls) m_res,
           take idx r_res ++ (Some <$> rs) ++ drop (idx + length smpls) r_res).
Proof.
  induction smpls as [|[train test] smpls IH]; intros idx g_res m_res r_res out Hl;
    cbn [tuning_loop] in Hl.
  - injection Hl as <-. exists [], [], []. repeat (split; [constructor|]).
    cbn. by rewrite Nat.add_0_r, !take_drop.
  - apply obind_inv in Hl as (g & Hg & Hl).
    apply obind_of_result_inv in Hl as (g_res' & [Hig ->]%list_setitem_inv & Hl).
    apply obind_inv in Hl as (m & Hm & Hl).
    apply obind_of_result_inv in Hl as (m_res' & [Him ->]%list_setitem_inv & Hl).
    apply obind_inv in Hl as (r & Hr & Hl).
    apply obind_of_result_inv in Hl as (r_res' & [Hir ->]%list_setitem_inv & Hl).
    apply IH in Hl as (gs & ms' & rs & Hgs & Hms & Hrs & ->).
    exists (g :: gs), (m :: ms'), (r :: rs).
    split; [by constructor|]. split; [by constructor|]. split; [by constructor|].
    cbn [fmap list_fmap length]. by rewrite !slots_step by done.
Qed.

(** The loop reads the [train_index] of each fold only. *)
Lemma tuning_loop_train_only (smpls : list (list nat * list nat)) :
  forall smpls' idx g_res m_res r_res,
  smpls.*1 = smpls'.*1 ->
  loop idx smpls g_res m_res r_res = loop idx smpls' g_res m_res r_res.
Proof.
  induction smpls as [|[train test] smpls IH];
    intros [|[train' test'] smpls'] idx g_res m_res r_res Heq; try discriminate;
    [done|].
  cbn in Heq. injection Heq as <- Heq. cbn [tuning_loop].
  unfold mbind, outcome_bind.
  destruct (search ml_g _ _ X y train) as [g|e]; [|done].
  destruct (of_result (list_setitem g_res idx (Some g))) as [g_res'|e]; [|done].
  destruct (search ml_m _ _ X z train) as [m|e]; [|done].
  destruct (of_result (list_setitem m_res idx (Some m))) as [m_res'|e]; [|done].
  destruct (search ml_r _ _ X d train) as [r|e]; [|done].
  destruct (of_result (list_setitem r_res idx (Some r))) as [r_res'|e]; [|done].
  by apply IH.
Qed.
End Loop.

(** What a call of [_ml_nuisance_tuning] that returns has done. *)
Lemma _ml_nuisance_tuning_inv (ms : ModelSelection F) (self : DoubleMLPLIV)
    (data : DoubleMLData) smpls param_grids scoring_methods n_folds_tune n_jobs_cv
    (w : world F) res lg lm lr :
  pliv_ml_learners self !! "ml_g" = Some lg ->
  pliv_ml_learners self !! "ml_m" = Some lm ->
  pliv_ml_learners self !! "ml_r" = Some lr ->
  _ml_nuisance_tuning ms self data smpls param_grids scoring_methods n_folds_tune
    n_jobs_cv w = Return res ->
  exists gs ms' rs,
    Forall2 (fun fd t =>
      grid_search_fit ms w param_grids (scoring_dict scoring_methods) n_folds_tune
        lg "param_grid_g" "scoring_methods_g" (data_x data) (data_y data) fd.1
      = Return t) smpls gs /\
    Forall2 (fun fd t =>
      grid_search_fit ms w param_grids (scoring_dict scoring_methods) n_folds_tune
        lm "param_grid_m" "scoring_methods_m" (data_x data) (data_z data) fd.1
      = Return t) smpls ms' /\
    Forall2 (fun fd t =>
      grid_search_fit ms w param_grids (scoring_dict scoring_methods) n_folds_tune
        lr "param_grid_r" "scoring_methods_r" (data_x data) (data_d data) fd.1
      = Return t) smpls rs /\
    res = {| res_params := params_dict (best_params_ ms <$> gs)
                             (best_params_ ms <$> ms') (best_params_ ms <$> rs);
             res_tune_res := tune_dict (Some <$> gs) (Some <$> ms') (Some <$> rs) |}.
Proof.
  intros Hlg Hlm Hlr Hrun. unfold _ml_nuisance_tuning, getitem in Hrun.
  rewrite Hlg, Hlm, Hlr in Hrun. cbn [of_result] in Hrun.
  unfold mbind at 1 2 3, outcome_bind at 1 2 3 in Hrun.
  apply obind_of_result_inv in Hrun as (p & Hcy & Hrun).
  apply check_X_y_ok in Hcy as [-> _]. cbn [fst snd] in Hrun.
  apply obind_of_result_inv in Hrun as (p & Hcz & Hrun).
  apply check_X_y_ok in Hcz as [-> _]. cbn [fst snd] in Hrun.
  apply obind_of_result_inv in Hrun as (p & Hcd & Hrun).
  apply check_X_y_ok in Hcd as [-> _]. cbn [fst snd] in Hrun.
  apply obind_inv in Hrun as (out & Hloop & Hrun).
  apply tuning_loop_inv in Hloop as (gs & ms' & rs & Hgs & Hms & Hrs & ->).
  cbn [fst snd] in Hrun.
  rewrite take_0, drop_replicate, Nat.add_0_l, Nat.sub_diag in Hrun.
  cbn [replicate app] in Hrun. rewrite !app_nil_r in Hrun.
  rewrite !(outcome_mapM_Some (best_params_ ms)) in Hrun by done.
  cbn in Hrun. injection Hrun as <-.
  exists gs, ms', rs. done.
Qed.

(** X17.  Whenever [_ml_nuisance_tuning] returns, each of the lists under
    ['g_tune'], ['m_tune'] and ['r_tune'] holds, fold by fold, the grid
    search of that learner fitted on the train rows of the fold, with the
    target [y] for ['ml_g'], [z] for ['ml_m'] and [d] for ['ml_r']; no
    slot is left [None]; and the lists under ['g_params'], ['m_params']
    and ['r_params'] hold the [best_params_] of those searches, in the
    same order. *)
Theorem pliv_tuning_results (ms : ModelSelection F) (self : DoubleMLPLIV)
    (data : DoubleMLData) smpls param_grids scoring_methods n_folds_tune n_jobs_cv
    (w : world F) res lg lm lr :
  pliv_ml_learners self !! "ml_g" = Some lg ->
  pliv_ml_learners self !! "ml_m" = Some lm ->
  pliv_ml_learners self !! "ml_r" = Some lr ->
  _ml_nuisance_tuning ms self data smpls param_grids scoring_methods n_folds_tune
    n_jobs_cv w = Return res ->
  exists gs ms' rs,
    Forall2 (fun fd t =>
      grid_search_fit ms w param_grids (scoring_dict scoring_methods) n_folds_tune
        lg "param_grid_g" "scoring_methods_g" (data_x data) (data_y data) fd.1
      = Return t) smpls gs /\
    Forall2 (fun fd t =>
      grid_search_fit ms w param_grids (scoring_dict scoring_methods) n_folds_tune
        lm "param_grid_m" "scoring_methods_m" (data_x data) (data_z data) fd.1
      = Return t) smpls ms' /\
    Forall2 (fun fd t =>
      grid_search_fit ms w param_grids (scoring_dict scoring_methods) n_folds_tune
        lr "param_grid_r" "scoring_methods_r" (data_x data) (data_d data) fd.1
      = Return t) smpls rs /\
    res_tune_res res = tune_dict (Some <$> gs) (Some <$> ms') (Some <$> rs) /\
    res_params res = params_dict (best_params_ ms <$> gs)
                       (best_params_ ms <$> ms') (best_params_ ms <$> rs).
Proof.
  intros Hlg Hlm Hlr Hrun.
  destruct (_ml_nuisance_tuning_inv _ _ _ _ _ _ _ _ _ _ _ _ _ Hlg Hlm Hlr Hrun)
    as (gs & ms' & rs & Hgs & Hms & Hrs & ->).
  exists gs, ms', rs. done.
Qed.

(** X18.  [_ml_nuisance_tuning] never reads the [test_index] of a fold:
    two sample splits with the same train index lists give the same
    result. *)
Theorem pliv_tuning_ignores_test_index (ms : ModelSelection F) (self : DoubleMLPLIV)
    (data : DoubleMLData) (smpls smpls' : list (list nat * list nat))
    param_grids scoring_methods n_folds_tune n_jobs_cv (w : world F) :
  smpls.*1 = smpls'.*1 ->
  _ml_nuisance_tuning ms self data smpls param_grids scoring_methods n_folds_tune
    n_jobs_cv w =
  _ml_nuisance_tuning ms self data smpls' param_grids scoring_methods n_folds_tune
    n_jobs_cv w.
Proof.
  intros Heq. unfold _ml_nuisance_tuning.
  assert (Hlen : length smpls = length smpls').
  { by rewrite <- (length_fmap fst smpls), Heq, length_fmap. }
  rewrite Hlen. unfold mbind, outcome_bind.
  repeat match goal with
         | |- match ?r with Return _ => _ | Throw _ => _ end = _ =>
             match r with
             | tuning_loop _ _ _ _ _ _ _ _ _ _ _ _ _ _ _ _ _ => fail 1
             | _ => destruct r; [|done]
             end
         end.
  by rewrite (tuning_loop_train_only _ _ _ _ _ _ _ _ _ _ _ _ smpls smpls').
Qed.

(** X19.  Without folds nothing is looked at: for an empty [smpls],
    whatever [param_grids], [scoring_methods] and [n_folds_tune] are,
    [_ml_nuisance_tuning] returns six empty lists. *)
Theorem pliv_tuning_no_folds (ms : ModelSelection F) (self : DoubleMLPLIV)
    (data : DoubleMLData) param_grids scoring_methods n_folds_tune n_jobs_cv
    (w : world F) :
  first_missing (pliv_ml_learners self) ["ml_g"; "ml_m"; "ml_r"] = None ->
  first_error (pliv_data_checks data) = None ->
  _ml_nuisance_tuning ms self data [] param_grids scoring_methods n_folds_tune
    n_jobs_cv w =
  Return {| res_params := params_dict [] [] []; res_tune_res := tune_dict [] [] [] |}.
Proof.
  intros Hk He. unfold _ml_nuisance_tuning, getitem.
  destruct (pliv_ml_learners self !! "ml_g") as [lg|] eqn:Hg;
    [|by rewrite first_missing_cons_missing in Hk].
  rewrite (first_missing_cons_present _ _ _ _ Hg) in Hk.
  destruct (pliv_ml_learners self !! "ml_m") as [lm|] eqn:Hm;
    [|by rewrite first_missing_cons_missing in Hk].
  rewrite (first_missing_cons_present _ _ _ _ Hm) in Hk.
  destruct (pliv_ml_learners self !! "ml_r") as [lr|] eqn:Hr;
    [|by rewrite first_missing_cons_missing in Hk].
  clear Hk. unfold pliv_data_checks in He. cbn [first_error] in He.
  destruct (check_X_y (data_x data) (data_y data)) as [p|e1] eqn:Hcy; [|done].
  apply check_X_y_ok in Hcy as [-> _].
  destruct (check_X_y (data_x data) (data_z data)) as [p|e1] eqn:Hcz; [|done].
  pose proof Hcz as Hcz'. apply check_X_y_ok in Hcz' as [-> _].
  destruct (check_X_y (data_x data) (data_d data)) as [p|e1] eqn:Hcd; [|done].
  pose proof Hcd as Hcd'. apply check_X_y_ok in Hcd' as [-> _].
  cbn. rewrite Hcz. cbn. rewrite Hcd. reflexivity.
Qed.

(** X20.  The keys of [param_grids] are read as the loop comes to them: a
    dict without ['param_grid_m'] makes the method raise
    [KeyError('param_grid_m')] in the first fold, after the grid search for
    ['ml_g'] on that fold has been fitted. *)
Theorem pliv_tuning_missing_grid_late (ms : ModelSelection F) (self : DoubleMLPLIV)
    (data : DoubleMLData) fd rest param_grids scoring_methods n_folds_tune n_jobs_cv
    (w : world F) lg lm om t :
  pliv_ml_learners self !! "ml_g" = Some lg ->
  pliv_ml_learners self !! "ml_m" = Some lm ->
  first_missing (pliv_ml_learners self) ["ml_g"; "ml_m"; "ml_r"] = None ->
  first_error (pliv_data_checks data) = None ->
  heap w !! lm = Some om ->
  grid_search_fit ms w param_grids (scoring_dict scoring_methods) n_folds_tune
    lg "param_grid_g" "scoring_methods_g" (data_x data) (data_y data) fd.1 = Return t ->
  param_grids !! "param_grid_m" = None ->
  _ml_nuisance_tuning ms self data (fd :: rest) param_grids scoring_methods
    n_folds_tune n_jobs_cv w = Throw (Builtin (KeyError "param_grid_m")).
Proof.
  intros Hlg Hlm Hk He Hom Hg Hgrid. unfold _ml_nuisance_tuning, getitem.
  rewrite Hlg, Hlm.
  rewrite (first_missing_cons_present _ _ _ _ Hlg) in Hk.
  rewrite (first_missing_cons_present _ _ _ _ Hlm) in Hk.
  destruct (pliv_ml_learners self !! "ml_r") as [lr|] eqn:Hr;
    [|by rewrite first_missing_cons_missing in Hk].
  clear Hk. unfold pliv_data_checks in He. cbn [first_error] in He.
  destruct (check_X_y (data_x data) (data_y data)) as [p|e1] eqn:Hcy; [|done].
  apply check_X_y_ok in Hcy as [-> _].
  destruct (check_X_y (data_x data) (data_z data)) as [p|e1] eqn:Hcz; [|done].
  pose proof Hcz as Hcz'. apply check_X_y_ok in Hcz' as [-> _].
  destruct (check_X_y (data_x data) (data_d data)) as [p|e1] eqn:Hcd; [|done].
  pose proof Hcd as Hcd'. apply check_X_y_ok in Hcd' as [-> _].
  cbn [of_result mbind outcome_bind fst snd]. rewrite Hcz.
  cbn [of_result mbind outcome_bind fst snd]. rewrite Hcd.
  cbn [of_result mbind outcome_bind fst snd].
  destruct fd as [train test]. cbn [tuning_loop fst] in *.
  cbv beta iota delta [scoring_dict from_option id] in Hg. rewrite Hg.
  cbn [mbind outcome_bind length replicate]. unfold list_setitem.
  rewrite decide_True by (cbn; lia). cbn [of_result mbind outcome_bind].
  unfold grid_search_fit in Hg |- *.
  apply obind_inv in Hg as (cv & Hcv & _).
  rewrite Hcv, Hom. unfold getitem. rewrite Hgrid. reflexivity.
Qed.

Lemma lookup_params_dict {V} (g m r : V) :
  params_dict g m r !! "g_params" = Some g /\
  params_dict g m r !! "m_params" = Some m /\
  params_dict g m r !! "r_params" = Some r.
Proof. unfold params_dict. by rewrite !lookup_insert. Qed.

(** X21.  The dict under ['params'] of a tuning result is what
    [_set_ml_nuisance_params] expects: handing it over never raises, and
    sets [_g_params], [_m_params] and [_r_params] to three lists with one
    entry per fold. *)
Theorem pliv_tuning_then_set_params (ms : ModelSelection F) (self : DoubleMLPLIV)
    (data : DoubleMLData) smpls param_grids scoring_methods n_folds_tune n_jobs_cv
    (w : world F) res (attrs : nuisance_params (list (BestParams ms))) :
  _ml_nuisance_tuning ms self data smpls param_grids scoring_methods n_folds_tune
    n_jobs_cv w = Return res ->
  exists g m r,
    _set_ml_nuisance_params (res_params res) attrs =
      (Ok tt, {| _g_params := Some g; _m_params := Some m; _r_params := Some r |}) /\
    length g = length smpls /\ length m = length smpls /\ length r = length smpls.
Proof.
  intros Hrun.
  assert (exists lg lm lr, pliv_ml_learners self !! "ml_g" = Some lg /\
            pliv_ml_learners self !! "ml_m" = Some lm /\
            pliv_ml_learners self !! "ml_r" = Some lr) as (lg & lm & lr & Hlg & Hlm & Hlr).
  { unfold _ml_nuisance_tuning, getitem in Hrun.
    destruct (pliv_ml_learners self !! "ml_g") as [lg|]; [|discriminate].
    destruct (pliv_ml_learners self !! "ml_m") as [lm|]; [|discriminate].
    destruct (pliv_ml_learners self !! "ml_r") as [lr|]; [|discriminate].
    eauto 7. }
  destruct (_ml_nuisance_tuning_inv _ _ _ _ _ _ _ _ _ _ _ _ _ Hlg Hlm Hlr Hrun)
    as (gs & ms' & rs & Hgs & Hms & Hrs & ->).
  exists (best_params_ ms <$> gs), (best_params_ ms <$> ms'), (best_params_ ms <$> rs).
  cbn [res_params].
  destruct (lookup_params_dict (best_params_ ms <$> gs) (best_params_ ms <$> ms')
              (best_params_ ms <$> rs)) as (Hg & Hm & Hr).
  unfold _set_ml_nuisance_params, getitem. rewrite Hg, Hm, Hr.
  rewrite !length_fmap.
  apply Forall2_length in Hgs, Hms, Hrs. done.
Qed.
End TuningFacts.

Section SetParams.
Context {V : Type}.

(** X22.  [_set_ml_nuisance_params] assigns the three attributes one after
    the other: it returns normally exactly when [params] has the keys
    ['g_params'], ['m_params'] and ['r_params']; the first key that is
    missing is the [KeyError] raised, and the attributes assigned before
    it keep their new values. *)
Theorem set_params_is_not_atomic (params : gmap string V) (attrs : nuisance_params V) :
  let out := _set_ml_nuisance_params params attrs in
  match first_missing params ["g_params"; "m_params"; "r_params"] with
  | None =>
      out.1 = Ok tt /\
      out.2 = {| _g_params := params !! "g_params";
                 _m_params := params !! "m_params";
                 _r_params := params !! "r_params" |}
  | Some k =>
      out.1 = Raise (KeyError k) /\
      _g_params out.2 = (if decide (k = "g_params") then _g_params attrs
                         else params !! "g_params") /\
      _m_params out.2 = (if decide (k = "r_params") then params !! "m_params"
                         else _m_params attrs) /\
      _r_params out.2 = _r_params attrs
  end.
Proof.
  cbn zeta. unfold _set_ml_nuisance_params, getitem.
  destruct (params !! "g_params") as [g|] eqn:Hg.
  2:{ rewrite first_missing_cons_missing by done. by destruct attrs. }
  rewrite (first_missing_cons_present _ _ _ _ Hg).
  destruct (params !! "m_params") as [m|] eqn:Hm.
  2:{ by rewrite first_missing_cons_missing by done. }
  rewrite (first_missing_cons_present _ _ _ _ Hm).
  destruct (params !! "r_params") as [r|] eqn:Hr.
  2:{ by rewrite first_missing_cons_missing by done. }
  by rewrite (first_missing_cons_present _ _ _ _ Hr).
Qed.
End SetParams.

(** ** [DoubleMLPLR.fit] sees its learners through their state only *)

Section States.
Context {F : Type} `{Scalar F}.

Lemma bind_sim {A B} (R : world F -> world F -> Prop) (m m' : M F A)
    (k k' : A -> M F B) (w w' : world F) :
  sim R (m w) (m' w') ->
  (forall a w1 w1', R w1 w1' -> sim R (k a w1) (k' a w1')) ->
  sim R ((x ← m; k x) w) ((x ← m'; k' x) w').
Proof.
  unfold sim, mbind, M_bind. intros [Hr HR] Hk.
  destruct (m w) as [r w1], (m' w') as [r' w1']. cbn [fst snd] in *. subst r'.
  destruct r as [a|e]; [by apply Hk|done].
Qed.

Lemma lift_sim {A} (R : world F -> world F -> Prop) (r : result A) (w w' : world F) :
  R w w' -> sim R (lift r w) (lift r w').
Proof. by split. Qed.

Section Objects.
Variables lg lm lg' lm' : loc.

Lemma fit_predict_sim_g X t train test (w w' : world F) :
  same_states lg lm lg' lm' w w' ->
  sim (same_states lg lm lg' lm')
    (fit_predict lg X t train test w) (fit_predict lg' X t train test w').
Proof.
  intros Hs. pose proof Hs as (og & om & Hg & Hg' & Hm & Hm' & Hal).
  unfold fit_predict, mbind, M_bind, lift.
  destruct (np_take X train) as [X_train|e]; [|by split].
  destruct (np_take t train) as [t_train|e]; [|by split].
  unfold learner_fit. rewrite Hg, Hg'.
  assert (Hs1 : forall tr tr',
    same_states lg lm lg' lm'
      {| heap := <[lg := fitted og X_train t_train]> (heap w); trace := tr |}
      {| heap := <[lg' := fitted og X_train t_train]> (heap w'); trace := tr' |}).
  { intros tr tr'. destruct (decide (lg = lm)) as [Heq|Hne].
    - pose proof (proj1 Hal Heq) as Heq'.
      exists (fitted og X_train t_train), (fitted og X_train t_train). cbn [heap].
      rewrite <- Heq, <- Heq', !lookup_insert_eq. by repeat split.
    - assert (Hne' : lg' <> lm') by (intros Heq'; by apply Hne, Hal).
      exists (fitted og X_train t_train), om. cbn [heap].
      rewrite !lookup_insert_eq, !lookup_insert_ne by done. by repeat split. }
  destruct (np_take X test) as [X_test|e]; [|split; [done|apply Hs1]].
  unfold learner_predict. cbn [heap]. rewrite !lookup_insert_eq.
  split; [done|apply Hs1].
Qed.

Lemma fit_predict_sim_m X t train test (w w' : world F) :
  same_states lg lm lg' lm' w w' ->
  sim (same_states lg lm lg' lm')
    (fit_predict lm X t train test w) (fit_predict lm' X t train test w').
Proof.
  intros Hs. pose proof Hs as (og & om & Hg & Hg' & Hm & Hm' & Hal).
  unfold fit_predict, mbind, M_bind, lift.
  destruct (np_take X train) as [X_train|e]; [|by split].
  destruct (np_take t train) as [t_train|e]; [|by split].
  unfold learner_fit. rewrite Hm, Hm'.
  assert (Hs1 : forall tr tr',
    same_states lg lm lg' lm'
      {| heap := <[lm := fitted om X_train t_train]> (heap w); trace := tr |}
      {| heap := <[lm' := fitted om X_train t_train]> (heap w'); trace := tr' |}).
  { intros tr tr'. destruct (decide (lg = lm)) as [Heq|Hne].
    - pose proof (proj1 Hal Heq) as Heq'.
      exists (fitted om X_train t_train), (fitted om X_train t_train). cbn [heap].
      rewrite Heq, Heq', !lookup_insert_eq. by repeat split.
    - assert (Hne' : lg' <> lm') by (intros Heq'; by apply Hne, Hal).
      exists og, (fitted om X_train t_train). cbn [heap].
      rewrite !lookup_insert_eq, !lookup_insert_ne by done. by repeat split. }
  destruct (np_take X test) as [X_test|e]; [|split; [done|apply Hs1]].
  unfold learner_predict. cbn [heap]. rewrite !lookup_insert_eq.
  split; [done|apply Hs1].
Qed.

(** One fold on objects in the same states: the same estimate or the same
    exception, and the objects are again in the same states. *)
Lemma dml1_fold_sim (im : string) X y d fd (w w' : world F) :
  same_states lg lm lg' lm' w w' ->
  sim (same_states lg lm lg' lm')
    (dml1_fold im lg lm X y d fd w) (dml1_fold im lg' lm' X y d fd w').
Proof.
  intros Hs. destruct fd as [train test]. unfold dml1_fold.
  apply bind_sim; [by apply fit_predict_sim_g|]. clear w w' Hs. intros g_hat w w' Hs.
  apply bind_sim; [by apply lift_sim|]. clear w w' Hs. intros y_test w w' Hs.
  apply bind_sim; [by apply lift_sim|]. clear w w' Hs. intros u_hat w w' Hs.
  apply bind_sim; [by apply fit_predict_sim_m|]. clear w w' Hs. intros m_hat w w' Hs.
  apply bind_sim; [by apply lift_sim|]. clear w w' Hs. intros d_test w w' Hs.
  apply bind_sim; [by apply lift_sim|]. clear w w' Hs. intros v_hat w w' Hs.
  apply bind_sim; [by apply lift_sim|]. clear w w' Hs. intros v_hatd w w' Hs.
  by apply lift_sim.
Qed.

Lemma dml1_loop_sim (im : string) X y d folds :
  forall idx thetas (w w' : world F),
  same_states lg lm lg' lm' w w' ->
  sim (same_states lg lm lg' lm')
    (dml1_loop (dml1_fold im lg lm X y d) idx folds thetas w)
    (dml1_loop (dml1_fold im lg' lm' X y d) idx folds thetas w').
Proof.
  induction folds as [|fd folds IH]; intros idx thetas w w' Hs; cbn [dml1_loop].
  - by split.
  - apply bind_sim; [by apply dml1_fold_sim|]. clear w w' Hs. intros theta w w' Hs.
    apply bind_sim; [by apply lift_sim|]. clear w w' Hs. intros thetas' w w' Hs.
    by apply IH.
Qed.
End Objects.

(** X23.  The outcome of [DoubleMLPLR.fit] depends on the learner objects
    through their states only: two calls with the same data, splitter,
    [dml_procedure] and [inf_model], on learner objects that are in the
    same states (and are one object in both calls, or two in both), return
    the same [coef_] or raise the same exception, whatever else the two
    worlds hold and whatever was called before. *)
Theorem plr_fit_depends_on_learner_states (self self' : DoubleMLPLR)
    (X : list (list F)) (y d : list F) (w w' : world F) lg lm lg' lm' :
  resampling self' = resampling self ->
  dml_procedure self' = dml_procedure self ->
  inf_model self' = inf_model self ->
  ml_learners self !! "ml_g" = Some lg ->
  ml_learners self !! "ml_m" = Some lm ->
  ml_learners self' !! "ml_g" = Some lg' ->
  ml_learners self' !! "ml_m" = Some lm' ->
  same_states lg lm lg' lm' w w' ->
  (DoubleMLPLR_fit self X y d w).1 = (DoubleMLPLR_fit self' X y d w').1.
Proof.
  intros Hrs Hproc Hinf Hlg Hlm Hlg' Hlm' Hs.
  unfold DoubleMLPLR_fit, getitem. rewrite Hlm, Hlg, Hlm', Hlg', Hrs, Hproc, Hinf.
  rewrite (bind_lift_ok (Ok lm) _ w lm eq_refl), (bind_lift_ok (Ok lg) _ w lg eq_refl).
  rewrite (bind_lift_ok (Ok lm') _ w' lm' eq_refl),
    (bind_lift_ok (Ok lg') _ w' lg' eq_refl).
  cut (forall A (x x' : result A * world F),
         sim (same_states lg lm lg' lm') x x' -> x.1 = x'.1);
    [|by intros A x x' [? _]].
  intros Hcut. apply Hcut.
  apply bind_sim; [by apply lift_sim|].
  clear w w' Hs. intros Xy w w' Hs.
  apply bind_sim; [by apply lift_sim|]. clear w w' Hs. intros Xd w w' Hs.
  destruct (String.eqb (dml_procedure self) "dml1"); [|by split].
  apply bind_sim; [by apply dml1_loop_sim|]. clear w w' Hs. intros thetas w w' Hs.
  by split.
Qed.

(** X24.  What the test [test_dml_plr] compares: [fit] on one pair of
    learner objects and the manual reference on another pair in the same
    states (both pairs cloned from the same learners).  Whenever [fit]
    returns a [coef_], the reference returns the same number. *)
Theorem plr_fit_agrees_with_reference_on_copies (self : DoubleMLPLR)
    (X : list (list F)) (y d : list F) (w w' : world F) lg lm lg' lm' theta :
  dml_procedure self = "dml1" ->
  inf_model self = "IV-type" ->
  ml_learners self !! "ml_g" = Some lg ->
  ml_learners self !! "ml_m" = Some lm ->
  check_X_y X y = Ok (X, y) ->
  check_X_y X d = Ok (X, d) ->
  same_states lg lm lg' lm' w w' ->
  (DoubleMLPLR_fit self X y d w).1 = Ok theta ->
  (dml_cross_fitting y X d lm' lg' (resampling self) w').1 = Ok theta.
Proof.
  intros Hproc Hinf Hlg Hlm Hcy Hcd Hs Hfit.
  destruct (DoubleMLPLR_fit self X y d w) as [r w1] eqn:Hrun.
  cbn [fst] in Hfit. subst r.
  destruct (DoubleMLPLR_fit_inv _ _ _ _ _ _ _ _ _ Hlg Hlm Hrun) as (thetas & Hloop & ->).
  rewrite Hinf in Hloop.
  destruct (dml1_loop_sim lg lm lg' lm' "IV-type" X y d (split (resampling self) X) 0
              (np_zeros (get_n_splits (resampling self))) w w' Hs) as [Hr _].
  rewrite Hloop in Hr. cbn [fst] in Hr.
  destruct (dml1_loop (dml1_fold "IV-type" lg' lm' X y d) 0 (split (resampling self) X)
              (np_zeros (get_n_splits (resampling self))) w') as [r' w1'] eqn:Hloop'.
  cbn [fst] in Hr. subst r'.
  unfold dml_cross_fitting.
  rewrite (bind_ok _ _ w' thetas w1'); [reflexivity|].
  apply (dml1_loop_iff (dml1_fold "IV-type" lg' lm' X y d)); [|exact Hloop'].
  intros. apply dml1_fold_iff_reference.
Qed.
End States.

(** ** The out-of-fold property in [DoubleMLPLR.fit] *)

Section OutOfFold.
Context {F : Type} `{Scalar F}.

#[local] Hint Resolve same_class_refl same_class_fitted : learners.

Lemma learners_inv_insert_m lg lm (og om : Learner F) w o X t tr :
  learners_inv lg lm og om w -> heap w !! lm = Some o ->
  learners_inv lg lm og om
    {| heap := <[lm := fitted o X t]> (heap w); trace := tr |}.
Proof.
  intros ((o1 & Hg & Hc1) & (o2 & Hm & Hc2) & Hal) Ho.
  rewrite Hm in Ho. injection Ho as <-.
  split; [|split]; cbn [heap]; [| |done].
  - destruct (decide (lg = lm)) as [Heq|Hne].
    + rewrite Heq, lookup_insert_eq. rewrite (Hal Heq). eauto with learners.
    + rewrite lookup_insert_ne by done. eauto.
  - rewrite lookup_insert_eq. eauto with learners.
Qed.

Lemma learners_inv_trace lg lm (og om : Learner F) w h tr :
  learners_inv lg lm og om w -> h = heap w ->
  learners_inv lg lm og om {| heap := h; trace := tr |}.
Proof. by intros Hinv ->. Qed.

(** Every fold leaves under the two keys objects of the classes it found
    there, whatever the learners are. *)
Lemma dml1_fold_learners_inv (im : string) lg lm (og om : Learner F) X y d fd w theta w' :
  dml1_fold im lg lm X y d fd w = (Ok theta, w') ->
  learners_inv lg lm og om w -> learners_inv lg lm og om w'.
Proof.
  intros (o1 & o2 & Hl1 & Hl2 & ->)%dml1_fold_inv Hinv.
  pose proof (learners_inv_insert_g _ _ _ _ _ _ (rows X fd.1) (rows y fd.1) Hinv Hl1)
    as Hinv1.
  exact (learners_inv_insert_m lg lm og om _ o2 _ _ _ Hinv1 Hl2).
Qed.

Lemma loop_runs_learners_inv (im : string) lg lm (og om : Learner F) X y d folds w ests w' :
  loop_runs (dml1_fold im lg lm X y d) folds w ests w' ->
  learners_inv lg lm og om w -> learners_inv lg lm og om w'.
Proof.
  induction 1 as [w|fd folds w theta w1 ests w2 Hb _ IH]; [done|].
  intros Hinv. apply IH. by apply (dml1_fold_learners_inv im _ _ _ _ X y d fd w theta).
Qed.

(** So does [ml_g.fit(...).predict(...)], also when it raises. *)
Lemma fit_predict_g_learners_inv lg lm (og om : Learner F) X t train test w :
  learners_inv lg lm og om w ->
  learners_inv lg lm og om (fit_predict lg X t train test w).2.
Proof.
  intros Hinv. pose proof Hinv as ((o & Hg & Hc) & _).
  unfold fit_predict, mbind, M_bind, lift.
  destruct (np_take X train) as [X_train|e]; [|done].
  destruct (np_take t train) as [t_train|e]; [|done].
  unfold learner_fit. rewrite Hg.
  destruct (np_take X test) as [X_test|e].
  - unfold learner_predict. cbn [heap]. rewrite lookup_insert_eq. cbn [snd].
    by apply (learners_inv_insert_g lg lm og om w o).
  - cbn [snd]. by apply (learners_inv_insert_g lg lm og om w o).
Qed.

(** C2 (as the code has it).  The out-of-fold property of
    [DoubleMLPLR.fit], for learners whose [fit] does not depend on what an
    earlier [fit] left in the object (no warm start).  Take a fold of
    [split(X)] whose train and test indices are disjoint, a row [i] of its
    test set, and overwrite [y[i]] and [d[i]].  Run the folds before it on
    the old and on the new targets: the learners are then in different
    states, since earlier folds were trained on row [i].  Yet in that fold
    [ml_g.fit(X[train], y[train]).predict(X[test])] returns the same
    [g_hat] for both targets, and after it
    [ml_m.fit(X[train], d[train]).predict(X[test])] the same [m_hat]. *)
Theorem plr_oof_prediction_ignores_own_target (self : DoubleMLPLR)
    (X : list (list F)) (y d : list F) (i : nat) (vy vd : F)
    lg lm (og om : Learner F) before fd after w ests wk ests' wk' :
  ml_learners self !! "ml_g" = Some lg ->
  ml_learners self !! "ml_m" = Some lm ->
  heap w !! lg = Some og ->
  heap w !! lm = Some om ->
  oblivious og -> oblivious om ->
  split (resampling self) X = before ++ fd :: after ->
  i ∈ fd.2 ->
  fd.1 ## fd.2 ->
  loop_runs (dml1_fold (inf_model self) lg lm X y d) before w ests wk ->
  loop_runs (dml1_fold (inf_model self) lg lm X (<[i := vy]> y) (<[i := vd]> d))
    before w ests' wk' ->
  (fit_predict lg X y fd.1 fd.2 wk).1 =
    (fit_predict lg X (<[i := vy]> y) fd.1 fd.2 wk').1 /\
  (fit_predict lm X d fd.1 fd.2 (fit_predict lg X y fd.1 fd.2 wk).2).1 =
    (fit_predict lm X (<[i := vd]> d) fd.1 fd.2
       (fit_predict lg X (<[i := vy]> y) fd.1 fd.2 wk').2).1.
Proof.
  intros _ _ Hg Hm Hog Hom _ Hi Hdisj Hruns Hruns'.
  pose proof (learners_inv_init _ _ _ _ _ Hg Hm) as Hinv.
  pose proof (loop_runs_learners_inv _ _ _ _ _ _ _ _ _ _ _ _ Hruns Hinv) as Hk.
  pose proof (loop_runs_learners_inv _ _ _ _ _ _ _ _ _ _ _ _ Hruns' Hinv) as Hk'.
  split.
  - destruct Hk as ((o & Hl & [s ->]) & _). destruct Hk' as ((o' & Hl' & [s' ->]) & _).
    apply (fit_predict_ignores_test_target lg (set_state og s) s'); try done.
    intros X' t'. apply Hog.
  - pose proof (fit_predict_g_learners_inv lg lm og om X y fd.1 fd.2 wk Hk)
      as (_ & (o & Hl & [s ->]) & _).
    pose proof (fit_predict_g_learners_inv lg lm og om X (<[i := vy]> y) fd.1 fd.2 wk' Hk')
      as (_ & (o' & Hl' & [s' ->]) & _).
    apply (fit_predict_ignores_test_target lm (set_state om s) s'); try done.
    intros X' t'. apply Hom.
Qed.
End OutOfFold.

(** ** Concrete runs (binary64) *)

Example ex_plr_fold_estimates :
  map (spec_fold_theta mean_learner mean_learner ex_X ex_y ex_d) ex_smpls
  = [(-1)%float; 1%float].
Proof. vm_compute. reflexivity. Qed.

Example ex_plr_coef :
  (DoubleMLPLR_fit (ex_plr ex_kfold2 "dml1" "IV-type") ex_X ex_y ex_d
     (ex_world mean_learner)).1 = Ok 0%float.
Proof. vm_compute. reflexivity. Qed.

(** Folds of sizes one and three with estimates -1 and 5: [coef_] is
    their plain mean 2, not the size-weighted mean 3.5. *)
Example ex_uneven_fold_estimates :
  map (spec_fold_theta mean_learner mean_learner ex_X ex_y ex_d) (split ex_uneven ex_X)
  = [(-1)%float; 5%float].
Proof. vm_compute. reflexivity. Qed.

Example ex_uneven_coef :
  (DoubleMLPLR_fit (ex_plr ex_uneven "dml1" "IV-type") ex_X ex_y ex_d
     (ex_world mean_learner)).1 = Ok 2%float.
Proof. vm_compute. reflexivity. Qed.

Example ex_orth_dml2018 :
  OrthDmlPlr_fit "DML2018" [1; 2]%float [1; 1]%float [0; 0]%float [0; 0]%float
  = Raise (NameError "LinearRegression").
Proof. vm_compute. reflexivity. Qed.

Lemma mean_learner_oblivious : oblivious mean_learner.
Proof. intros s s' X t. reflexivity. Qed.

Lemma mean_learner_predicts_rows : predicts_rows mean_learner.
Proof. intros s X. cbn. apply length_map. Qed.

Lemma ex_kfold2_in_range : Forall (in_range (length ex_X)) (split ex_kfold2 ex_X).
Proof. repeat (constructor || split); cbn; lia. Qed.

(** Witness of C1: two folds of two rows, learners that predict the mean
    of the training target. *)
Lemma plr_dml1_iv_type_coef_witness :
  (DoubleMLPLR_fit (ex_plr ex_kfold2 "dml1" "IV-type") ex_X ex_y ex_d
     (ex_world mean_learner)).1 =
    Ok (spec_dml1_theta mean_learner mean_learner ex_X ex_y ex_d
          (split (resampling (ex_plr ex_kfold2 "dml1" "IV-type")) ex_X)) /\
  (dml_cross_fitting ex_y ex_X ex_d 1 0
     (resampling (ex_plr ex_kfold2 "dml1" "IV-type")) (ex_world mean_learner)).1 =
    Ok (spec_dml1_theta mean_learner mean_learner ex_X ex_y ex_d
          (split (resampling (ex_plr ex_kfold2 "dml1" "IV-type")) ex_X)).
Proof.
  apply (plr_dml1_iv_type_coef (ex_plr ex_kfold2 "dml1" "IV-type")
           ex_X ex_y ex_d (ex_world mean_learner) 0 1 mean_learner mean_learner).
  - reflexivity.
  - reflexivity.
  - vm_compute. reflexivity.
  - vm_compute. reflexivity.
  - vm_compute. reflexivity.
  - vm_compute. reflexivity.
  - exact mean_learner_oblivious.
  - exact mean_learner_oblivious.
  - exact mean_learner_predicts_rows.
  - exact mean_learner_predicts_rows.
  - vm_compute. reflexivity.
  - vm_compute. reflexivity.
  - reflexivity.
  - exact ex_kfold2_in_range.
Defined.

(** Counterexample to C1: a deterministic learner with a warm start.  In
    the second fold both objects still hold the models of the first fold:
    the fold estimates are -1 and 2 and [coef_] is 0.5, where models
    trained on the train rows of each fold give -1 and 1 and the mean 0.
    The manual reference, which refits the same objects, returns 0.5 as
    well. *)
Lemma plr_dml1_warm_start_counterexample :
  predicts_rows warm_learner /\
  (DoubleMLPLR_fit (ex_plr ex_kfold2 "dml1" "IV-type") ex_X ex_y ex_d
     (ex_world warm_learner)).1 = Ok 0.5%float /\
  spec_dml1_theta warm_learner warm_learner ex_X ex_y ex_d
    (split (resampling (ex_plr ex_kfold2 "dml1" "IV-type")) ex_X) = 0%float /\
  (DoubleMLPLR_fit (ex_plr ex_kfold2 "dml1" "IV-type") ex_X ex_y ex_d
     (ex_world warm_learner)).1 <>
    Ok (spec_dml1_theta warm_learner warm_learner ex_X ex_y ex_d
          (split (resampling (ex_plr ex_kfold2 "dml1" "IV-type")) ex_X)) /\
  (dml_cross_fitting ex_y ex_X ex_d 1 0
     (resampling (ex_plr ex_kfold2 "dml1" "IV-type")) (ex_world warm_learner)).1
    = Ok 0.5%float.
Proof.
  split; [intros s X; apply length_map|].
  split; [vm_compute; reflexivity|].
  split; [vm_compute; reflexivity|].
  split; [|vm_compute; reflexivity].
  intros Heq.
  apply (f_equal (fun r => match r with
                           | Ok x => PrimFloat.eqb x 0.5%float
                           | Raise _ => false
                           end)) in Heq.
  vm_compute in Heq. discriminate.
Qed.

(** Witness of C10: folds of unequal sizes. *)
Lemma plr_dml1_coef_is_unweighted_mean_witness :
  exists thetas,
    loop_runs (dml1_fold (inf_model (ex_plr ex_uneven "dml1" "IV-type")) 0 1
                 ex_X ex_y ex_d)
      (split (resampling (ex_plr ex_uneven "dml1" "IV-type")) ex_X)
      (ex_world mean_learner) thetas
      (DoubleMLPLR_fit (ex_plr ex_uneven "dml1" "IV-type") ex_X ex_y ex_d
         (ex_world mean_learner)).2 /\
    length thetas = length (split (resampling (ex_plr ex_uneven "dml1" "IV-type")) ex_X) /\
    2%float = f_div (np_sum thetas)
                (f_of_nat (length (split (resampling (ex_plr ex_uneven "dml1" "IV-type")) ex_X))).
Proof.
  apply (plr_dml1_coef_is_unweighted_mean (ex_plr ex_uneven "dml1" "IV-type")
           ex_X ex_y ex_d (ex_world mean_learner) 2%float _ 0 1).
  - vm_compute. reflexivity.
  - vm_compute. reflexivity.
  - reflexivity.
  - vm_compute. reflexivity.
Defined.

(** Counterexample to C4: a valid data set, ['dml2']: no estimate, the
    call raises. *)
Lemma plr_dml2_counterexample :
  (DoubleMLPLR_fit (ex_plr ex_kfold2 "dml2" "IV-type") ex_X ex_y ex_d
     (ex_world mean_learner)).1 = Raise (ValueError "invalid dml_procedure") /\
  (DoubleMLPLR_fit (ex_plr ex_kfold2 "dml1" "IV-type") ex_X ex_y ex_d
     (ex_world mean_learner)).1 = Ok 0%float.
Proof. split; vm_compute; reflexivity. Qed.

(** Witness of C4. *)
Lemma plr_dml2_is_rejected_witness :
  exists e,
    DoubleMLPLR_fit (ex_plr ex_kfold2 "dml2" "IV-type") ex_X ex_y ex_d
      (ex_world mean_learner) = (Raise e, ex_world mean_learner) /\
    (is_ok (getitem (ml_learners (ex_plr ex_kfold2 "dml2" "IV-type")) "ml_m") = true ->
     is_ok (getitem (ml_learners (ex_plr ex_kfold2 "dml2" "IV-type")) "ml_g") = true ->
     is_ok (check_X_y ex_X ex_y) = true ->
     is_ok (check_X_y ex_X ex_d) = true ->
     e = ValueError "invalid dml_procedure").
Proof.
  apply (plr_dml2_is_rejected (ex_plr ex_kfold2 "dml2" "IV-type")
           ex_X ex_y ex_d (ex_world mean_learner)).
  discriminate.
Defined.

(** Counterexample to C7: folds whose denominator [np.dot(v, d)] is zero;
    the fold estimate is an infinity or a NaN and nothing is raised.  In
    the last run the first fold has [v = [1.5; 1.5]], [d = [0; 0]] and
    [u = [-2; 0]]: its estimate -3/0 ends up in [coef_] of
    [DoubleMLPLR.fit]. *)
Lemma orth_iv_type_zero_denominator_counterexample :
  np_dot [1; 1]%float [0; 0]%float = Ok 0%float /\
  OrthDmlPlr_fit "IV-type" [1; 2]%float [0; 0]%float [0; 0]%float [-1; -1]%float
    = Ok infinity /\
  OrthDmlPlr_fit "IV-type" [1; 2]%float [0; 0]%float [0; 0]%float [0; 0]%float
    = Ok nan /\
  (DoubleMLPLR_fit (ex_plr ex_kfold2 "dml1" "IV-type") ex_X ex_y ex_d_zero
     (ex_world mean_learner)).1 = Ok neg_infinity.
Proof. repeat split; vm_compute; reflexivity. Qed.

(** Witness of C7. *)
Lemma orth_iv_type_zero_denominator_witness :
  OrthDmlPlr_fit "IV-type" [1; 2]%float [0; 0]%float [0; 0]%float [-1; -1]%float
    = Ok (3 / 0)%float /\
  f_isfinite (3 / 0)%float = false.
Proof.
  apply (orth_iv_type_zero_denominator [1; 2]%float [0; 0]%float [0; 0]%float
           [-1; -1]%float [1; 2]%float [1; 1]%float 3%float 0%float);
    vm_compute; reflexivity.
Defined.

(** Counterexample to C8: learners with a warm start.  [coef_] is 0.5,
    where private fresh copies per fold give 0: the second fold predicts
    with the models of the first.  The object held under ['ml_g'] answers
    0 before the call and 3 after it: it was refitted in place. *)
Lemma plr_shared_learners_counterexample :
  (DoubleMLPLR_fit (ex_plr ex_kfold2 "dml1" "IV-type") ex_X ex_y ex_d
     (ex_world warm_learner)).1 = Ok 0.5%float /\
  spec_dml1_theta warm_learner warm_learner ex_X ex_y ex_d ex_smpls = 0%float /\
  (fun o => predict o [[1%float]]) <$> heap (ex_world warm_learner) !! 0
    = Some [0%float] /\
  (fun o => predict o [[1%float]]) <$>
    heap (DoubleMLPLR_fit (ex_plr ex_kfold2 "dml1" "IV-type") ex_X ex_y ex_d
            (ex_world warm_learner)).2 !! 0
    = Some [3%float].
Proof. repeat split; vm_compute; reflexivity. Qed.

(** Witness of C8: learners that start each [fit] afresh; after the call
    they hold the models of the second (last) fold. *)
Lemma plr_fit_refits_held_learners_witness :
  trace (DoubleMLPLR_fit (ex_plr ex_kfold2 "dml1" "IV-type") ex_X ex_y ex_d
           (ex_world mean_learner)).2 =
    trace (ex_world mean_learner) ++
    concat (map (fold_events 0 1 ex_X ex_y ex_d)
              (split (resampling (ex_plr ex_kfold2 "dml1" "IV-type")) ex_X)) /\
  heap (DoubleMLPLR_fit (ex_plr ex_kfold2 "dml1" "IV-type") ex_X ex_y ex_d
          (ex_world mean_learner)).2 =
    foldl (fun h fd => refit_fold 0 1 ex_X ex_y ex_d fd h)
      (heap (ex_world mean_learner))
      (split (resampling (ex_plr ex_kfold2 "dml1" "IV-type")) ex_X) /\
  (forall l, l <> 0 -> l <> 1 ->
     heap (DoubleMLPLR_fit (ex_plr ex_kfold2 "dml1" "IV-type") ex_X ex_y ex_d
             (ex_world mean_learner)).2 !! l = heap (ex_world mean_learner) !! l) /\
  heap (DoubleMLPLR_fit (ex_plr ex_kfold2 "dml1" "IV-type") ex_X ex_y ex_d
          (ex_world mean_learner)).2 =
    heap_after_fold 0 1 mean_learner mean_learner ex_X ex_y ex_d ([0; 1], [2; 3])
      (heap (ex_world mean_learner)).
Proof.
  destruct (plr_fit_refits_held_learners (ex_plr ex_kfold2 "dml1" "IV-type")
              ex_X ex_y ex_d (ex_world mean_learner) 0%float
              (DoubleMLPLR_fit (ex_plr ex_kfold2 "dml1" "IV-type") ex_X ex_y ex_d
                 (ex_world mean_learner)).2 0 1 mean_learner mean_learner)
    as (Htrace & Hrefit & Hframe & Hheap).
  - vm_compute. reflexivity.
  - vm_compute. reflexivity.
  - vm_compute. reflexivity.
  - vm_compute. reflexivity.
  - vm_compute. reflexivity.
  - split; [exact Htrace|]. split; [exact Hrefit|]. split; [exact Hframe|].
    apply Hheap; [exact mean_learner_oblivious|exact mean_learner_oblivious|].
    reflexivity.
Defined.

Lemma ex_data_checks :
  check_X_y ex_X ex_y = Ok (ex_X, ex_y) /\
  check_X_y ex_X ex_z = Ok (ex_X, ex_z) /\
  check_X_y ex_X ex_d = Ok (ex_X, ex_d).
Proof. repeat split; vm_compute; reflexivity. Qed.

Lemma ex_cross_val_predictions :
  _dml_cross_val_predict 0 ex_X ex_y ex_smpls None (ex_world mean_learner)
    = (Ok ex_g_hat, ex_w1) /\
  _dml_cross_val_predict 1 ex_X ex_z ex_smpls None ex_w1 = (Ok ex_m_hat, ex_w2) /\
  _dml_cross_val_predict 2 ex_X ex_d ex_smpls None ex_w2 = (Ok ex_r_hat, ex_w3).
Proof. repeat split; vm_compute; reflexivity. Qed.

(** Witness of C3. *)
Lemma pliv_dml2018_scores_witness :
  _ml_nuisance_and_score_elements (ex_pliv (PyStr "DML2018")) ex_data ex_smpls None
    (ex_world mean_learner) =
    (Ok (spec_pliv_scores (data_y ex_data) (data_z ex_data) (data_d ex_data)
           ex_g_hat ex_m_hat ex_r_hat), ex_w3) /\
  length (spec_pliv_scores (data_y ex_data) (data_z ex_data) (data_d ex_data)
            ex_g_hat ex_m_hat ex_r_hat).1 = length (data_x ex_data) /\
  length (spec_pliv_scores (data_y ex_data) (data_z ex_data) (data_d ex_data)
            ex_g_hat ex_m_hat ex_r_hat).2 = length (data_x ex_data).
Proof.
  apply (pliv_dml2018_scores (ex_pliv (PyStr "DML2018")) ex_data ex_smpls None
           (ex_world mean_learner) 0 1 2 ex_g_hat ex_m_hat ex_r_hat ex_w1 ex_w2 ex_w3).
  - reflexivity.
  - vm_compute. reflexivity.
  - vm_compute. reflexivity.
  - vm_compute. reflexivity.
  - exact (proj1 ex_data_checks).
  - exact (proj1 (proj2 ex_data_checks)).
  - exact (proj2 (proj2 ex_data_checks)).
  - exact (proj1 ex_cross_val_predictions).
  - exact (proj1 (proj2 ex_cross_val_predictions)).
  - exact (proj2 (proj2 ex_cross_val_predictions)).
Defined.

Example ex_pliv_scores :
  spec_pliv_scores ex_y ex_z ex_d ex_g_hat ex_m_hat ex_r_hat =
  ([1; -1.5; -0; -2.5]%float, [4; -0; 0; 5]%float).
Proof. vm_compute. reflexivity. Qed.

(** Witness of C9: the custom score [ex_score]. *)
Lemma pliv_callable_scores_witness :
  _ml_nuisance_and_score_elements (ex_pliv (PyCallable ex_score)) ex_data ex_smpls None
    (ex_world mean_learner) =
    (Ok (ex_score (data_y ex_data) (data_z ex_data) (data_d ex_data)
           ex_g_hat ex_m_hat ex_r_hat ex_smpls),
     {| heap := heap ex_w3;
        trace := trace ex_w3 ++
                 [EvInfModel (data_y ex_data) (data_z ex_data) (data_d ex_data)
                    ex_g_hat ex_m_hat ex_r_hat ex_smpls] |}) /\
  calls is_inf_model_call
    (trace {| heap := heap ex_w3;
              trace := trace ex_w3 ++
                       [EvInfModel (data_y ex_data) (data_z ex_data) (data_d ex_data)
                          ex_g_hat ex_m_hat ex_r_hat ex_smpls] |}) =
    calls is_inf_model_call (trace (ex_world mean_learner)) + 1 /\
  length ex_g_hat = length (data_x ex_data) /\
  length ex_m_hat = length (data_x ex_data) /\
  length ex_r_hat = length (data_x ex_data).
Proof.
  apply (pliv_callable_scores (ex_pliv (PyCallable ex_score)) ex_data ex_smpls None
           (ex_world mean_learner) 0 1 2 ex_g_hat ex_m_hat ex_r_hat ex_w1 ex_w2 ex_w3
           ex_score).
  - reflexivity.
  - vm_compute. reflexivity.
  - vm_compute. reflexivity.
  - vm_compute. reflexivity.
  - exact (proj1 ex_data_checks).
  - exact (proj1 (proj2 ex_data_checks)).
  - exact (proj2 (proj2 ex_data_checks)).
  - exact (proj1 ex_cross_val_predictions).
  - exact (proj1 (proj2 ex_cross_val_predictions)).
  - exact (proj2 (proj2 ex_cross_val_predictions)).
Defined.

(** Witness of C6: the unrecognised string ['IV-type']. *)
Lemma check_inf_method_unknown_string_raises_TypeError_witness :
  _check_inf_method (F := float) (PyStr "IV-type")
    = Raise (TypeError "can only concatenate str (not 'list') to str") /\
  (forall r, _check_inf_method (F := float) (PyObject r)
    = Raise (ValueError ("inf_model should be either a string or a callable. "
                         +:+ r +:+ " was passed"))).
Proof.
  apply (check_inf_method_unknown_string_raises_TypeError (F := float) "IV-type").
  discriminate.
Defined.

(** The same string in a [DoubleMLPLIV] object: the method raises that
    [TypeError]; an object that is not a string raises the [ValueError]. *)
Example ex_pliv_unknown_string :
  (_ml_nuisance_and_score_elements (ex_pliv (PyStr "IV-type")) ex_data ex_smpls None
     (ex_world mean_learner)).1 =
    Raise (TypeError "can only concatenate str (not 'list') to str") /\
  (_ml_nuisance_and_score_elements (ex_pliv (PyObject "None")) ex_data ex_smpls None
     (ex_world mean_learner)).1 =
    Raise (ValueError "inf_model should be either a string or a callable. None was passed").
Proof. split; vm_compute; reflexivity. Qed.

Example ex_cross_val_perturbed :
  (_dml_cross_val_predict 0 ex_X ex_y ex_smpls None (ex_world mean_learner)).1
    = Ok [3; 3; 2; 2]%float /\
  (_dml_cross_val_predict 0 ex_X (<[0 := 100%float]> ex_y) ex_smpls None
     (ex_world mean_learner)).1
    = Ok [3; 3; 51.5; 51.5]%float.
Proof. split; vm_compute; reflexivity. Qed.

(** Row 0 is a test row of the first fold; its target is overwritten
    with 100.  The cross-validated predictions of the two targets differ at
    rows 2 and 3, whose fold trains on row 0, and agree at row 0. *)
Example ex_cross_val_agree_at_own_row :
  [3; 3; 2; 2]%float !! 0 = [3; 3; 51.5; 51.5]%float !! 0.
Proof.
  apply (cross_val_predict_ignores_own_target 0 ex_X ex_y 0 100%float ex_smpls None
           [3; 3; 2; 2]%float [3; 3; 51.5; 51.5]%float (ex_world mean_learner)
           (_dml_cross_val_predict 0 ex_X ex_y ex_smpls None (ex_world mean_learner)).2
           (_dml_cross_val_predict 0 ex_X (<[0 := 100%float]> ex_y) ex_smpls None
              (ex_world mean_learner)).2).
  - intros fd Hfd j Htrain' Htest.
    apply list_elem_of_In in Hfd. cbn in Hfd.
    destruct Hfd as [<-|[<-|[]]];
      apply list_elem_of_In in Htrain', Htest; cbn in Htrain', Htest; lia.
  - vm_compute. reflexivity.
  - vm_compute. reflexivity.
Qed.

(** Witness of X1: learners with a warm start. *)
Lemma DoubleMLPLR_fit_iff_reference_witness :
  DoubleMLPLR_fit (ex_plr ex_kfold2 "dml1" "IV-type") ex_X ex_y ex_d
    (ex_world warm_learner) =
    (Ok 0.5%float,
     (DoubleMLPLR_fit (ex_plr ex_kfold2 "dml1" "IV-type") ex_X ex_y ex_d
        (ex_world warm_learner)).2) <->
  dml_cross_fitting ex_y ex_X ex_d 1 0 (resampling (ex_plr ex_kfold2 "dml1" "IV-type"))
    (ex_world warm_learner) =
    (Ok 0.5%float,
     (DoubleMLPLR_fit (ex_plr ex_kfold2 "dml1" "IV-type") ex_X ex_y ex_d
        (ex_world warm_learner)).2).
Proof.
  apply (DoubleMLPLR_fit_iff_reference (ex_plr ex_kfold2 "dml1" "IV-type")
           ex_X ex_y ex_d (ex_world warm_learner) 0 1).
  - reflexivity.
  - reflexivity.
  - vm_compute. reflexivity.
  - vm_compute. reflexivity.
  - vm_compute. reflexivity.
  - vm_compute. reflexivity.
Defined.

(** Witness of X3: a learner map without ['ml_m']. *)
Lemma plr_fit_missing_learner_witness :
  DoubleMLPLR_fit
    {| resampling := ex_kfold2; ml_learners := <["ml_g" := 0]> ∅;
       dml_procedure := "dml1"; inf_model := "IV-type" |}
    ex_X ex_y ex_d (ex_world mean_learner)
  = (Raise (KeyError "ml_m"), ex_world mean_learner).
Proof.
  apply (plr_fit_missing_learner
           {| resampling := ex_kfold2; ml_learners := <["ml_g" := 0]> ∅;
              dml_procedure := "dml1"; inf_model := "IV-type" |}).
  vm_compute. reflexivity.
Defined.

(** Witness of X4: four rows, two outcomes. *)
Lemma plr_fit_rejects_invalid_data_witness :
  DoubleMLPLR_fit (ex_plr ex_kfold2 "dml1" "IV-type") ex_X [1; 2]%float ex_d
    (ex_world mean_learner)
  = (Raise (ValueError "Found input variables with inconsistent numbers of samples"),
     ex_world mean_learner).
Proof.
  apply (plr_fit_rejects_invalid_data (ex_plr ex_kfold2 "dml1" "IV-type")
           ex_X [1; 2]%float ex_d (ex_world mean_learner) 0 1).
  - vm_compute. reflexivity.
  - vm_compute. reflexivity.
  - vm_compute. reflexivity.
Defined.

(** Witness of X5. *)
Lemma orth_invalid_inf_model_witness :
  OrthDmlPlr_fit "dml" [1; 2]%float [1; 1]%float [0; 0]%float [0; 0]%float
  = Raise (ValueError "invalid inf_model").
Proof.
  apply (orth_invalid_inf_model "dml" [1; 2]%float [1; 1]%float [0; 0]%float
           [0; 0]%float [1; 2]%float [1; 1]%float 2%float).
  - discriminate.
  - discriminate.
  - vm_compute. reflexivity.
  - vm_compute. reflexivity.
  - vm_compute. reflexivity.
Defined.

(** ** The further properties on the concrete data *)

(** Three slots, two folds with the estimates -1 and 1: [coef_] is
    (-1 + 1 + 0) / 3. *)
Lemma plr_fit_pads_missing_folds_witness :
  length (split (resampling (ex_plr ex_short "dml1" "IV-type")) ex_X)
    <= get_n_splits (resampling (ex_plr ex_short "dml1" "IV-type")) /\
  exists thetas,
    loop_runs (dml1_fold (inf_model (ex_plr ex_short "dml1" "IV-type")) 0 1
                 ex_X ex_y ex_d)
      (split (resampling (ex_plr ex_short "dml1" "IV-type")) ex_X)
      (ex_world mean_learner) thetas
      (DoubleMLPLR_fit (ex_plr ex_short "dml1" "IV-type") ex_X ex_y ex_d
         (ex_world mean_learner)).2 /\
    0%float =
      np_mean (thetas ++ np_zeros
                 (get_n_splits (resampling (ex_plr ex_short "dml1" "IV-type"))
                  - length (split (resampling (ex_plr ex_short "dml1" "IV-type")) ex_X))).
Proof.
  apply (plr_fit_pads_missing_folds (ex_plr ex_short "dml1" "IV-type")
           ex_X ex_y ex_d (ex_world mean_learner) 0%float _ 0 1).
  - vm_compute. reflexivity.
  - vm_compute. reflexivity.
  - vm_compute. reflexivity.
Defined.

(** One slot, two folds. *)
Lemma plr_fit_too_many_folds_witness :
  (DoubleMLPLR_fit (ex_plr ex_long "dml1" "IV-type") ex_X ex_y ex_d
     (ex_world mean_learner)).1 = Raise (IndexError "index is out of bounds") /\
  trace (DoubleMLPLR_fit (ex_plr ex_long "dml1" "IV-type") ex_X ex_y ex_d
           (ex_world mean_learner)).2 =
    trace (ex_world mean_learner) ++
    concat (map (fold_events 0 1 ex_X ex_y ex_d)
              (take (S (get_n_splits (resampling (ex_plr ex_long "dml1" "IV-type"))))
                 (split (resampling (ex_plr ex_long "dml1" "IV-type")) ex_X))).
Proof.
  apply (plr_fit_too_many_folds (ex_plr ex_long "dml1" "IV-type")
           ex_X ex_y ex_d (ex_world mean_learner) 0 1 mean_learner mean_learner).
  - reflexivity.
  - reflexivity.
  - vm_compute. reflexivity.
  - vm_compute. reflexivity.
  - vm_compute. reflexivity.
  - vm_compute. reflexivity.
  - exact mean_learner_predicts_rows.
  - exact mean_learner_predicts_rows.
  - vm_compute. reflexivity.
  - vm_compute. reflexivity.
  - exact ex_kfold2_in_range.
  - vm_compute. lia.
Defined.

(** The score ['partialling out'] of later versions, which this [fit]
    does not know. *)
Lemma plr_fit_invalid_inf_model_late_witness :
  (DoubleMLPLR_fit (ex_plr ex_kfold2 "dml1" "partialling out") ex_X ex_y ex_d
     (ex_world mean_learner)).1 = Raise (ValueError "invalid inf_model") /\
  trace (DoubleMLPLR_fit (ex_plr ex_kfold2 "dml1" "partialling out") ex_X ex_y ex_d
           (ex_world mean_learner)).2 =
    trace (ex_world mean_learner) ++ fold_events 0 1 ex_X ex_y ex_d ([2; 3], [0; 1]).
Proof.
  apply (plr_fit_invalid_inf_model_late (ex_plr ex_kfold2 "dml1" "partialling out")
           ex_X ex_y ex_d (ex_world mean_learner) 0 1 mean_learner mean_learner
           ([2; 3], [0; 1]) [([0; 1], [2; 3])]).
  - reflexivity.
  - discriminate.
  - discriminate.
  - vm_compute. reflexivity.
  - vm_compute. reflexivity.
  - vm_compute. reflexivity.
  - vm_compute. reflexivity.
  - exact mean_learner_predicts_rows.
  - exact mean_learner_predicts_rows.
  - vm_compute. reflexivity.
  - vm_compute. reflexivity.
  - reflexivity.
  - split; cbn; repeat constructor.
Defined.

(** A test index 7 on four rows. *)
Lemma plr_fit_test_index_out_of_bounds_witness :
  DoubleMLPLR_fit (ex_plr ex_beyond "dml1" "IV-type") ex_X ex_y ex_d
    (ex_world mean_learner) =
    (Raise (IndexError "index is out of bounds"),
     {| heap := <[0 := fitted mean_learner (rows ex_X [2; 3]) (rows ex_y [2; 3])]>
                  (heap (ex_world mean_learner));
        trace := trace (ex_world mean_learner) ++
                 [EvFit (Shared 0) (rows ex_X [2; 3]) (rows ex_y [2; 3])] |}).
Proof.
  apply (plr_fit_test_index_out_of_bounds (ex_plr ex_beyond "dml1" "IV-type")
           ex_X ex_y ex_d (ex_world mean_learner) 0 1 mean_learner
           [2; 3] [0; 7] [([0; 1], [2; 3])]).
  - reflexivity.
  - vm_compute. reflexivity.
  - vm_compute. reflexivity.
  - vm_compute. reflexivity.
  - vm_compute. reflexivity.
  - vm_compute. reflexivity.
  - reflexivity.
  - cbn. repeat constructor.
  - apply Exists_cons_tl, Exists_cons_hd. cbn. lia.
Defined.

(** The object under ['ml_g'] predicts 0 before that call and 3 after it. *)
Example ex_beyond_leaves_learner_changed :
  (fun o => predict o [[1%float]]) <$> (heap (ex_world mean_learner) !! 0)
    = Some [0%float] /\
  (fun o => predict o [[1%float]]) <$>
    (heap (DoubleMLPLR_fit (ex_plr ex_beyond "dml1" "IV-type") ex_X ex_y ex_d
             (ex_world mean_learner)).2 !! 0)
    = Some [3%float].
Proof. split; vm_compute; reflexivity. Qed.

Example ex_orth_broadcast :
  OrthDmlPlr_fit "IV-type" [1; 3]%float [2; 0]%float [3]%float [1]%float
    = Ok (-2 / 2)%float.
Proof. vm_compute. reflexivity. Qed.

Lemma plr_fit_twice_witness :
  is_ok (DoubleMLPLR_fit (ex_plr ex_kfold2 "dml1" "IV-type") ex_X ex_y ex_d
           (ex_world mean_learner)).1 = true /\
  (DoubleMLPLR_fit (ex_plr ex_kfold2 "dml1" "IV-type") ex_X ex_y ex_d
     (DoubleMLPLR_fit (ex_plr ex_kfold2 "dml1" "IV-type") ex_X ex_y ex_d
        (ex_world mean_learner)).2).1 =
  (DoubleMLPLR_fit (ex_plr ex_kfold2 "dml1" "IV-type") ex_X ex_y ex_d
     (ex_world mean_learner)).1 /\
  heap (DoubleMLPLR_fit (ex_plr ex_kfold2 "dml1" "IV-type") ex_X ex_y ex_d
          (DoubleMLPLR_fit (ex_plr ex_kfold2 "dml1" "IV-type") ex_X ex_y ex_d
             (ex_world mean_learner)).2).2 =
  heap (DoubleMLPLR_fit (ex_plr ex_kfold2 "dml1" "IV-type") ex_X ex_y ex_d
          (ex_world mean_learner)).2.
Proof.
  apply (plr_fit_twice (ex_plr ex_kfold2 "dml1" "IV-type") ex_X ex_y ex_d
           (ex_world mean_learner) 0 1 mean_learner mean_learner).
  - reflexivity.
  - reflexivity.
  - vm_compute. reflexivity.
  - vm_compute. reflexivity.
  - vm_compute. reflexivity.
  - vm_compute. reflexivity.
  - exact mean_learner_oblivious.
  - exact mean_learner_oblivious.
  - exact mean_learner_predicts_rows.
  - exact mean_learner_predicts_rows.
  - vm_compute. reflexivity.
  - vm_compute. reflexivity.
  - reflexivity.
  - exact ex_kfold2_in_range.
Defined.


(** In exact arithmetic: adding [2 * d] to [y] moves the estimate from
    5/7 to 5/7 + 2. *)
Lemma orth_iv_type_shift_equivariant_witness :
  OrthDmlPlr_fit (H := rational) "IV-type"
    (zip_with (fun yi di => yi + qc 2 * di)%Qc ex_qy ex_qd) ex_qd ex_qg ex_qm
  = Ok (Q2Qc (5 # 7) + qc 2)%Qc.
Proof.
  apply (orth_iv_type_shift_equivariant (qc 2) (Q2Qc (5 # 7)) ex_qy ex_qd ex_qg ex_qm).
  - reflexivity.
  - reflexivity.
  - reflexivity.
  - vm_compute. discriminate.
  - reflexivity.
Defined.

(** The treatment [ex_d_flat] is predicted exactly on the test rows of the
    first fold: its estimate is 0/0, and so is [coef_]. *)
Lemma plr_coef_nan_if_fold_nan_witness :
  PrimFloat.is_nan nan = true.
Proof.
  apply (plr_coef_nan_if_fold_nan (ex_plr ex_kfold2 "dml1" "IV-type")
           ex_X ex_y ex_d_flat (ex_world mean_learner) nan
           (DoubleMLPLR_fit (ex_plr ex_kfold2 "dml1" "IV-type") ex_X ex_y ex_d_flat
              (ex_world mean_learner)).2
           0 1 [nan; 1%float]
           (DoubleMLPLR_fit (ex_plr ex_kfold2 "dml1" "IV-type") ex_X ex_y ex_d_flat
              (ex_world mean_learner)).2).
  - vm_compute. reflexivity.
  - vm_compute. reflexivity.
  - vm_compute. reflexivity.
  - eapply loop_runs_cons; [vm_compute; reflexivity|].
    eapply loop_runs_cons; [vm_compute; reflexivity|].
    vm_compute. apply loop_runs_nil.
  - apply Exists_cons_hd. reflexivity.
Defined.

Lemma plr_fit_no_folds_witness :
  DoubleMLPLR_fit (ex_plr ex_no_folds "dml1" "IV-type") ex_X ex_y ex_d
    (ex_world mean_learner) =
    (Ok (np_mean (np_zeros (get_n_splits (resampling (ex_plr ex_no_folds "dml1" "IV-type"))))),
     ex_world mean_learner) /\
  (get_n_splits (resampling (ex_plr ex_no_folds "dml1" "IV-type")) = 0 ->
   PrimFloat.is_nan
     (np_mean (np_zeros (get_n_splits (resampling (ex_plr ex_no_folds "dml1" "IV-type")))))
   = true).
Proof.
  apply (plr_fit_no_folds (ex_plr ex_no_folds "dml1" "IV-type") ex_X ex_y ex_d
           (ex_world mean_learner) 0 1).
  - reflexivity.
  - vm_compute. reflexivity.
  - vm_compute. reflexivity.
  - vm_compute. reflexivity.
  - vm_compute. reflexivity.
  - reflexivity.
Defined.

(** A PLIV object without ['ml_m'] and without ['ml_r']. *)
Lemma pliv_missing_learner_witness :
  _ml_nuisance_and_score_elements
    {| pliv_ml_learners := <["ml_g" := 0]> ∅; pliv_inf_model := PyStr "DML2018" |}
    ex_data ex_smpls None (ex_world mean_learner)
  = (Raise (KeyError "ml_m"), ex_world mean_learner) /\
  _ml_nuisance_tuning ex_model_selection
    {| pliv_ml_learners := <["ml_g" := 0]> ∅; pliv_inf_model := PyStr "DML2018" |}
    ex_data ex_smpls ex_grids None 3 None (ex_world mean_learner)
  = Throw (Builtin (KeyError "ml_m")).
Proof.
  apply (pliv_missing_learner ex_model_selection
           {| pliv_ml_learners := <["ml_g" := 0]> ∅; pliv_inf_model := PyStr "DML2018" |}
           ex_data ex_smpls None ex_grids None 3%Z (ex_world mean_learner) "ml_m").
  vm_compute. reflexivity.
Defined.

(** An instrument with three entries for four rows. *)
Lemma pliv_rejects_invalid_data_witness :
  _ml_nuisance_and_score_elements (ex_pliv (PyStr "DML2018"))
    {| data_x := ex_X; data_y := ex_y; data_z := [0; 1; 1]%float; data_d := ex_d |}
    ex_smpls None (ex_world mean_learner)
  = (Raise (ValueError "Found input variables with inconsistent numbers of samples"),
     ex_world mean_learner) /\
  _ml_nuisance_tuning ex_model_selection (ex_pliv (PyStr "DML2018"))
    {| data_x := ex_X; data_y := ex_y; data_z := [0; 1; 1]%float; data_d := ex_d |}
    ex_smpls ex_grids None 3 None (ex_world mean_learner)
  = Throw (Builtin
             (ValueError "Found input variables with inconsistent numbers of samples")).
Proof.
  apply (pliv_rejects_invalid_data ex_model_selection (ex_pliv (PyStr "DML2018"))
           {| data_x := ex_X; data_y := ex_y; data_z := [0; 1; 1]%float; data_d := ex_d |}
           ex_smpls None ex_grids None 3%Z (ex_world mean_learner)).
  - vm_compute. reflexivity.
  - vm_compute. reflexivity.
Defined.

Example ex_tuning_returns : ex_tuning = Return ex_tune_result.
Proof. vm_compute. reflexivity. Qed.

Lemma pliv_tuning_results_witness :
  exists gs ms' rs,
    Forall2 (fun fd t =>
      grid_search_fit ex_model_selection (ex_world mean_learner) ex_grids
        (scoring_dict None) 3 0 "param_grid_g" "scoring_methods_g"
        (data_x ex_data) (data_y ex_data) fd.1 = Return t) ex_smpls gs /\
    Forall2 (fun fd t =>
      grid_search_fit ex_model_selection (ex_world mean_learner) ex_grids
        (scoring_dict None) 3 1 "param_grid_m" "scoring_methods_m"
        (data_x ex_data) (data_z ex_data) fd.1 = Return t) ex_smpls ms' /\
    Forall2 (fun fd t =>
      grid_search_fit ex_model_selection (ex_world mean_learner) ex_grids
        (scoring_dict None) 3 2 "param_grid_r" "scoring_methods_r"
        (data_x ex_data) (data_d ex_data) fd.1 = Return t) ex_smpls rs /\
    res_tune_res ex_tune_result = tune_dict (Some <$> gs) (Some <$> ms') (Some <$> rs) /\
    res_params ex_tune_result =
      params_dict (best_params_ ex_model_selection <$> gs)
        (best_params_ ex_model_selection <$> ms')
        (best_params_ ex_model_selection <$> rs).
Proof.
  apply (pliv_tuning_results ex_model_selection (ex_pliv (PyStr "DML2018")) ex_data
           ex_smpls ex_grids None 3%Z None (ex_world mean_learner) ex_tune_result 0 1 2).
  - vm_compute. reflexivity.
  - vm_compute. reflexivity.
  - vm_compute. reflexivity.
  - vm_compute. reflexivity.
Defined.

(** The same train rows with other test rows, some of them beyond the
    data. *)
Lemma pliv_tuning_ignores_test_index_witness :
  _ml_nuisance_tuning ex_model_selection (ex_pliv (PyStr "DML2018")) ex_data
    ex_smpls ex_grids None 3 None (ex_world mean_learner) =
  _ml_nuisance_tuning ex_model_selection (ex_pliv (PyStr "DML2018")) ex_data
    [([2; 3], []); ([0; 1], [9])] ex_grids None 3 None (ex_world mean_learner).
Proof.
  apply (pliv_tuning_ignores_test_index ex_model_selection (ex_pliv (PyStr "DML2018"))
           ex_data ex_smpls [([2; 3], []); ([0; 1], [9])]).
  reflexivity.
Defined.

(** No folds, no grids, and a number of tuning folds that [KFold] would
    refuse. *)
Lemma pliv_tuning_no_folds_witness :
  _ml_nuisance_tuning ex_model_selection (ex_pliv (PyStr "DML2018")) ex_data []
    ∅ None 0 None (ex_world mean_learner) =
  Return {| res_params := params_dict [] [] []; res_tune_res := tune_dict [] [] [] |}.
Proof.
  apply (pliv_tuning_no_folds ex_model_selection (ex_pliv (PyStr "DML2018")) ex_data
           ∅ None 0%Z None (ex_world mean_learner)).
  - vm_compute. reflexivity.
  - vm_compute. reflexivity.
Defined.

(** Grids for ['ml_g'] only. *)
Lemma pliv_tuning_missing_grid_late_witness :
  _ml_nuisance_tuning ex_model_selection (ex_pliv (PyStr "DML2018")) ex_data
    (([2; 3], [0; 1]) :: [([0; 1], [2; 3])]) ex_grids_g None 3 None
    (ex_world mean_learner)
  = Throw (Builtin (KeyError "param_grid_m")).
Proof.
  apply (pliv_tuning_missing_grid_late ex_model_selection (ex_pliv (PyStr "DML2018"))
           ex_data ([2; 3], [0; 1]) [([0; 1], [2; 3])] ex_grids_g None 3%Z None
           (ex_world mean_learner) 0 1 mean_learner 3%float).
  - vm_compute. reflexivity.
  - vm_compute. reflexivity.
  - vm_compute. reflexivity.
  - vm_compute. reflexivity.
  - vm_compute. reflexivity.
  - vm_compute. reflexivity.
  - vm_compute. reflexivity.
Defined.

(** From the attributes as [__init__] leaves them. *)
Lemma pliv_tuning_then_set_params_witness :
  exists g m r,
    _set_ml_nuisance_params (res_params ex_tune_result) DoubleMLPLIV__init__ =
      (Ok tt, {| _g_params := Some g; _m_params := Some m; _r_params := Some r |}) /\
    length g = length ex_smpls /\ length m = length ex_smpls /\
    length r = length ex_smpls.
Proof.
  apply (pliv_tuning_then_set_params ex_model_selection (ex_pliv (PyStr "DML2018"))
           ex_data ex_smpls ex_grids None 3%Z None (ex_world mean_learner)
           ex_tune_result DoubleMLPLIV__init__).
  vm_compute. reflexivity.
Defined.

Example ex_set_params_partial :
  _set_ml_nuisance_params (<["g_params" := 1]> ∅)
    {| _g_params := Some 0; _m_params := Some 0; _r_params := Some 0 |}
  = (Raise (KeyError "m_params"),
     {| _g_params := Some 1; _m_params := Some 0; _r_params := Some 0 |}).
Proof. vm_compute. reflexivity. Qed.

(** Learners with a warm start at the places 0 and 1 of one world and at
    the places 5 and 6 of another. *)
Lemma plr_fit_depends_on_learner_states_witness :
  (DoubleMLPLR_fit (ex_plr ex_kfold2 "dml1" "IV-type") ex_X ex_y ex_d
     (ex_world warm_learner)).1 =
  (DoubleMLPLR_fit (ex_plr_at 5 6) ex_X ex_y ex_d ex_other_world).1.
Proof.
  apply (plr_fit_depends_on_learner_states (ex_plr ex_kfold2 "dml1" "IV-type")
           (ex_plr_at 5 6) ex_X ex_y ex_d (ex_world warm_learner) ex_other_world
           0 1 5 6).
  - reflexivity.
  - reflexivity.
  - reflexivity.
  - vm_compute. reflexivity.
  - vm_compute. reflexivity.
  - vm_compute. reflexivity.
  - vm_compute. reflexivity.
  - exists warm_learner, warm_learner.
    repeat split; try (vm_compute; reflexivity); discriminate.
Defined.

Lemma plr_fit_agrees_with_reference_on_copies_witness :
  (dml_cross_fitting ex_y ex_X ex_d 6 5
     (resampling (ex_plr ex_kfold2 "dml1" "IV-type")) ex_other_world).1
  = Ok 0.5%float.
Proof.
  apply (plr_fit_agrees_with_reference_on_copies (ex_plr ex_kfold2 "dml1" "IV-type")
           ex_X ex_y ex_d (ex_world warm_learner) ex_other_world 0 1 5 6 0.5%float).
  - reflexivity.
  - reflexivity.
  - vm_compute. reflexivity.
  - vm_compute. reflexivity.
  - vm_compute. reflexivity.
  - vm_compute. reflexivity.
  - exists warm_learner, warm_learner.
    repeat split; try (vm_compute; reflexivity); discriminate.
  - vm_compute. reflexivity.
Defined.

(** Counterexample to C2: a deterministic learner with a warm start.  Row
    2 is a test row of the second fold, whose train rows are 0 and 1.  The
    first fold trains on the rows 2 and 3, and the object keeps that model:
    in the second fold the prediction for row 2 is 3 with the target as it
    is and 52 when [y[2]] alone is set to 100, and [coef_] moves from 0.5
    to -24.  A model trained on the rows 0 and 1 predicts 2 in both. *)
Lemma plr_oof_warm_start_counterexample :
  (2 ∈ [2; 3]) /\ (2 ∉ [0; 1]) /\
  (fit_predict 0 ex_X ex_y [0; 1] [2; 3]
     (dml1_fold "IV-type" 0 1 ex_X ex_y ex_d ([2; 3], [0; 1])
        (ex_world warm_learner)).2).1 = Ok [3; 3]%float /\
  (fit_predict 0 ex_X (<[2 := 100%float]> ex_y) [0; 1] [2; 3]
     (dml1_fold "IV-type" 0 1 ex_X (<[2 := 100%float]> ex_y) ex_d ([2; 3], [0; 1])
        (ex_world warm_learner)).2).1 = Ok [52; 52]%float /\
  (DoubleMLPLR_fit (ex_plr ex_kfold2 "dml1" "IV-type") ex_X ex_y ex_d
     (ex_world warm_learner)).1 = Ok 0.5%float /\
  (DoubleMLPLR_fit (ex_plr ex_kfold2 "dml1" "IV-type") ex_X (<[2 := 100%float]> ex_y) ex_d
     (ex_world warm_learner)).1 = Ok (-24)%float /\
  spec_oof_prediction warm_learner ex_X ex_y [0; 1] [2; 3] = [2; 2]%float /\
  spec_oof_prediction warm_learner ex_X (<[2 := 100%float]> ex_y) [0; 1] [2; 3]
    = [2; 2]%float.
Proof.
  split; [apply list_elem_of_here|].
  split; [intros Hin; apply list_elem_of_In in Hin; cbn in Hin; lia|].
  repeat split; vm_compute; reflexivity.
Qed.

(** Witness of C2: the same rows with a learner that starts each [fit]
    afresh.  After the first fold the two runs have left the learners in
    different states (the means of [y[2], y[3]] and of [d[2], d[3]]); the
    predictions of the second fold are the same. *)
Lemma plr_oof_prediction_ignores_own_target_witness :
  (fit_predict 0 ex_X ex_y [0; 1] [2; 3]
     (dml1_fold "IV-type" 0 1 ex_X ex_y ex_d ([2; 3], [0; 1])
        (ex_world mean_learner)).2).1 =
  (fit_predict 0 ex_X (<[2 := 100%float]> ex_y) [0; 1] [2; 3]
     (dml1_fold "IV-type" 0 1 ex_X (<[2 := 100%float]> ex_y) (<[2 := 50%float]> ex_d)
        ([2; 3], [0; 1]) (ex_world mean_learner)).2).1 /\
  (fit_predict 1 ex_X ex_d [0; 1] [2; 3]
     (fit_predict 0 ex_X ex_y [0; 1] [2; 3]
        (dml1_fold "IV-type" 0 1 ex_X ex_y ex_d ([2; 3], [0; 1])
           (ex_world mean_learner)).2).2).1 =
  (fit_predict 1 ex_X (<[2 := 50%float]> ex_d) [0; 1] [2; 3]
     (fit_predict 0 ex_X (<[2 := 100%float]> ex_y) [0; 1] [2; 3]
        (dml1_fold "IV-type" 0 1 ex_X (<[2 := 100%float]> ex_y) (<[2 := 50%float]> ex_d)
           ([2; 3], [0; 1]) (ex_world mean_learner)).2).2).1.
Proof.
  apply (plr_oof_prediction_ignores_own_target (ex_plr ex_kfold2 "dml1" "IV-type")
           ex_X ex_y ex_d 2 100%float 50%float 0 1 mean_learner mean_learner
           [([2; 3], [0; 1])] ([0; 1], [2; 3]) [] (ex_world mean_learner)
           [(-1)%float]
           (dml1_fold "IV-type" 0 1 ex_X ex_y ex_d ([2; 3], [0; 1])
              (ex_world mean_learner)).2
           [(-2498 / 48)%float]
           (dml1_fold "IV-type" 0 1 ex_X (<[2 := 100%float]> ex_y) (<[2 := 50%float]> ex_d)
              ([2; 3], [0; 1]) (ex_world mean_learner)).2).
  - vm_compute. reflexivity.
  - vm_compute. reflexivity.
  - vm_compute. reflexivity.
  - vm_compute. reflexivity.
  - exact mean_learner_oblivious.
  - exact mean_learner_oblivious.
  - reflexivity.
  - apply list_elem_of_here.
  - intros j Htrain Htest.
    apply list_elem_of_In in Htrain, Htest. cbn in Htrain, Htest. lia.
  - eapply loop_runs_cons; [vm_compute; reflexivity|]. vm_compute. apply loop_runs_nil.
  - eapply loop_runs_cons; [vm_compute; reflexivity|]. vm_compute. apply loop_runs_nil.
Defined.

(** The states the two runs have left under ['ml_g'] before the second
    fold differ. *)
Example ex_oof_states_differ :
  (fun o => predict o [[1%float]]) <$>
    (heap (dml1_fold "IV-type" 0 1 ex_X ex_y ex_d ([2; 3], [0; 1])
             (ex_world mean_learner)).2 !! 0) = Some [3%float] /\
  (fun o => predict o [[1%float]]) <$>
    (heap (dml1_fold "IV-type" 0 1 ex_X (<[2 := 100%float]> ex_y) (<[2 := 50%float]> ex_d)
             ([2; 3], [0; 1]) (ex_world mean_learner)).2 !! 0) = Some [52%float].
Proof. split; vm_compute; reflexivity. Qed.
